(** * esp8266 waveform generator: a shallow embedding of
      cores/esp8266/core_esp8266_waveform.cpp

    The file models the single-timer software waveform generator: the
    per-pin channel records, the request interface ([startWaveformClockCycles],
    [stopWaveform], [setTimer1Callback]) and the NMI handler
    [timer1Interrupt] that services the channels.

    Conventions.
    - A [uint32_t] is a [Z] in [0, 2^32); every assignment to such a variable
      is wrapped with [u32].  A cast to [int32_t] is [s32].
    - C++ undefined behaviour (division by zero, an array access out of
      bounds, a shift by a negative or too large amount) is the outcome
      [Undefined]; a loop of the model that is cut off is [OutOfFuel].
    - [ESP.getCycleCount()] reads an oracle [clk : nat -> Z]; the machine
      counts the reads made so far. *)

From Stdlib Require Import ZArith Bool Lia List.
From stdpp Require Import base list.

Local Open Scope Z_scope.

(** ** Machine integers *)

Definition u32 (x : Z) : Z := x mod 2 ^ 32.

Definition s32 (x : Z) : Z :=
  let y := u32 x in if y <? 2 ^ 31 then y else y - 2 ^ 32.

(** [1UL << n]; shifting by a negative amount or by 32 or more is undefined. *)
Definition bitmask (n : Z) : Z := Z.shiftl 1 n.

(** [x & (1UL << n)] taken as a truth value. *)
Definition isSet (x n : Z) : bool := negb (Z.land x (bitmask n) =? 0).

Fixpoint ctz_pos (p : positive) : Z :=
  match p with
  | xO q => 1 + ctz_pos q
  | _ => 0
  end.

(** GCC's find-first-set: one plus the index of the lowest set bit, 0 for 0. *)
Definition builtin_ffs (x : Z) : Z :=
  match x with
  | Zpos p => 1 + ctz_pos p
  | _ => 0
  end.

(** ** Outcomes of a run *)

Inductive Outcome (A : Type) : Type :=
| Done (a : A)
| Undefined
| OutOfFuel.

Arguments Done {A} a.
Arguments Undefined {A}.
Arguments OutOfFuel {A}.

Definition bind {A B : Type} (x : Outcome A) (k : A -> Outcome B) : Outcome B :=
  match x with
  | Done a => k a
  | Undefined => Undefined
  | OutOfFuel => OutOfFuel
  end.

Notation "x <- e ;; k" := (bind e (fun x => k))
  (at level 100, e at next level, right associativity).

(** ** Data model *)

(** [enum class WaveformMode]. *)
Inductive WaveformMode : Type := INFINITE | EXPIRES | UPDATEEXPIRY | INIT.

Definition isEXPIRES (md : WaveformMode) : bool :=
  match md with EXPIRES => true | _ => false end.

(** [struct Waveform]: one channel record. *)
Record Waveform : Type := mkWaveform {
  nextEventCcy : Z;
  nextPeriodCcy : Z;
  endDutyCcy : Z;
  dutyCcys : Z;
  periodCcys : Z;
  expiryCcy : Z;
  mode : WaveformMode;
  alignPhase : Z;
  autoPwm : bool
}.

Definition set_nextEventCcy (v : Z) (w : Waveform) : Waveform :=
  mkWaveform v (nextPeriodCcy w) (endDutyCcy w) (dutyCcys w) (periodCcys w)
    (expiryCcy w) (mode w) (alignPhase w) (autoPwm w).
Definition set_nextPeriodCcy (v : Z) (w : Waveform) : Waveform :=
  mkWaveform (nextEventCcy w) v (endDutyCcy w) (dutyCcys w) (periodCcys w)
    (expiryCcy w) (mode w) (alignPhase w) (autoPwm w).
Definition set_endDutyCcy (v : Z) (w : Waveform) : Waveform :=
  mkWaveform (nextEventCcy w) (nextPeriodCcy w) v (dutyCcys w) (periodCcys w)
    (expiryCcy w) (mode w) (alignPhase w) (autoPwm w).
Definition set_dutyCcys (v : Z) (w : Waveform) : Waveform :=
  mkWaveform (nextEventCcy w) (nextPeriodCcy w) (endDutyCcy w) v (periodCcys w)
    (expiryCcy w) (mode w) (alignPhase w) (autoPwm w).
Definition set_periodCcys (v : Z) (w : Waveform) : Waveform :=
  mkWaveform (nextEventCcy w) (nextPeriodCcy w) (endDutyCcy w) (dutyCcys w) v
    (expiryCcy w) (mode w) (alignPhase w) (autoPwm w).
Definition set_expiryCcy (v : Z) (w : Waveform) : Waveform :=
  mkWaveform (nextEventCcy w) (nextPeriodCcy w) (endDutyCcy w) (dutyCcys w)
    (periodCcys w) v (mode w) (alignPhase w) (autoPwm w).
Definition set_mode (v : WaveformMode) (w : Waveform) : Waveform :=
  mkWaveform (nextEventCcy w) (nextPeriodCcy w) (endDutyCcy w) (dutyCcys w)
    (periodCcys w) (expiryCcy w) v (alignPhase w) (autoPwm w).
Definition set_alignPhase (v : Z) (w : Waveform) : Waveform :=
  mkWaveform (nextEventCcy w) (nextPeriodCcy w) (endDutyCcy w) (dutyCcys w)
    (periodCcys w) (expiryCcy w) (mode w) v (autoPwm w).
Definition set_autoPwm (v : bool) (w : Waveform) : Waveform :=
  mkWaveform (nextEventCcy w) (nextPeriodCcy w) (endDutyCcy w) (dutyCcys w)
    (periodCcys w) (expiryCcy w) (mode w) (alignPhase w) v.

(** The anonymous [waveform] struct, the three [static] variables of
    [timer1Interrupt], the hardware registers the file writes and the number
    of cycle-counter reads made so far.  A periodic callback is a function
    from the cycle count at which it is called to the delay it asks for. *)
Record Machine : Type := mkMachine {
  pins : list Waveform;
  states : Z;
  enabled : Z;
  toSet : Z;
  toDisable : Z;
  timer1CB : option (Z -> Z);
  timer1Running : bool;
  startPin : Z;
  endPin : Z;
  nextPin : Z;
  GPO : Z;              (* GPIO 0-15 output latch, set by GPOS, cleared by GPOC *)
  GP16O : Z;            (* GPIO16 output register *)
  T1L : Z;              (* TIMER1 load register *)
  T1enabled : bool;     (* timer1_enable / timer1_disable *)
  nmiAttached : bool;   (* ETS_FRC_TIMER1_NMI_INTR_ATTACH *)
  edgeIntEnabled : bool;(* TEIE |= TEIE1 *)
  reads : nat
}.

Definition set_pins (v : list Waveform) (m : Machine) : Machine :=
  mkMachine v (states m) (enabled m) (toSet m) (toDisable m) (timer1CB m)
    (timer1Running m) (startPin m) (endPin m) (nextPin m) (GPO m) (GP16O m)
    (T1L m) (T1enabled m) (nmiAttached m) (edgeIntEnabled m) (reads m).
Definition set_states (v : Z) (m : Machine) : Machine :=
  mkMachine (pins m) v (enabled m) (toSet m) (toDisable m) (timer1CB m)
    (timer1Running m) (startPin m) (endPin m) (nextPin m) (GPO m) (GP16O m)
    (T1L m) (T1enabled m) (nmiAttached m) (edgeIntEnabled m) (reads m).
Definition set_enabled (v : Z) (m : Machine) : Machine :=
  mkMachine (pins m) (states m) v (toSet m) (toDisable m) (timer1CB m)
    (timer1Running m) (startPin m) (endPin m) (nextPin m) (GPO m) (GP16O m)
    (T1L m) (T1enabled m) (nmiAttached m) (edgeIntEnabled m) (reads m).
Definition set_toSet (v : Z) (m : Machine) : Machine :=
  mkMachine (pins m) (states m) (enabled m) v (toDisable m) (timer1CB m)
    (timer1Running m) (startPin m) (endPin m) (nextPin m) (GPO m) (GP16O m)
    (T1L m) (T1enabled m) (nmiAttached m) (edgeIntEnabled m) (reads m).
Definition set_toDisable (v : Z) (m : Machine) : Machine :=
  mkMachine (pins m) (states m) (enabled m) (toSet m) v (timer1CB m)
    (timer1Running m) (startPin m) (endPin m) (nextPin m) (GPO m) (GP16O m)
    (T1L m) (T1enabled m) (nmiAttached m) (edgeIntEnabled m) (reads m).
Definition set_timer1CB (v : option (Z -> Z)) (m : Machine) : Machine :=
  mkMachine (pins m) (states m) (enabled m) (toSet m) (toDisable m) v
    (timer1Running m) (startPin m) (endPin m) (nextPin m) (GPO m) (GP16O m)
    (T1L m) (T1enabled m) (nmiAttached m) (edgeIntEnabled m) (reads m).
Definition set_timer1Running (v : bool) (m : Machine) : Machine :=
  mkMachine (pins m) (states m) (enabled m) (toSet m) (toDisable m) (timer1CB m)
    v (startPin m) (endPin m) (nextPin m) (GPO m) (GP16O m)
    (T1L m) (T1enabled m) (nmiAttached m) (edgeIntEnabled m) (reads m).
Definition set_span (s e : Z) (m : Machine) : Machine :=
  mkMachine (pins m) (states m) (enabled m) (toSet m) (toDisable m) (timer1CB m)
    (timer1Running m) s e (nextPin m) (GPO m) (GP16O m)
    (T1L m) (T1enabled m) (nmiAttached m) (edgeIntEnabled m) (reads m).
Definition set_nextPin (v : Z) (m : Machine) : Machine :=
  mkMachine (pins m) (states m) (enabled m) (toSet m) (toDisable m) (timer1CB m)
    (timer1Running m) (startPin m) (endPin m) v (GPO m) (GP16O m)
    (T1L m) (T1enabled m) (nmiAttached m) (edgeIntEnabled m) (reads m).
Definition set_GPO (v : Z) (m : Machine) : Machine :=
  mkMachine (pins m) (states m) (enabled m) (toSet m) (toDisable m) (timer1CB m)
    (timer1Running m) (startPin m) (endPin m) (nextPin m) v (GP16O m)
    (T1L m) (T1enabled m) (nmiAttached m) (edgeIntEnabled m) (reads m).
Definition set_GP16O (v : Z) (m : Machine) : Machine :=
  mkMachine (pins m) (states m) (enabled m) (toSet m) (toDisable m) (timer1CB m)
    (timer1Running m) (startPin m) (endPin m) (nextPin m) (GPO m) v
    (T1L m) (T1enabled m) (nmiAttached m) (edgeIntEnabled m) (reads m).
Definition set_T1L (v : Z) (m : Machine) : Machine :=
  mkMachine (pins m) (states m) (enabled m) (toSet m) (toDisable m) (timer1CB m)
    (timer1Running m) (startPin m) (endPin m) (nextPin m) (GPO m) (GP16O m)
    v (T1enabled m) (nmiAttached m) (edgeIntEnabled m) (reads m).
Definition set_timerHw (en nmi : bool) (m : Machine) : Machine :=
  mkMachine (pins m) (states m) (enabled m) (toSet m) (toDisable m) (timer1CB m)
    (timer1Running m) (startPin m) (endPin m) (nextPin m) (GPO m) (GP16O m)
    (T1L m) en nmi (edgeIntEnabled m) (reads m).
Definition set_edgeIntEnabled (v : bool) (m : Machine) : Machine :=
  mkMachine (pins m) (states m) (enabled m) (toSet m) (toDisable m) (timer1CB m)
    (timer1Running m) (startPin m) (endPin m) (nextPin m) (GPO m) (GP16O m)
    (T1L m) (T1enabled m) (nmiAttached m) v (reads m).
Definition set_reads (v : nat) (m : Machine) : Machine :=
  mkMachine (pins m) (states m) (enabled m) (toSet m) (toDisable m) (timer1CB m)
    (timer1Running m) (startPin m) (endPin m) (nextPin m) (GPO m) (GP16O m)
    (T1L m) (T1enabled m) (nmiAttached m) (edgeIntEnabled m) v.

(** [waveform.pins[i]]: the array has the length of the list; an index
    outside it is an out-of-bounds access. *)
Definition getPin (m : Machine) (i : Z) : Outcome Waveform :=
  if i <? 0 then Undefined
  else match pins m !! Z.to_nat i with
       | Some w => Done w
       | None => Undefined
       end.

Definition putPin (i : Z) (w : Waveform) (m : Machine) : Machine :=
  set_pins (<[Z.to_nat i := w]> (pins m)) m.

(** [1UL << n] with the check that makes the shift defined. *)
Definition shl1 (n : Z) : Outcome Z :=
  if (0 <=? n) && (n <? 32) then Done (bitmask n) else Undefined.

(** [SetGPIO(1UL << pin)] / [ClearGPIO(1UL << pin)], or the read-modify-write
    of [GP16O] for pin 16. *)
Definition writePin (pin : Z) (high : bool) (m : Machine) : Machine :=
  if pin =? 16 then
    set_GP16O (if high then Z.lor (GP16O m) 1 else Z.ldiff (GP16O m) 1) m
  else
    set_GPO (if high then Z.lor (GPO m) (bitmask pin)
             else Z.ldiff (GPO m) (bitmask pin)) m.

(** The level last written to the physical pin. *)
Definition pinLevel (m : Machine) (pin : Z) : bool :=
  if pin =? 16 then Z.testbit (GP16O m) 0 else Z.testbit (GPO m) pin.

(** ** The platform

    What the file takes from [Arduino.h] and the toolchain and does not
    define itself. *)
Record Platform : Type := mkPlatform {
  clockCyclesPerMicrosecond : Z;
  microsecondsToClockCycles : Z -> Z;
  isFlashInterfacePin : Z -> bool;
  clz0 : Z   (* what [__builtin_clz(0)] happens to return; GCC leaves it open *)
}.

Section Generator.

Variable hw : Platform.

(** ** Constants *)

Definition MAXIRQCCYS : Z := microsecondsToClockCycles hw 10000.
Definition ISRTIMEOUTCCYS : Z := microsecondsToClockCycles hw 14.
Definition DELTAIRQ : Z :=
  if clockCyclesPerMicrosecond hw =? 160
  then Z.shiftr (microsecondsToClockCycles hw 4) 1
  else microsecondsToClockCycles hw 4.
Definition IRQLATENCY : Z :=
  if clockCyclesPerMicrosecond hw =? 160
  then Z.shiftr (microsecondsToClockCycles hw 3) 1
  else microsecondsToClockCycles hw 3.

(** GCC's count-leading-zeros on 32 bits. *)
Definition builtin_clz (x : Z) : Z :=
  match x with
  | Zpos _ => 31 - Z.log2 x
  | _ => clz0 hw
  end.

(** ** Timer driver *)

(** Modelled from the spec: [timer1_write] is the platform's arm primitive,
    it loads the one-shot timer with the given delay. *)
Definition timer1_write (ticks : Z) (m : Machine) : Machine :=
  set_T1L (u32 ticks) m.

Definition initTimer (m : Machine) : Machine :=
  timer1_write (microsecondsToClockCycles hw 1)
    (set_timer1Running true (set_timerHw true true m)).

Definition deinitTimer (m : Machine) : Machine :=
  set_timer1Running false (set_timerHw false false m).

(** ** The interrupt handler *)

Definition getCycleCount (clk : nat -> Z) (m : Machine) : Z * Machine :=
  (u32 (clk (reads m)), set_reads (S (reads m)) m).

(** What one visit of the scan loop does to a channel. *)
Record PinResult : Type := mkPinResult {
  r_wave : Waveform;
  r_toggle : bool;        (* waveform.states ^= 1UL << pin *)
  r_expire : bool;        (* waveform.enabled ^= 1UL << pin *)
  r_gpio : option bool    (* the level written to the pin, if any *)
}.

(** [wave.nextEventCcy = (EXPIRES == mode && (int32_t)(nextEdgeCcy - expiryCcy) > 0)
                         ? expiryCcy : nextEdgeCcy] *)
Definition clampToExpiry (nextEdgeCcy : Z) (w : Waveform) : Waveform :=
  set_nextEventCcy
    (if isEXPIRES (mode w) && (0 <? s32 (nextEdgeCcy - expiryCcy w))
     then expiryCcy w else nextEdgeCcy) w.

(** The edge transition: the [else] branch of the expiry test. *)
Definition edgeStep (now : Z) (w : Waveform) (level : bool) : Outcome PinResult :=
  let idleCcys := u32 (periodCcys w - dutyCcys w) in
  let overshootCcys :=
    u32 (now - (if level then endDutyCcy w else nextPeriodCcy w)) in
  fwdPeriods <-
    (if idleCcys <=? overshootCcys then
       if periodCcys w =? 0 then Undefined
       else Done (u32 (overshootCcys + dutyCcys w) / periodCcys w)
     else Done 0) ;;
  let fwdPeriodCcys := u32 (fwdPeriods * periodCcys w) in
  if level then
    let endOfPeriod := nextPeriodCcy w =? endDutyCcy w in
    if idleCcys =? 0 then
      let np := u32 (nextPeriodCcy w + (fwdPeriodCcys + periodCcys w)) in
      let w1 := set_endDutyCcy np (set_nextPeriodCcy np w) in
      Done (mkPinResult (clampToExpiry np w1) false false None)
    else if endOfPeriod then
      let w1 :=
        if fwdPeriods =? 0 then w
        else
          let w' := set_nextPeriodCcy (u32 (nextPeriodCcy w + fwdPeriodCcys)) w in
          if isEXPIRES (mode w')
          then set_expiryCcy (u32 (expiryCcy w' + fwdPeriodCcys)) w'
          else w' in
      let w2 := set_endDutyCcy (u32 (nextPeriodCcy w1 + dutyCcys w1)) w1 in
      let w3 := set_nextPeriodCcy (u32 (nextPeriodCcy w2 + periodCcys w2)) w2 in
      Done (mkPinResult (clampToExpiry (endDutyCcy w3) w3) false false None)
    else
      nextEdgeCcy <-
        (if autoPwm w && (u32 (microsecondsToClockCycles hw 3) <=? dutyCcys w) then
           if dutyCcys w =? 0 then Undefined
           else Done (u32 (nextPeriodCcy w
                           + u32 (overshootCcys / dutyCcys w * idleCcys)))
         else Done (nextPeriodCcy w)) ;;
      Done (mkPinResult (clampToExpiry nextEdgeCcy w) true false (Some false))
  else
    if dutyCcys w =? 0 then
      let np := u32 (nextPeriodCcy w + (fwdPeriodCcys + periodCcys w)) in
      let w1 := set_endDutyCcy np (set_nextPeriodCcy np w) in
      Done (mkPinResult (clampToExpiry (endDutyCcy w1) w1) false false None)
    else
      let w1 := set_nextPeriodCcy (u32 (nextPeriodCcy w + periodCcys w)) w in
      let w2 := set_endDutyCcy (u32 (now + dutyCcys w1)) w1 in
      let w3 :=
        if fwdPeriods =? 0 then w2
        else
          let a := set_nextPeriodCcy (u32 (nextPeriodCcy w2 + fwdPeriodCcys)) w2 in
          let b :=
            if autoPwm a
            then set_endDutyCcy (u32 (endDutyCcy a + u32 (fwdPeriods * dutyCcys a))) a
            else a in
          if isEXPIRES (mode b)
          then set_expiryCcy (u32 (expiryCcy b + fwdPeriodCcys)) b
          else b in
      Done (mkPinResult (clampToExpiry (endDutyCcy w3) w3) true false (Some true)).

(** Lines 308-390: the channel [w], whose output level bit is [level], is
    visited at cycle count [now]. *)
Definition pinStep (now : Z) (w : Waveform) (level : bool) : Outcome PinResult :=
  if 0 <=? s32 (now - nextEventCcy w) then
    if isEXPIRES (mode w) && (nextEventCcy w =? expiryCcy w) then
      Done (mkPinResult w false true None)
    else edgeStep now w level
  else Done (mkPinResult w false false None).

(** What the handler keeps for one channel: its record, its bit in
    [waveform.states], its bit in [waveform.enabled] and the level last
    written to its pin. *)
Record Channel : Type := mkChannel {
  ch_wave : Waveform;
  ch_level : bool;
  ch_enabled : bool;
  ch_out : bool
}.

Definition channel (m : Machine) (p : Z) : option Channel :=
  match pins m !! Z.to_nat p with
  | Some w =>
      Some (mkChannel w (Z.testbit (states m) p) (Z.testbit (enabled m) p)
              (pinLevel m p))
  | None => None
  end.

(** One visit of the scan loop, seen from the channel it visits. *)
Definition visit (now : Z) (c : Channel) : Outcome Channel :=
  if ch_enabled c then
    r <- pinStep now (ch_wave c) (ch_level c) ;;
    Done (mkChannel (r_wave r) (xorb (ch_level c) (r_toggle r))
            (negb (r_expire r))
            (match r_gpio r with Some lvl => lvl | None => ch_out c end))
  else Done c.

(** The locals of the handler that the scan loop carries along. *)
Record Scan : Type := mkScan {
  sc_m : Machine;
  sc_now : Z;
  sc_nextTimerCcy : Z
}.

(** The writes of one visit: the channel record, the two bitmasks, the pin
    and, when this channel's event is the [closer] one, [nextPin]. *)
Definition applyPinResult (pin b : Z) (r : PinResult) (closer : bool)
    (m : Machine) : Machine :=
  let m1 := putPin pin (r_wave r) m in
  let m2 := if r_expire r then set_enabled (Z.lxor (enabled m1) b) m1 else m1 in
  let m3 := if r_toggle r then set_states (Z.lxor (states m2) b) m2 else m2 in
  let m4 := match r_gpio r with
            | Some lvl => writePin pin lvl m3
            | None => m3
            end in
  if closer then set_nextPin pin m4 else m4.

(** The body of the [do ... while] loop for one [pin]. *)
Definition servicePin (clk : nat -> Z) (pin : Z) (sc : Scan) : Outcome Scan :=
  let m := sc_m sc in
  b <- shl1 pin ;;
  if Z.land (enabled m) b =? 0 then Done sc
  else
    wave <- getPin m pin ;;
    r <- pinStep (sc_now sc) wave (negb (Z.land (states m) b =? 0)) ;;
    let closer := 0 <? s32 (sc_nextTimerCcy sc - nextEventCcy (r_wave r)) in
    let nt := if closer then nextEventCcy (r_wave r) else sc_nextTimerCcy sc in
    let cm := getCycleCount clk (applyPinResult pin b r closer m) in
    Done (mkScan (snd cm) (fst cm) nt).

(** The [do ... while] loop: [pin] runs over the span circularly until it
    comes back to [stopPin]. *)
Fixpoint scanPins (clk : nat -> Z) (fuel : nat) (stopPin pin : Z) (sc : Scan)
  : Outcome Scan :=
  match fuel with
  | O => OutOfFuel
  | S f =>
      sc1 <- servicePin clk pin sc ;;
      let pin' := if pin <? endPin (sc_m sc1) then pin + 1
                  else startPin (sc_m sc1) in
      if pin' =? stopPin then Done sc1 else scanPins clk f stopPin pin' sc1
  end.

(** [while ((int32_t)(nextTimerCcy - now) > 0) now = ESP.getCycleCount();] *)
Fixpoint spinUntil (clk : nat -> Z) (fuel : nat) (target : Z) (sc : Scan)
  : Outcome Scan :=
  if 0 <? s32 (target - sc_now sc) then
    match fuel with
    | O => OutOfFuel
    | S f =>
        let cm := getCycleCount clk (sc_m sc) in
        spinUntil clk f target (mkScan (snd cm) (fst cm) (sc_nextTimerCcy sc))
    end
  else Done sc.

(** The [while (busy)] loop. *)
Fixpoint scanLoop (clk : nat -> Z) (fuel : nat) (isrTimeoutCcy : Z) (sc : Scan)
  : Outcome Scan :=
  match fuel with
  | O => OutOfFuel
  | S f =>
      let m := sc_m sc in
      sc1 <- scanPins clk fuel (nextPin m) (nextPin m)
               (mkScan m (sc_now sc) (u32 (sc_now sc + MAXIRQCCYS))) ;;
      let timerMarginCcys := s32 (isrTimeoutCcy - sc_nextTimerCcy sc1) in
      if 0 <? timerMarginCcys then
        sc2 <- spinUntil clk fuel (sc_nextTimerCcy sc1) sc1 ;;
        scanLoop clk f isrTimeoutCcy sc2
      else Done sc1
  end.

(** Lines 250-260: fold the two mailboxes into [enabled]; the result carries
    [toSetMask]. *)
Definition foldRequests (m : Machine) : Outcome (Z * Machine) :=
  toSetMask <- (if 0 <=? toSet m then shl1 (toSet m) else Done 0) ;;
  toDisableMask <- (if 0 <=? toDisable m then shl1 (toDisable m) else Done 0) ;;
  if (negb (toSetMask =? 0) && (Z.land (enabled m) toSetMask =? 0))
     || negb (toDisableMask =? 0)
  then
    let en := Z.lor (Z.ldiff (enabled m) toDisableMask) toSetMask in
    Done (toSetMask,
          set_toDisable (-1)
            (set_span (builtin_ffs en - 1) (32 - builtin_clz en)
               (set_enabled en m)))
  else Done (toSetMask, m).

(** [case WaveformMode::UPDATEEXPIRY]: the relative run time becomes an
    absolute expiry cycle. *)
Definition armExpiry (w : Waveform) : Waveform :=
  set_mode EXPIRES (set_expiryCcy (u32 (expiryCcy w + nextPeriodCcy w)) w).

(** [case WaveformMode::INIT], once the period anchor [np] is chosen. *)
Definition anchorWave (np : Z) (w : Waveform) : Waveform :=
  let w1 := set_nextEventCcy np (set_nextPeriodCcy np w) in
  if expiryCcy w1 =? 0 then set_mode INFINITE w1 else armExpiry w1.

(** Lines 269-270: the anchor of a channel that starts, phase-locked to the
    channel [alignPhase] if that one is enabled, free-running otherwise. *)
Definition chooseAnchor (now : Z) (m : Machine) (wave : Waveform) : Outcome Z :=
  aligned <-
    (if 0 <=? alignPhase wave then
       b <- shl1 (alignPhase wave) ;;
       Done (negb (Z.land (enabled m) b =? 0))
     else Done false) ;;
  if aligned : bool then
    other <- getPin m (alignPhase wave) ;;
    Done (u32 (nextPeriodCcy other + nextPeriodCcy wave))
  else Done now.

(** Lines 264-285: initialise or re-arm the expiry of the channel named by
    [toSet]. *)
Definition applyToSet (now toSetMask : Z) (m : Machine) : Outcome Machine :=
  if toSetMask =? 0 then Done m
  else
    wave <- getPin m (toSet m) ;;
    match mode wave with
    | INIT =>
        let m1 := set_states (Z.ldiff (states m) toSetMask) m in
        np <- chooseAnchor now m1 wave ;;
        Done (set_toSet (-1) (putPin (toSet m) (anchorWave np wave) m1))
    | UPDATEEXPIRY =>
        Done (set_toSet (-1) (putPin (toSet m) (armExpiry wave) m))
    | _ => Done (set_toSet (-1) m)
    end.

(** Lines 408-439: choose the delay and re-arm the timer. *)
Definition rearm (clk : nat -> Z) (sc : Scan) : Machine :=
  let m := sc_m sc in
  let tm :=
    match timer1CB m with
    | Some cb =>
        let callbackCcys :=
          s32 (microsecondsToClockCycles hw (u32 (cb (sc_now sc)))) in
        let cm := getCycleCount clk m in
        let d := s32 (sc_nextTimerCcy sc - fst cm) in
        (if callbackCcys <? d then callbackCcys else d, snd cm)
    | None => (s32 (sc_nextTimerCcy sc - sc_now sc), m)
    end in
  let nextTimerCcys :=
    if fst tm <=? IRQLATENCY + DELTAIRQ then IRQLATENCY
    else if MAXIRQCCYS <=? fst tm then MAXIRQCCYS - DELTAIRQ
    else fst tm - DELTAIRQ in
  set_edgeIntEnabled true
    (set_T1L (u32 (if clockCyclesPerMicrosecond hw =? 160
                   then Z.shiftr nextTimerCcys 1 else nextTimerCcys)) (snd tm)).

(** Lines 249-297: everything before the scan. *)
Definition beginInterrupt (clk : nat -> Z) (m : Machine)
  : Outcome (Z * Scan) :=
  let c0 := getCycleCount clk m in
  let isrStartCcy := fst c0 in
  f <- foldRequests (snd c0) ;;
  let c1 := getCycleCount clk (snd f) in
  let now := fst c1 in
  m3 <- applyToSet now (fst f) (snd c1) ;;
  Done (u32 (isrStartCcy + ISRTIMEOUTCCYS), mkScan m3 now 0).

Definition timer1Interrupt (clk : nat -> Z) (fuel : nat) (m : Machine)
  : Outcome Machine :=
  b <- beginInterrupt clk m ;;
  let isrTimeoutCcy := fst b in
  let m3 := sc_m (snd b) in
  let now := sc_now (snd b) in
  sc <-
    (if enabled m3 =? 0 then Done (mkScan m3 now (u32 (now + MAXIRQCCYS)))
     else
       bit <- shl1 (nextPin m3) ;;
       let m4 := if Z.land (enabled m3) bit =? 0
                 then set_nextPin (startPin m3) m3 else m3 in
       scanLoop clk fuel isrTimeoutCcy (mkScan m4 now 0)) ;;
  Done (rearm clk sc).

(** ** Request interface *)

Definition isSome {A : Type} (o : option A) : bool :=
  match o with Some _ => true | None => false end.

Definition setTimer1Callback (fn : option (Z -> Z)) (m : Machine) : Machine :=
  let m1 := set_timer1CB fn m in
  if negb (timer1Running m1) && isSome fn then initTimer m1
  else if timer1Running m1 && negb (isSome fn) && (enabled m1 =? 0)
       then deinitTimer m1
       else m1.

(** The anti-thrash normalisation, lines 148-156: the pair
    [(highCcys, periodCcys)] after it. *)
Definition normalizePeriod (highCcys lowCcys : Z) : Outcome (Z * Z) :=
  let periodCcys := u32 (highCcys + lowCcys) in
  if periodCcys <? u32 MAXIRQCCYS then
    if highCcys =? 0 then
      if periodCcys =? 0 then Undefined
      else Done (highCcys, u32 (u32 MAXIRQCCYS / periodCcys * periodCcys))
    else if lowCcys =? 0 then
      if periodCcys =? 0 then Undefined
      else let p := u32 (u32 MAXIRQCCYS / periodCcys * periodCcys) in Done (p, p)
    else Done (highCcys, periodCcys)
  else Done (highCcys, periodCcys).

(** Lines 169-191: a channel that is not enabled is staged in full and
    posted to the handler. *)
Definition postActivate (m : Machine) (pin : Z) (wave : Waveform)
    (runTimeCcys alignPhase phaseOffsetCcys : Z) : Machine :=
  let wave1 :=
    set_alignPhase (if alignPhase <? 0 then -1 else alignPhase)
      (set_mode INIT
         (set_expiryCcy runTimeCcys
            (set_nextPeriodCcy phaseOffsetCcys wave))) in
  let m1 := putPin pin wave1 m in
  let m2 := if dutyCcys wave1 =? 0 then writePin pin false m1 else m1 in
  let m3 := set_toSet pin m2 in
  if negb (timer1Running m3) then initTimer m3
  else if u32 (IRQLATENCY + DELTAIRQ) <? T1L m3
       then timer1_write (microsecondsToClockCycles hw 1) m3
       else m3.

(** Lines 194-201: a channel that is enabled gets its expiry replaced. *)
Definition postUpdate (m : Machine) (pin : Z) (wave : Waveform)
    (runTimeCcys : Z) : Machine :=
  let wave1 := set_expiryCcy runTimeCcys (set_mode INFINITE wave) in
  if runTimeCcys =? 0 then putPin pin wave1 m
  else set_toSet pin (putPin pin (set_mode UPDATEEXPIRY wave1) m).

(** Lines 148-203 of [startWaveformClockCycles]: everything before the loop
    that waits for the handler. *)
Definition requestWaveform (m : Machine) (pin highCcys lowCcys runTimeCcys
    alignPhase phaseOffsetCcys : Z) (autoPwm : bool) : Outcome (bool * Machine) :=
  hp <- normalizePeriod highCcys lowCcys ;;
  let highCcys := fst hp in
  let periodCcys := snd hp in
  if (16 <? pin) || isFlashInterfacePin hw pin || (16 <? alignPhase)
     || (s32 periodCcys <=? 0) || (periodCcys <? highCcys)
  then Done (false, m)
  else
    wave0 <- getPin m pin ;;
    let wave := set_autoPwm autoPwm
                  (set_periodCcys periodCcys (set_dutyCcys highCcys wave0)) in
    b <- shl1 pin ;;
    if Z.land (enabled m) b =? 0
    then Done (true, postActivate m pin wave runTimeCcys alignPhase
                       phaseOffsetCcys)
    else Done (true, postUpdate m pin wave runTimeCcys).

(** A caller that waits for a mailbox ([slot]) to be emptied: the handler
    fires until it is.  Without the NMI attached and the timer enabled nobody
    empties it. *)
Fixpoint await (slot : Machine -> Z) (clk : nat -> Z) (fuel : nat) (m : Machine)
  : Outcome Machine :=
  if slot m <? 0 then Done m
  else
    match fuel with
    | O => OutOfFuel
    | S f =>
        if nmiAttached m && T1enabled m then
          m' <- timer1Interrupt clk fuel m ;;
          await slot clk f m'
        else OutOfFuel
    end.

Definition startWaveformClockCycles (clk : nat -> Z) (fuel : nat) (m : Machine)
    (pin highCcys lowCcys runTimeCcys alignPhase phaseOffsetCcys : Z)
    (autoPwm : bool) : Outcome (bool * Machine) :=
  r <- requestWaveform m pin highCcys lowCcys runTimeCcys alignPhase
         phaseOffsetCcys autoPwm ;;
  if fst r then
    m' <- await toSet clk fuel (snd r) ;;
    Done (true, m')
  else Done r.

Definition startWaveform (clk : nat -> Z) (fuel : nat) (m : Machine)
    (pin highUS lowUS runTimeUS alignPhase phaseOffsetUS : Z) (autoPwm : bool)
  : Outcome (bool * Machine) :=
  startWaveformClockCycles clk fuel m pin
    (u32 (microsecondsToClockCycles hw highUS))
    (u32 (microsecondsToClockCycles hw lowUS))
    (u32 (microsecondsToClockCycles hw runTimeUS)) alignPhase
    (u32 (microsecondsToClockCycles hw phaseOffsetUS)) autoPwm.

(** Lines 221-225 of [stopWaveform]: post the request. *)
Definition requestStop (m : Machine) (pin : Z) : Machine :=
  let m1 := set_toDisable pin m in
  if u32 (IRQLATENCY + DELTAIRQ) <? T1L m1
  then timer1_write (microsecondsToClockCycles hw 1) m1
  else m1.

Definition stopWaveform (clk : nat -> Z) (fuel : nat) (m : Machine) (pin : Z)
  : Outcome (bool * Machine) :=
  if negb (timer1Running m) then Done (false, m)
  else
    b <- shl1 pin ;;
    m2 <- (if Z.land (enabled m) b =? 0 then Done m
           else await toDisable clk fuel (requestStop m pin)) ;;
    Done (true,
          if (enabled m2 =? 0) && negb (isSome (timer1CB m2))
          then deinitTimer m2 else m2).

End Generator.

(** ** Invariants of one channel

    [I j c]: the channel [c] is as it should be when the cycle counter was
    last read at index [j] of the oracle.  [tracks] is the form the invariant
    takes inside the scan loop, where [now] holds one of the readings made so
    far; [holdsAt] is its form between two firings ([j] is then the index of
    a reading that was made, or 0 before the first one). *)
Definition tracks (clk : nat -> Z) (p : Z) (I : nat -> Channel -> Prop)
    (sc : Scan) : Prop :=
  exists j c, (j < reads (sc_m sc))%nat /\ sc_now sc = u32 (clk j) /\
              channel (sc_m sc) p = Some c /\ I j c.

Definition holdsAt (p : Z) (I : nat -> Channel -> Prop) (m : Machine) : Prop :=
  exists j c, (j < reads m \/ j = 0)%nat /\ channel m p = Some c /\ I j c.

(** The channel carries the duty [d], the period [per] and the drift
    correction flag [a]. *)
Definition hasConfig (d per : Z) (a : bool) (j : nat) (c : Channel) : Prop :=
  dutyCcys (ch_wave c) = d /\ periodCcys (ch_wave c) = per /\
  autoPwm (ch_wave c) = a.

(** The channel is enabled and runs without an expiry. *)
Definition staysInfinite (j : nat) (c : Channel) : Prop :=
  mode (ch_wave c) = INFINITE /\ ch_enabled c = true.

(** The channel has zero duty, its level bit is clear and its pin is low. *)
Definition heldLow (j : nat) (c : Channel) : Prop :=
  dutyCcys (ch_wave c) = 0 /\ ch_level c = false /\ ch_out c = false.



(** Firings of the handler in a row, one per entry of [fuels]. *)
Fixpoint firings (hw : Platform) (clk : nat -> Z) (fuels : list nat)
    (m : Machine) : Outcome Machine :=
  match fuels with
  | [] => Done m
  | f :: fs => m' <- timer1Interrupt hw clk f m ;; firings hw clk fs m'
  end.

(** The reference of the overrun compensation, after the words of the
    specification: the un-skipped simulation of a channel.  Every pending
    event of the channel is served exactly when it falls due, one after the
    other, until none is due at [until] any more. *)
Fixpoint punctual (hw : Platform) (fuel : nat) (until : Z) (c : Channel)
  : Outcome Channel :=
  if 0 <=? s32 (until - nextEventCcy (ch_wave c)) then
    match fuel with
    | O => OutOfFuel
    | S f =>
        c' <- visit hw (nextEventCcy (ch_wave c)) c ;; punctual hw f until c'
    end
  else Done c.

(** A cycle counter that starts at [t0] and advances by [dt] per read. *)
Definition tickClock (t0 dt : Z) (n : nat) : Z := t0 + dt * Z.of_nat n.

(** A counter held up for [gap] cycles before its read number [k]. *)
Definition stall (k : nat) (gap : Z) (clk : nat -> Z) (n : nat) : Z :=
  clk n + (if (k <=? n)%nat then gap else 0).

(** ** A concrete platform: the ESP8266 at 80 MHz *)

Definition esp8266 : Platform :=
  mkPlatform 80 (fun us => us * 80)
    (fun p => (6 <=? p) && (p <=? 11)) 32.

Definition blankWaveform : Waveform :=
  mkWaveform 0 0 0 0 0 0 INFINITE 0 false.

(** The machine after reset: no channel, no request, timer off. *)
Definition resetMachine : Machine :=
  mkMachine (replicate 17 blankWaveform) 0 0 (-1) (-1) None false 0 0 0 0 0 0
    false false false 0.

(** A channel of 100000 cycles high and 100000 low that is low and waits for
    the start of its next period at cycle 200110. *)
Definition lateChannel : Channel :=
  mkChannel (mkWaveform 200110 200110 100110 100000 200000 0 INFINITE (-1) false)
    false true false.

(** ** Well-formed states

    What the handler relies on without checking it, and what the interface
    establishes. *)

(** The bounds that keep the handler inside its arrays and its shifts: 17
    channel records, channels enabled only on pins 0 to 16, a pin or nothing
    in each mailbox, [nextPin] on a pin, every record with an alignment pin
    of at most 16, and a period that is not zero in every record that is
    enabled or named in the [toSet] mailbox. *)
Definition boundsOK (m : Machine) : Prop :=
  length (pins m) = 17%nat /\
  0 <= enabled m < 2 ^ 17 /\
  toSet m <= 16 /\ toDisable m <= 16 /\
  0 <= nextPin m <= 16 /\
  forall q w, pins m !! q = Some w ->
    alignPhase w <= 16 /\
    (Z.testbit (enabled m) (Z.of_nat q) = true \/ toSet m = Z.of_nat q ->
     periodCcys w <> 0).

(** The span [startPin .. endPin] that the scan walks lies on the pins and
    holds every enabled channel. *)
Definition spanOK (m : Machine) : Prop :=
  0 <= startPin m <= 16 /\ startPin m <= endPin m <= 17 /\
  forall q, 0 <= q -> Z.testbit (enabled m) q = true ->
            startPin m <= q < endPin m.

(** The span is only looked at while a channel is enabled. *)
Definition wellFormed (m : Machine) : Prop :=
  boundsOK m /\ (enabled m <> 0 -> spanOK m).

(** Inside the scan loop the span is in use. *)
Definition scanOK (sc : Scan) : Prop := boundsOK (sc_m sc) /\ spanOK (sc_m sc).

(** The pin the walk of the [do ... while] loop starts from lies in the span
    it walks over. *)
Definition walkOK (sc : Scan) : Prop :=
  scanOK sc /\ startPin (sc_m sc) <= nextPin (sc_m sc) <= endPin (sc_m sc).

(** Every record that is enabled or named in the [toSet] mailbox has passed
    the sanity check of [startWaveformClockCycles]: its duty is no longer
    than its period and the period is positive as an [int32_t]. *)
Definition dutyOK (m : Machine) : Prop :=
  forall q w, pins m !! q = Some w ->
    Z.testbit (enabled m) (Z.of_nat q) = true \/ toSet m = Z.of_nat q ->
    0 <= dutyCcys w <= periodCcys w /\ 0 < periodCcys w < 2 ^ 31.

(** The timer is attached and enabled exactly when [timer1Running] says so,
    and it runs whenever a channel is enabled. *)
Definition timerOK (m : Machine) : Prop :=
  nmiAttached m = timer1Running m /\ T1enabled m = timer1Running m /\
  (enabled m <> 0 -> timer1Running m = true).

(** The timer runs and its interrupt reaches the handler. *)
Definition armed (m : Machine) : Prop :=
  timer1Running m = true /\ nmiAttached m = true /\ T1enabled m = true.

(** The state between two calls: well formed, both mailboxes empty, the
    timer consistent. *)
Definition quiescent (m : Machine) : Prop :=
  wellFormed m /\ toSet m < 0 /\ toDisable m < 0 /\ timerOK m.

(** The channel with its enabled bit cleared. *)
Definition retired (c : Channel) : Channel :=
  mkChannel (ch_wave c) (ch_level c) false (ch_out c).

(** The level bit of the channel is the level of its pin. *)
Definition mirrored (c : Channel) : Prop := ch_level c = ch_out c.

(** The channel is at 100% duty and high. *)
Definition heldHigh (c : Channel) : Prop :=
  dutyCcys (ch_wave c) = periodCcys (ch_wave c) /\
  ch_level c = true /\ ch_out c = true.

(** ** The generator in use

    What happens to the generator: the calls of its interface and the firing
    of the timer.  A call runs as one step; the handler fires between the
    calls and inside the loops in which a call waits for it. *)
Inductive Call : Type :=
| CallStart (pin highCcys lowCcys runTimeCcys alignPhase phaseOffsetCcys : Z)
            (autoPwm : bool)
| CallStartUS (pin highUS lowUS runTimeUS alignPhase phaseOffsetUS : Z)
              (autoPwm : bool)
| CallStop (pin : Z)
| CallSetCallback (fn : option (Z -> Z))
| TimerFires.

(** The arguments of a call lie in their C types: [uint8_t] pins, [uint32_t]
    times, an [int8_t] alignment pin. *)
Definition inTypes (c : Call) : Prop :=
  match c with
  | CallStart pin h l rt ap po _ | CallStartUS pin h l rt ap po _ =>
      0 <= pin < 2 ^ 8 /\ 0 <= h < 2 ^ 32 /\ 0 <= l < 2 ^ 32 /\
      0 <= rt < 2 ^ 32 /\ - 2 ^ 7 <= ap < 2 ^ 7 /\ 0 <= po < 2 ^ 32
  | CallStop pin => 0 <= pin < 2 ^ 8
  | CallSetCallback _ => True
  | TimerFires => True
  end.

(** The timer interrupt is taken only while the handler is attached and the
    timer enabled. *)
Definition exec (hw : Platform) (clk : nat -> Z) (fuel : nat) (c : Call)
    (m : Machine) : Outcome Machine :=
  match c with
  | CallStart pin h l rt ap po a =>
      r <- startWaveformClockCycles hw clk fuel m pin h l rt ap po a ;;
      Done (snd r)
  | CallStartUS pin h l rt ap po a =>
      r <- startWaveform hw clk fuel m pin h l rt ap po a ;; Done (snd r)
  | CallStop pin => r <- stopWaveform hw clk fuel m pin ;; Done (snd r)
  | CallSetCallback fn => Done (setTimer1Callback hw fn m)
  | TimerFires =>
      if nmiAttached m && T1enabled m then timer1Interrupt hw clk fuel m
      else Done m
  end.

(** The calls that run into a division by zero or a shift out of range: a
    start with a period of zero cycles (the division of lines 151 and 154),
    a stop with a pin of 32 or more while the timer runs (the shift of line
    220). *)
Definition faulty (hw : Platform) (c : Call) (m : Machine) : Prop :=
  match c with
  | CallStart _ h l _ _ _ _ => h = 0 /\ l = 0 /\ 0 < u32 (MAXIRQCCYS hw)
  | CallStartUS _ h l _ _ _ _ =>
      u32 (microsecondsToClockCycles hw h) = 0 /\
      u32 (microsecondsToClockCycles hw l) = 0 /\ 0 < u32 (MAXIRQCCYS hw)
  | CallStop pin => timer1Running m = true /\ 32 <= pin
  | CallSetCallback _ | TimerFires => False
  end.

(** The static initialisers of the file, with the timer not yet attached;
    the output registers hold whatever they hold. *)
Definition poweredOn (m : Machine) : Prop :=
  pins m = replicate 17 blankWaveform /\ states m = 0 /\ enabled m = 0 /\
  toSet m = -1 /\ toDisable m = -1 /\ timer1CB m = None /\
  timer1Running m = false /\ startPin m = 0 /\ endPin m = 0 /\
  nextPin m = 0 /\ T1enabled m = false /\ nmiAttached m = false.

(** The states that calls with arguments in their types and firings of the
    timer lead to after power-on. *)
Inductive reachable (hw : Platform) (clk : nat -> Z) : Machine -> Prop :=
| reachable_on m : poweredOn m -> reachable hw clk m
| reachable_step m c fuel m' :
    reachable hw clk m -> inTypes c -> exec hw clk fuel c m = Done m' ->
    reachable hw clk m'.

(** ** The interface under the handler

    The handler is attached as a non-maskable interrupt (line 112) and
    nothing masks it: it can fire between any two accesses of
    [startWaveformClockCycles] to the shared state.  [requestWaveform] and
    [await] above are the runs in which it does not; here are all of them. *)

Section UnderNMI.
Variable hw : Platform.

(** What passes between two accesses of the interface to the shared state:
    one firing of the handler per entry of [fuels], each taken only while
    the handler is attached and the timer enabled. *)
Fixpoint nmi (clk : nat -> Z) (fuels : list nat) (m : Machine)
  : Outcome Machine :=
  match fuels with
  | [] => Done m
  | f :: fs =>
      m' <- (if nmiAttached m && T1enabled m then timer1Interrupt hw clk f m
             else Done m) ;;
      nmi clk fs m'
  end.

(** [wave.field = v] through the reference [wave = waveform.pins[pin]]. *)
Definition writeWave (pin : Z) (f : Waveform -> Waveform) (m : Machine)
  : Outcome Machine :=
  w <- getPin m pin ;; Done (putPin pin (f w) m).

(** Lines 148-201 of [startWaveformClockCycles], access by access.  The
    handler is attached as a non-maskable interrupt (line 112) and nothing
    masks it: [sched l] lists the firings that pass right before the access
    to the shared state at line [l]. *)
Definition requestWaveformNMI (clk : nat -> Z) (sched : Z -> list nat)
    (m : Machine) (pin highCcys lowCcys runTimeCcys alignPhase
    phaseOffsetCcys : Z) (autoPwm : bool) : Outcome (bool * Machine) :=
  hp <- normalizePeriod hw highCcys lowCcys ;;
  let highCcys := fst hp in
  let periodCcys := snd hp in
  if (16 <? pin) || isFlashInterfacePin hw pin || (16 <? alignPhase)
     || (s32 periodCcys <=? 0) || (periodCcys <? highCcys)
  then Done (false, m)
  else
    m <- nmi clk (sched 163) m ;;
    m <- writeWave pin (set_dutyCcys highCcys) m ;;
    m <- nmi clk (sched 164) m ;;
    m <- writeWave pin (set_periodCcys periodCcys) m ;;
    m <- nmi clk (sched 165) m ;;
    m <- writeWave pin (set_autoPwm autoPwm) m ;;
    m <- nmi clk (sched 168) m ;;
    b <- shl1 pin ;;
    if Z.land (enabled m) b =? 0 then
      m <- nmi clk (sched 170) m ;;
      m <- writeWave pin (set_nextPeriodCcy phaseOffsetCcys) m ;;
      m <- nmi clk (sched 171) m ;;
      m <- writeWave pin (set_expiryCcy runTimeCcys) m ;;
      m <- nmi clk (sched 172) m ;;
      m <- writeWave pin (set_mode INIT) m ;;
      m <- nmi clk (sched 173) m ;;
      m <- writeWave pin
             (set_alignPhase (if alignPhase <? 0 then -1 else alignPhase)) m ;;
      m <- nmi clk (sched 174) m ;;
      w <- getPin m pin ;;
      m <- (if dutyCcys w =? 0 then
              m <- nmi clk (sched (if pin =? 16 then 177 else 180)) m ;;
              Done (writePin pin false m)
            else Done m) ;;
      m <- nmi clk (sched 184) m ;;
      let m := set_toSet pin m in
      m <- nmi clk (sched 185) m ;;
      if negb (timer1Running m) then Done (true, initTimer hw m)
      else
        m <- nmi clk (sched 188) m ;;
        if u32 (IRQLATENCY hw + DELTAIRQ hw) <? T1L m then
          m <- nmi clk (sched 190) m ;;
          Done (true, timer1_write (microsecondsToClockCycles hw 1) m)
        else Done (true, m)
    else
      m <- nmi clk (sched 194) m ;;
      m <- writeWave pin (set_mode INFINITE) m ;;
      m <- nmi clk (sched 196) m ;;
      m <- writeWave pin (set_expiryCcy runTimeCcys) m ;;
      if runTimeCcys =? 0 then Done (true, m)
      else
        m <- nmi clk (sched 198) m ;;
        m <- writeWave pin (set_mode UPDATEEXPIRY) m ;;
        m <- nmi clk (sched 200) m ;;
        Done (true, set_toSet pin m).

(** Lines 204-207: the loop that waits for the handler to take the request.
    [during i] lists the firings that pass inside the [i]-th [delay(0)]. *)
Fixpoint awaitNMI (clk : nat -> Z) (during : nat -> list nat) (fuel i : nat)
    (m : Machine) : Outcome Machine :=
  if toSet m <? 0 then Done m
  else
    match fuel with
    | O => OutOfFuel
    | S f =>
        m' <- nmi clk (during i) m ;;
        awaitNMI clk during f (S i) m'
    end.

Definition startWaveformClockCyclesNMI (clk : nat -> Z)
    (sched : Z -> list nat) (during : nat -> list nat) (fuel : nat)
    (m : Machine) (pin highCcys lowCcys runTimeCcys alignPhase
    phaseOffsetCcys : Z) (autoPwm : bool) : Outcome (bool * Machine) :=
  r <- requestWaveformNMI clk sched m pin highCcys lowCcys runTimeCcys
         alignPhase phaseOffsetCcys autoPwm ;;
  if fst r then
    m1 <- nmi clk (sched 204) (snd r) ;;
    m' <- awaitNMI clk during fuel 0 m1 ;;
    Done (true, m')
  else Done r.
End UnderNMI.

(** The channel is enabled and runs without an expiry, with a duty, a period
    and an autoPwm flag as [Q] says. *)
Definition runsFree (Q : Z -> Z -> bool -> Prop) (c : Channel) : Prop :=
  ch_enabled c = true /\ mode (ch_wave c) = INFINITE /\
  Q (dutyCcys (ch_wave c)) (periodCcys (ch_wave c)) (autoPwm (ch_wave c)).

(** No request is pending and the channel of [pin] is off, with the record
    [w]. *)
Definition parked (pin : Z) (w : Waveform) (m : Machine) : Prop :=
  toSet m < 0 /\ toDisable m < 0 /\
  exists c, channel m pin = Some c /\ ch_enabled c = false /\ ch_wave c = w.

(** No request is pending and the channel of [pin] runs without an expiry. *)
Definition running (pin : Z) (Q : Z -> Z -> bool -> Prop) (m : Machine)
  : Prop :=
  toSet m < 0 /\ toDisable m < 0 /\
  exists c, channel m pin = Some c /\ runsFree Q c.

(** The activation of [pin] with the record [w] is posted, or it has been
    taken up and the channel runs. *)
Definition starting (pin : Z) (Q : Z -> Z -> bool -> Prop) (w : Waveform)
    (m : Machine) : Prop :=
  (toSet m = pin /\ toDisable m < 0 /\
   exists c, channel m pin = Some c /\ ch_wave c = w)
  \/ running pin Q m.

(** The cycle counter of the runs with a late firing: 10 cycles per read,
    held up for 100000 cycles before read 3 and for [gap] cycles before
    read 6. *)
Definition raceClock (gap : Z) : nat -> Z :=
  stall 6 gap (stall 3 100000 (tickClock 100 10)).

(** ** Proof tools *)

Ltac invc H := inversion H; subst; clear H.

(** Case analysis along the branches of a run that ended in [Done]. *)
Ltac break_step H :=
  repeat first
    [ discriminate H
    | progress cbn [bind] in H
    | match type of H with
      | context [if ?c then _ else _] => destruct c eqn:?
      end ].



(** * Basic facts *)

Lemma u32_range x : 0 <= u32 x < 2 ^ 32.
Proof. unfold u32. apply Z.mod_pos_bound. lia. Qed.

Lemma u32_small x : 0 <= x < 2 ^ 32 -> u32 x = x.
Proof. intros. unfold u32. apply Z.mod_small. lia. Qed.

Lemma u32_add_l a b : u32 (u32 a + b) = u32 (a + b).
Proof. unfold u32. apply Zplus_mod_idemp_l. Qed.

Lemma u32_add_r a b : u32 (a + u32 b) = u32 (a + b).
Proof. unfold u32. apply Zplus_mod_idemp_r. Qed.

Lemma s32_congr x y : u32 x = u32 y -> - 2 ^ 31 <= y < 2 ^ 31 -> s32 x = y.
Proof.
  unfold s32, u32. intros -> Hy.
  destruct (Z.ltb_spec (y mod 2 ^ 32) (2 ^ 31));
    pose proof (Z.div_mod y (2 ^ 32) ltac:(lia));
    pose proof (Z.mod_pos_bound y (2 ^ 32) ltac:(lia)); lia.
Qed.

Lemma u32_sub_l a b : u32 (u32 a - b) = u32 (a - b).
Proof. unfold u32. apply Zminus_mod_idemp_l. Qed.

Lemma u32_sub_r a b : u32 (a - u32 b) = u32 (a - b).
Proof. unfold u32. apply Zminus_mod_idemp_r. Qed.

Lemma s32_due x : 0 <= s32 x -> s32 x = u32 x /\ u32 x < 2 ^ 31.
Proof.
  unfold s32. pose proof (u32_range x).
  destruct (Z.ltb_spec (u32 x) (2 ^ 31)); lia.
Qed.

Lemma u32_neq_add a x y :
  0 < y - x < 2 ^ 32 -> u32 (a + x) <> u32 (a + y).
Proof.
  unfold u32. intros Hxy E.
  assert (H : (a + y - (a + x)) mod 2 ^ 32 = 0).
  { rewrite Zminus_mod, E, Z.sub_diag. reflexivity. }
  replace (a + y - (a + x)) with (y - x) in H by lia.
  apply Z.mod_divide in H; [|lia]. destruct H as [k Hk]. nia.
Qed.

Lemma u32_u32 x : u32 (u32 x) = u32 x.
Proof. apply u32_small, u32_range. Qed.





Lemma bitmask_pow2 n : 0 <= n -> bitmask n = 2 ^ n.
Proof. intros. unfold bitmask. apply Z.shiftl_1_l. Qed.

Lemma testbit_bitmask n k : 0 <= n -> Z.testbit (bitmask n) k = (n =? k).
Proof. intros. rewrite bitmask_pow2 by lia. apply Z.pow2_bits_eqb. lia. Qed.

Lemma isSet_testbit x n : 0 <= n -> isSet x n = Z.testbit x n.
Proof.
  intros Hn. unfold isSet.
  destruct (Z.testbit x n) eqn:Hb.
  - apply negb_true_iff, Z.eqb_neq. intros H0.
    assert (H : Z.testbit (Z.land x (bitmask n)) n = true).
    { rewrite Z.land_spec, Hb, testbit_bitmask, Z.eqb_refl by lia. reflexivity. }
    rewrite H0, Z.bits_0 in H. discriminate.
  - apply negb_false_iff, Z.eqb_eq. apply Z.bits_inj'. intros k Hk.
    rewrite Z.land_spec, Z.bits_0, testbit_bitmask by lia.
    destruct (Z.eqb_spec n k); subst; rewrite ?Hb, ?andb_false_r; reflexivity.
Qed.

Lemma land_bitmask_0 x n :
  0 <= n -> (Z.land x (bitmask n) =? 0) = negb (Z.testbit x n).
Proof.
  intros Hn. rewrite <- (isSet_testbit x n Hn). unfold isSet.
  rewrite negb_involutive. reflexivity.
Qed.

Lemma testbit_above x n : 0 <= x < 2 ^ n -> 0 <= n -> Z.testbit x n = false.
Proof.
  intros Hx Hn. apply Z.testbit_false; [lia|].
  rewrite Z.div_small by lia. reflexivity.
Qed.

Lemma bind_Done {A B} (x : Outcome A) (k : A -> Outcome B) b :
  bind x k = Done b -> exists a, x = Done a /\ k a = Done b.
Proof. destruct x; simpl; intros; try discriminate. eauto. Qed.

Lemma getPin_Done m i w :
  getPin m i = Done w -> 0 <= i /\ pins m !! Z.to_nat i = Some w.
Proof.
  unfold getPin. destruct (Z.ltb_spec i 0); [discriminate|].
  destruct (pins m !! Z.to_nat i) eqn:E; intros H'; invc H'. auto.
Qed.

Lemma getPin_lookup m i w :
  0 <= i -> pins m !! Z.to_nat i = Some w -> getPin m i = Done w.
Proof.
  intros Hi Hw. unfold getPin. destruct (Z.ltb_spec i 0); [lia|].
  rewrite Hw. reflexivity.
Qed.

Lemma shl1_Done n b : shl1 n = Done b -> 0 <= n < 32 /\ b = bitmask n.
Proof.
  unfold shl1. destruct (Z.leb_spec 0 n), (Z.ltb_spec n 32); simpl;
    intros H'; invc H'; lia.
Qed.

Lemma shl1_ok n : 0 <= n < 32 -> shl1 n = Done (bitmask n).
Proof.
  intros. unfold shl1.
  destruct (Z.leb_spec 0 n), (Z.ltb_spec n 32); simpl; auto; lia.
Qed.

Lemma lookup_putPin_eq m i w w0 :
  pins m !! Z.to_nat i = Some w0 ->
  pins (putPin i w m) !! Z.to_nat i = Some w.
Proof.
  intros. unfold putPin. simpl. apply list_lookup_insert_eq.
  eapply lookup_lt_Some; eauto.
Qed.

Lemma lookup_putPin_ne m i j w :
  Z.to_nat i <> j -> pins (putPin i w m) !! j = pins m !! j.
Proof. intros. unfold putPin. simpl. apply list_lookup_insert_ne. auto. Qed.

(** * The request interface *)

Section RequestFacts.

Variable hw : Platform.

Lemma normalizePeriod_Done high low h p :
  0 <= high < 2 ^ 32 -> 0 <= low < 2 ^ 32 ->
  0 < MAXIRQCCYS hw < 2 ^ 32 ->
  u32 (high + low) < MAXIRQCCYS hw ->
  normalizePeriod hw high low = Done (h, p) ->
  (high = 0 /\ low <> 0 /\ h = 0 /\ p = MAXIRQCCYS hw / low * low) \/
  (high <> 0 /\ low = 0 /\ h = p /\ p = MAXIRQCCYS hw / high * high) \/
  (high <> 0 /\ low <> 0 /\ h = high /\ p = u32 (high + low)).
Proof.
  intros Hh Hl HM Hlt. unfold normalizePeriod.
  rewrite (u32_small (MAXIRQCCYS hw)) by lia.
  destruct (Z.ltb_spec (u32 (high + low)) (MAXIRQCCYS hw)); [|lia].
  assert (Hq : forall q, 0 < q < MAXIRQCCYS hw ->
     u32 (MAXIRQCCYS hw / q * q) = MAXIRQCCYS hw / q * q).
  { intros q Hq. apply u32_small.
    pose proof (Z.mul_div_le (MAXIRQCCYS hw) q ltac:(lia)).
    assert (0 <= MAXIRQCCYS hw / q) by (apply Z.div_pos; lia). nia. }
  destruct (Z.eqb_spec high 0) as [E|Hnz].
  - subst high. rewrite Z.add_0_l in *. rewrite (u32_small low) in * by lia.
    destruct (Z.eqb_spec low 0); [discriminate|].
    intros H'; invc H'. rewrite Hq by lia. left. auto.
  - destruct (Z.eqb_spec low 0) as [E|Hlz].
    + subst low. rewrite Z.add_0_r in *. rewrite (u32_small high) in * by lia.
      destruct (Z.eqb_spec high 0); [lia|].
      intros H'; invc H'. rewrite Hq by lia. right; left. auto.
    + intros H'; invc H'. right; right. auto.
Qed.

Lemma normalizePeriod_range high low h p :
  0 <= high ->
  normalizePeriod hw high low = Done (h, p) -> 0 <= h /\ 0 <= p < 2 ^ 32.
Proof.
  unfold normalizePeriod. intros Hh H.
  break_step H; invc H;
    repeat match goal with |- context [u32 ?x] =>
      pose proof (u32_range x); generalize dependent (u32 x); intros end; lia.
Qed.

Lemma stretch_bounds q :
  0 < q < MAXIRQCCYS hw ->
  1 <= MAXIRQCCYS hw / q /\
  MAXIRQCCYS hw - q < MAXIRQCCYS hw / q * q <= MAXIRQCCYS hw.
Proof.
  intros Hq.
  pose proof (Z.div_mod (MAXIRQCCYS hw) q ltac:(lia)).
  pose proof (Z.mod_pos_bound (MAXIRQCCYS hw) q ltac:(lia)).
  assert (0 < MAXIRQCCYS hw / q) by (apply Z.div_str_pos; lia).
  nia.
Qed.

(** What a successful request has checked and done. *)
Lemma requestWaveform_true m pin high low rt ap po auto m' :
  requestWaveform hw m pin high low rt ap po auto = Done (true, m') ->
  exists h p w0,
    normalizePeriod hw high low = Done (h, p) /\
    0 <= pin <= 16 /\ isFlashInterfacePin hw pin = false /\ ap <= 16 /\
    0 < s32 p /\ h <= p /\
    pins m !! Z.to_nat pin = Some w0 /\
    let wave := set_autoPwm auto (set_periodCcys p (set_dutyCcys h w0)) in
    m' = if Z.testbit (enabled m) pin
         then postUpdate m pin wave rt
         else postActivate hw m pin wave rt ap po.
Proof.
  unfold requestWaveform. intros H.
  apply bind_Done in H as ([h p] & Hn & H). simpl in H.
  destruct (_ || _) eqn:Hchk in H; [discriminate|].
  repeat (apply orb_false_iff in Hchk as [Hchk ?]).
  apply bind_Done in H as (w0 & Hw0 & H).
  apply getPin_Done in Hw0 as [Hp0 Hw0].
  apply bind_Done in H as (b & Hb & H).
  apply shl1_Done in Hb as [Hp1 ->].
  exists h, p, w0. rewrite land_bitmask_0 in H by lia.
  repeat split; try lia; auto.
  destruct (Z.testbit (enabled m) pin); simpl in H; invc H; reflexivity.
Qed.

(** A request that fails validation changes nothing. *)
Lemma requestWaveform_false m pin high low rt ap po auto m' :
  requestWaveform hw m pin high low rt ap po auto = Done (false, m') ->
  m' = m.
Proof.
  unfold requestWaveform. intros H.
  apply bind_Done in H as ([h p] & Hn & H). simpl in H.
  destruct (_ || _) in H; [invc H; reflexivity|].
  apply bind_Done in H as (w0 & Hw0 & H).
  apply bind_Done in H as (b & Hb & H).
  destruct (_ =? _) in H; invc H.
Qed.

End RequestFacts.

Section RequestEffects.

Variable hw : Platform.

Lemma pins_writePin pin lvl m : pins (writePin pin lvl m) = pins m.
Proof. unfold writePin. destruct (pin =? 16), lvl; reflexivity. Qed.

Lemma pins_postActivate m pin wave rt ap po :
  pins (postActivate hw m pin wave rt ap po)
  = <[Z.to_nat pin :=
        set_alignPhase (if ap <? 0 then -1 else ap)
          (set_mode INIT (set_expiryCcy rt (set_nextPeriodCcy po wave)))]>
      (pins m).
Proof.
  unfold postActivate, initTimer, timer1_write.
  repeat match goal with |- context [if ?c then _ else _] =>
    destruct c; simpl; rewrite ?pins_writePin end; reflexivity.
Qed.

Lemma postActivate_frame m pin wave rt ap po :
  let m' := postActivate hw m pin wave rt ap po in
  toSet m' = pin /\ toDisable m' = toDisable m /\ enabled m' = enabled m /\
  states m' = states m /\ timer1Running m' = true /\ reads m' = reads m /\
  timer1CB m' = timer1CB m /\
  (timer1Running m = true ->
   nmiAttached m' = nmiAttached m /\ T1enabled m' = T1enabled m) /\
  (timer1Running m = false -> nmiAttached m' = true /\ T1enabled m' = true).
Proof.
  unfold postActivate, initTimer, timer1_write, writePin.
  destruct (dutyCcys _ =? 0), (pin =? 16); simpl;
  destruct (timer1Running m) eqn:E; simpl;
  repeat match goal with |- context [if ?c then _ else _] =>
    destruct c; simpl end; rewrite ?E; intuition congruence.
Qed.

Lemma postUpdate_frame m pin wave rt :
  let m' := postUpdate m pin wave rt in
  toSet m' = (if rt =? 0 then toSet m else pin) /\
  toDisable m' = toDisable m /\ enabled m' = enabled m /\
  states m' = states m /\ timer1Running m' = timer1Running m /\
  reads m' = reads m /\ timer1CB m' = timer1CB m /\ GPO m' = GPO m /\
  GP16O m' = GP16O m /\ T1L m' = T1L m /\
  nmiAttached m' = nmiAttached m /\ T1enabled m' = T1enabled m /\
  pins m' = <[Z.to_nat pin :=
                (if rt =? 0 then set_expiryCcy rt (set_mode INFINITE wave)
                 else set_mode UPDATEEXPIRY
                        (set_expiryCcy rt (set_mode INFINITE wave)))]> (pins m).
Proof.
  unfold postUpdate. destruct (rt =? 0); simpl; intuition reflexivity.
Qed.

(** The channel record that a successful request leaves behind carries the
    normalised duty and period. *)
Lemma requestWaveform_staged m pin high low rt ap po auto m' :
  requestWaveform hw m pin high low rt ap po auto = Done (true, m') ->
  exists h p w,
    normalizePeriod hw high low = Done (h, p) /\
    0 < s32 p /\ h <= p /\
    pins m' !! Z.to_nat pin = Some w /\
    dutyCcys w = h /\ periodCcys w = p /\ autoPwm w = auto.
Proof.
  intros H. apply requestWaveform_true in H
    as (h & p & w0 & Hn & Hpin & _ & _ & Hp & Hh & Hw0 & Hm').
  simpl in Hm'.
  assert (Hlt : (Z.to_nat pin < length (pins m))%nat)
    by (eapply lookup_lt_Some; eauto).
  destruct (Z.testbit (enabled m) pin); subst m'.
  - destruct (postUpdate_frame m pin
      (set_autoPwm auto (set_periodCcys p (set_dutyCcys h w0))) rt)
      as (_ & _ & _ & _ & _ & _ & _ & _ & _ & _ & _ & _ & Hp').
    eexists h, p, _. rewrite Hp', list_lookup_insert_eq by exact Hlt.
    repeat split; eauto; destruct (rt =? 0); reflexivity.
  - eexists h, p, _.
    rewrite pins_postActivate, list_lookup_insert_eq by exact Hlt.
    repeat split; eauto.
Qed.

End RequestEffects.

(** * The scan loop, one visit at a time *)

Section ScanFacts.

Variable hw : Platform.
Variable clk : nat -> Z.

Lemma pins_applyPinResult pin b r closer m :
  pins (applyPinResult pin b r closer m) = <[Z.to_nat pin := r_wave r]> (pins m).
Proof.
  unfold applyPinResult, writePin.
  destruct closer, (r_gpio r) as [[]|], (r_toggle r), (r_expire r), (pin =? 16);
    reflexivity.
Qed.

Lemma enabled_applyPinResult pin b r closer m :
  enabled (applyPinResult pin b r closer m)
  = if r_expire r then Z.lxor (enabled m) b else enabled m.
Proof.
  unfold applyPinResult, writePin.
  destruct closer, (r_gpio r) as [[]|], (r_toggle r), (r_expire r), (pin =? 16);
    reflexivity.
Qed.

Lemma states_applyPinResult pin b r closer m :
  states (applyPinResult pin b r closer m)
  = if r_toggle r then Z.lxor (states m) b else states m.
Proof.
  unfold applyPinResult, writePin.
  destruct closer, (r_gpio r) as [[]|], (r_toggle r), (r_expire r), (pin =? 16);
    reflexivity.
Qed.

Lemma misc_applyPinResult pin b r closer m :
  let m' := applyPinResult pin b r closer m in
  toSet m' = toSet m /\ toDisable m' = toDisable m /\
  timer1CB m' = timer1CB m /\ timer1Running m' = timer1Running m /\
  startPin m' = startPin m /\ endPin m' = endPin m /\ reads m' = reads m /\
  nmiAttached m' = nmiAttached m /\ T1enabled m' = T1enabled m.
Proof.
  unfold applyPinResult, writePin.
  destruct closer, (r_gpio r) as [[]|], (r_toggle r), (r_expire r), (pin =? 16);
    simpl; intuition reflexivity.
Qed.

Lemma pinLevel_ext m1 m2 q :
  GPO m1 = GPO m2 -> GP16O m1 = GP16O m2 -> pinLevel m1 q = pinLevel m2 q.
Proof. unfold pinLevel. intros -> ->. reflexivity. Qed.

Lemma pinLevel_writePin_eq pin lvl m :
  0 <= pin -> pinLevel (writePin pin lvl m) pin = lvl.
Proof.
  intros Hp. unfold pinLevel, writePin.
  destruct (pin =? 16), lvl; cbn [GPO GP16O set_GPO set_GP16O];
    change 1 with (bitmask 0);
    rewrite ?Z.lor_spec, ?Z.ldiff_spec, ?testbit_bitmask, ?Z.eqb_refl by lia;
    rewrite ?orb_true_r, ?andb_false_r; reflexivity.
Qed.

Lemma pinLevel_writePin_ne pin q lvl m :
  0 <= pin -> q <> pin -> pinLevel (writePin pin lvl m) q = pinLevel m q.
Proof.
  intros Hp Hq. unfold pinLevel, writePin.
  destruct (Z.eqb_spec pin 16), (Z.eqb_spec q 16), lvl;
    cbn [GPO GP16O set_GPO set_GP16O]; try lia; try reflexivity;
    rewrite ?Z.lor_spec, ?Z.ldiff_spec, ?testbit_bitmask by lia;
    (destruct (Z.eqb_spec pin q); [lia|]);
    rewrite ?orb_false_r, ?andb_true_r; reflexivity.
Qed.

Lemma gpio_applyPinResult pin b r closer m :
  let m0 := match r_gpio r with Some lvl => writePin pin lvl m | None => m end in
  GPO (applyPinResult pin b r closer m) = GPO m0 /\
  GP16O (applyPinResult pin b r closer m) = GP16O m0.
Proof.
  unfold applyPinResult, writePin.
  destruct closer, (r_gpio r) as [[]|], (r_toggle r), (r_expire r), (pin =? 16);
    simpl; split; reflexivity.
Qed.

Lemma pinLevel_applyPinResult_eq pin b r closer m :
  0 <= pin ->
  pinLevel (applyPinResult pin b r closer m) pin
  = match r_gpio r with Some lvl => lvl | None => pinLevel m pin end.
Proof.
  intros Hp. destruct (gpio_applyPinResult pin b r closer m) as [H1 H2].
  rewrite (pinLevel_ext _ _ pin H1 H2).
  destruct (r_gpio r); [apply pinLevel_writePin_eq; lia | reflexivity].
Qed.

Lemma pinLevel_applyPinResult_ne pin q b r closer m :
  0 <= pin -> q <> pin ->
  pinLevel (applyPinResult pin b r closer m) q = pinLevel m q.
Proof.
  intros Hp Hq. destruct (gpio_applyPinResult pin b r closer m) as [H1 H2].
  rewrite (pinLevel_ext _ _ q H1 H2).
  destruct (r_gpio r); [apply pinLevel_writePin_ne; lia | reflexivity].
Qed.

(** What a visit of [pin] amounts to. *)
Lemma servicePin_Done pin sc sc' :
  servicePin hw clk pin sc = Done sc' ->
  0 <= pin < 32 /\
  ((Z.testbit (enabled (sc_m sc)) pin = false /\ sc' = sc) \/
   (Z.testbit (enabled (sc_m sc)) pin = true /\
    exists w r closer,
      pins (sc_m sc) !! Z.to_nat pin = Some w /\
      pinStep hw (sc_now sc) w (Z.testbit (states (sc_m sc)) pin) = Done r /\
      sc_m sc' = set_reads (S (reads (sc_m sc)))
                   (applyPinResult pin (bitmask pin) r closer (sc_m sc)) /\
      sc_now sc' = u32 (clk (reads (sc_m sc))))).
Proof.
  unfold servicePin. intros H.
  apply bind_Done in H as (b & Hb & H). apply shl1_Done in Hb as [Hp ->].
  split; [exact Hp|].
  rewrite !land_bitmask_0 in H by lia.
  destruct (Z.testbit (enabled (sc_m sc)) pin); simpl in H.
  - right. split; [reflexivity|].
    apply bind_Done in H as (w & Hw & H). apply getPin_Done in Hw as [_ Hw].
    apply bind_Done in H as (r & Hr & H).
    rewrite negb_involutive in Hr.
    exists w, r. eexists. split; [exact Hw|]. split; [exact Hr|].
    invc H. unfold getCycleCount. simpl.
    destruct (misc_applyPinResult pin (bitmask pin) r
      (0 <? s32 (sc_nextTimerCcy sc - nextEventCcy (r_wave r))) (sc_m sc))
      as (_ & _ & _ & _ & _ & _ & Hr' & _).
    rewrite Hr'. split; reflexivity.
  - left. invc H. auto.
Qed.

(** An invariant of the scan state that every visit, every re-read of the
    cycle counter and every change of [nextTimerCcy] keeps is kept by the
    loops. *)
Section ScanRule.

Variable K : Scan -> Prop.

Hypothesis K_service : forall pin sc sc',
  K sc -> servicePin hw clk pin sc = Done sc' -> K sc'.
Hypothesis K_read : forall sc,
  K sc ->
  K (mkScan (snd (getCycleCount clk (sc_m sc)))
            (fst (getCycleCount clk (sc_m sc))) (sc_nextTimerCcy sc)).
Hypothesis K_timer : forall sc nt,
  K sc -> K (mkScan (sc_m sc) (sc_now sc) nt).

Lemma scanPins_rule fuel stop pin sc sc' :
  K sc -> scanPins hw clk fuel stop pin sc = Done sc' -> K sc'.
Proof.
  revert pin sc. induction fuel as [|f IH]; intros pin sc HK H; [discriminate|].
  simpl in H. apply bind_Done in H as (sc1 & H1 & H).
  pose proof (K_service _ _ _ HK H1) as HK1.
  destruct (_ =? stop) in H; [invc H; exact HK1 | eapply IH; eauto].
Qed.

Lemma spinUntil_rule fuel target sc sc' :
  K sc -> spinUntil clk fuel target sc = Done sc' -> K sc'.
Proof.
  revert sc. induction fuel as [|f IH]; intros sc HK H; simpl in H.
  - destruct (0 <? _) in H; [discriminate | invc H; exact HK].
  - destruct (0 <? _) in H; [|invc H; exact HK].
    eapply IH; [|exact H]. apply K_read. exact HK.
Qed.

Lemma scanLoop_rule fuel tmo sc sc' :
  K sc -> scanLoop hw clk fuel tmo sc = Done sc' -> K sc'.
Proof.
  revert sc. induction fuel as [|f IH]; intros sc HK H; [discriminate|].
  cbn [scanLoop] in H. apply bind_Done in H as (sc1 & H1 & H).
  eapply scanPins_rule in H1; [|apply K_timer; exact HK].
  destruct (0 <? _) in H; [|invc H; exact H1].
  apply bind_Done in H as (sc2 & H2 & H).
  eapply spinUntil_rule in H2; [|exact H1].
  eapply IH; eauto.
Qed.

Hypothesis K_nextPin : forall sc v,
  K sc -> K (mkScan (set_nextPin v (sc_m sc)) (sc_now sc) (sc_nextTimerCcy sc)).

(** The handler as a whole: from the state after the request phase to the
    state that is handed to [rearm]. *)
Lemma timer1Interrupt_rule fuel m m' :
  timer1Interrupt hw clk fuel m = Done m' ->
  exists b sc,
    beginInterrupt hw clk m = Done b /\
    (K (snd b) -> K sc) /\ m' = rearm hw clk sc.
Proof.
  unfold timer1Interrupt. intros H.
  apply bind_Done in H as (b & Hb & H).
  apply bind_Done in H as (sc & Hsc & H). invc H.
  exists b, sc. split; [exact Hb|]. split; [|reflexivity].
  intros HK. clear Hb. destruct b as [tmo [m3 now nt]]. simpl in *.
  destruct (enabled m3 =? 0).
  - invc Hsc. apply (K_timer (mkScan m3 now nt)). exact HK.
  - apply bind_Done in Hsc as (bit & _ & Hsc).
    eapply scanLoop_rule; [|exact Hsc].
    destruct (_ =? 0).
    + apply (K_timer (mkScan (set_nextPin (startPin m3) m3) now nt)).
      apply (K_nextPin (mkScan m3 now nt)). exact HK.
    + apply (K_timer (mkScan m3 now nt)). exact HK.
Qed.

End ScanRule.

Lemma rearm_frame sc :
  let m := sc_m sc in
  let m' := rearm hw clk sc in
  pins m' = pins m /\ states m' = states m /\ enabled m' = enabled m /\
  toSet m' = toSet m /\ toDisable m' = toDisable m /\
  timer1CB m' = timer1CB m /\ timer1Running m' = timer1Running m /\
  GPO m' = GPO m /\ GP16O m' = GP16O m /\
  nmiAttached m' = nmiAttached m /\ T1enabled m' = T1enabled m /\
  (reads m <= reads m')%nat.
Proof.
  intros m m'. subst m m'. unfold rearm, getCycleCount.
  destruct (timer1CB (sc_m sc)) eqn:E; cbn;
    repeat split; try reflexivity; try exact E; lia.
Qed.

(** ** The request phase of the handler *)

Lemma bitmask_nonzero n : 0 <= n -> bitmask n <> 0.
Proof. intros. rewrite bitmask_pow2 by lia. apply Z.pow_nonzero; lia. Qed.

Lemma testbit_0_l q : Z.testbit 0 q = false.
Proof. apply Z.bits_0. Qed.

(** The mask computed for a mailbox. *)
Lemma mailbox_mask slot mask :
  (if 0 <=? slot then shl1 slot else Done 0) = Done mask ->
  (slot < 0 /\ mask = 0) \/ (0 <= slot < 32 /\ mask = bitmask slot).
Proof.
  destruct (Z.leb_spec 0 slot) as [Hs|Hs]; intros Hm.
  - apply shl1_Done in Hm. right. lia.
  - invc Hm. left. lia.
Qed.

Lemma mailbox_mask_bit slot mask q :
  (slot < 0 /\ mask = 0) \/ (0 <= slot < 32 /\ mask = bitmask slot) ->
  0 <= q -> Z.testbit mask q = (slot =? q).
Proof.
  intros [[Hs ->]|[Hs ->]] Hq.
  - rewrite Z.bits_0. symmetry. apply Z.eqb_neq. lia.
  - apply testbit_bitmask. lia.
Qed.

Lemma foldRequests_Done m f :
  foldRequests hw m = Done f ->
  ((toSet m < 0 /\ fst f = 0) \/
   (0 <= toSet m < 32 /\ fst f = bitmask (toSet m))) /\
  pins (snd f) = pins m /\ states (snd f) = states m /\
  toSet (snd f) = toSet m /\ toDisable (snd f) < 0 /\
  (toDisable m < 0 -> toDisable (snd f) = toDisable m \/ toDisable (snd f) = -1) /\
  reads (snd f) = reads m /\ GPO (snd f) = GPO m /\ GP16O (snd f) = GP16O m /\
  timer1CB (snd f) = timer1CB m /\ timer1Running (snd f) = timer1Running m /\
  nmiAttached (snd f) = nmiAttached m /\ T1enabled (snd f) = T1enabled m /\
  (forall q, 0 <= q ->
     Z.testbit (enabled (snd f)) q
     = (Z.testbit (enabled m) q && negb (toDisable m =? q)) || (toSet m =? q)).
Proof.
  unfold foldRequests. intros H.
  apply bind_Done in H as (smask & Hs & H).
  apply bind_Done in H as (dmask & Hd & H).
  apply mailbox_mask in Hs. apply mailbox_mask in Hd.
  destruct (_ || _) eqn:Hc in H; invc H; cbn [fst snd].
  - split; [exact Hs|]. cbn.
    repeat split; try reflexivity; try lia.
    intros q Hq. rewrite Z.lor_spec, Z.ldiff_spec.
    rewrite (mailbox_mask_bit _ _ q Hs Hq), (mailbox_mask_bit _ _ q Hd Hq).
    reflexivity.
  - apply orb_false_iff in Hc as [Hc1 Hc2].
    apply negb_false_iff, Z.eqb_eq in Hc2. subst dmask.
    assert (Hdn : toDisable m < 0).
    { destruct Hd as [[? _]|[? Hd]]; [lia|].
      symmetry in Hd. apply bitmask_nonzero in Hd; [tauto | lia]. }
    split; [exact Hs|].
    repeat split; try reflexivity; try lia.
    intros q Hq.
    replace (toDisable m =? q) with false by (symmetry; apply Z.eqb_neq; lia).
    rewrite andb_true_r.
    destruct Hs as [[Hsn ->]|[Hsp ->]].
    + replace (toSet m =? q) with false by (symmetry; apply Z.eqb_neq; lia).
      rewrite orb_false_r. reflexivity.
    + apply andb_false_iff in Hc1 as [Hc1|Hc1].
      * apply negb_false_iff, Z.eqb_eq in Hc1.
        apply bitmask_nonzero in Hc1; [tauto | lia].
      * rewrite land_bitmask_0 in Hc1 by lia. apply negb_false_iff in Hc1.
        destruct (Z.eqb_spec (toSet m) q); [subst q; rewrite Hc1|];
          rewrite ?orb_false_r; reflexivity.
Qed.

Lemma chooseAnchor_Done now m w np :
  chooseAnchor now m w = Done np ->
  (0 <= alignPhase w /\ Z.testbit (enabled m) (alignPhase w) = true /\
   exists wk, pins m !! Z.to_nat (alignPhase w) = Some wk /\
              np = u32 (nextPeriodCcy wk + nextPeriodCcy w)) \/
  ((alignPhase w < 0 \/ Z.testbit (enabled m) (alignPhase w) = false) /\
   np = now).
Proof.
  unfold chooseAnchor. intros H. apply bind_Done in H as (al & Ha & H).
  destruct (Z.leb_spec 0 (alignPhase w)) as [Hk|Hk].
  - apply bind_Done in Ha as (b & Hb & Ha). apply shl1_Done in Hb as [Hk' ->].
    rewrite land_bitmask_0, negb_involutive in Ha by lia. invc Ha.
    destruct (Z.testbit (enabled m) (alignPhase w)) eqn:E.
    + apply bind_Done in H as (wk & Hwk & H). apply getPin_Done in Hwk as [_ Hwk].
      invc H. left. eauto 6.
    + invc H. right. auto.
  - invc Ha. invc H. right. auto.
Qed.

Lemma applyToSet_Done now mask m m' :
  (toSet m < 0 /\ mask = 0) \/ (0 <= toSet m < 32 /\ mask = bitmask (toSet m)) ->
  applyToSet now mask m = Done m' ->
  toSet m' < 0 /\ enabled m' = enabled m /\ toDisable m' = toDisable m /\
  reads m' = reads m /\ GPO m' = GPO m /\ GP16O m' = GP16O m /\
  timer1CB m' = timer1CB m /\ timer1Running m' = timer1Running m /\
  nmiAttached m' = nmiAttached m /\ T1enabled m' = T1enabled m /\
  (forall q, 0 <= q -> q <> toSet m ->
     pins m' !! Z.to_nat q = pins m !! Z.to_nat q /\
     Z.testbit (states m') q = Z.testbit (states m) q) /\
  (toSet m < 0 -> m' = m) /\
  (0 <= toSet m ->
   exists w, pins m !! Z.to_nat (toSet m) = Some w /\
     match mode w with
     | INIT =>
         Z.testbit (states m') (toSet m) = false /\
         exists np, chooseAnchor now m w = Done np /\
           pins m' !! Z.to_nat (toSet m) = Some (anchorWave np w)
     | UPDATEEXPIRY =>
         states m' = states m /\
         pins m' !! Z.to_nat (toSet m) = Some (armExpiry w)
     | _ => states m' = states m /\ pins m' = pins m
     end).
Proof.
  intros Hmask. unfold applyToSet.
  destruct Hmask as [[Hn ->]|[Hp ->]].
  - simpl. intros H. invc H. repeat split; auto; lia.
  - destruct (Z.eqb_spec (bitmask (toSet m)) 0) as [E|_];
      [apply bitmask_nonzero in E; [tauto | lia]|].
    intros H. apply bind_Done in H as (w & Hw & H).
    apply getPin_Done in Hw as [_ Hw].
    assert (Hne : forall q, 0 <= q -> q <> toSet m ->
              Z.to_nat (toSet m) <> Z.to_nat q) by lia.
    destruct (mode w) eqn:Hmode.
    + invc H. cbn. repeat split; auto; try lia. intros _. exists w. rewrite Hmode. auto.
    + invc H. cbn. repeat split; auto; try lia. intros _. exists w. rewrite Hmode. auto.
    + invc H. cbn -[armExpiry]. repeat split; auto; try lia.
      * apply list_lookup_insert_ne. auto.
      * intros _. exists w. rewrite Hmode. split; [exact Hw|].
        split; [reflexivity|].
        apply list_lookup_insert_eq. eapply lookup_lt_Some; eauto.
    + apply bind_Done in H as (np & Hnp & H). invc H.
      cbn -[anchorWave]. repeat split; auto; try lia.
      * apply list_lookup_insert_ne. auto.
      * rewrite Z.ldiff_spec, testbit_bitmask by lia.
        destruct (Z.eqb_spec (toSet m) q); [lia|]. apply andb_true_r.
      * intros _. exists w. rewrite Hmode. split; [exact Hw|]. split.
        -- rewrite Z.ldiff_spec, testbit_bitmask, Z.eqb_refl by lia.
           apply andb_false_r.
        -- exists np. split; [exact Hnp|].
           apply list_lookup_insert_eq. eapply lookup_lt_Some; eauto.
Qed.

(** The request phase as a whole. *)
Lemma beginInterrupt_Done m b :
  beginInterrupt hw clk m = Done b ->
  let m' := sc_m (snd b) in
  sc_now (snd b) = u32 (clk (S (reads m))) /\
  reads m' = S (S (reads m)) /\
  toSet m' < 0 /\ toDisable m' < 0 /\
  GPO m' = GPO m /\ GP16O m' = GP16O m /\
  timer1CB m' = timer1CB m /\ timer1Running m' = timer1Running m /\
  nmiAttached m' = nmiAttached m /\ T1enabled m' = T1enabled m /\
  (forall q, 0 <= q ->
     Z.testbit (enabled m') q
     = (Z.testbit (enabled m) q && negb (toDisable m =? q)) || (toSet m =? q)) /\
  (forall q, 0 <= q -> q <> toSet m ->
     pins m' !! Z.to_nat q = pins m !! Z.to_nat q /\
     Z.testbit (states m') q = Z.testbit (states m) q) /\
  (toSet m < 0 -> pins m' = pins m /\ states m' = states m) /\
  (0 <= toSet m ->
   exists w, pins m !! Z.to_nat (toSet m) = Some w /\
     match mode w with
     | INIT =>
         Z.testbit (states m') (toSet m) = false /\
         exists np,
           pins m' !! Z.to_nat (toSet m) = Some (anchorWave np w) /\
           ((0 <= alignPhase w /\
             Z.testbit (enabled m') (alignPhase w) = true /\
             exists wk, pins m !! Z.to_nat (alignPhase w) = Some wk /\
                        np = u32 (nextPeriodCcy wk + nextPeriodCcy w)) \/
            ((alignPhase w < 0 \/
              Z.testbit (enabled m') (alignPhase w) = false) /\
             np = u32 (clk (S (reads m)))))
     | UPDATEEXPIRY =>
         states m' = states m /\
         pins m' !! Z.to_nat (toSet m) = Some (armExpiry w)
     | _ => states m' = states m /\ pins m' = pins m
     end).
Proof.
  unfold beginInterrupt. intros H.
  apply bind_Done in H as (f & Hf & H).
  apply bind_Done in H as (m3 & H3 & H). invc H. cbn [fst snd sc_m sc_now].
  apply foldRequests_Done in Hf
    as (Hmask & Hfp & Hfs & Hft & Hfd & _ & Hfr & Hg & Hg16 & Hcb & Hrun & Hnmi
        & Hten & Hen).
  unfold getCycleCount in *. cbn [fst snd] in *.
  apply applyToSet_Done in H3.
  2:{ cbn. rewrite Hft. exact Hmask. }
  cbn in H3. cbn in Hfr, Hfp, Hfs, Hft, Hfd, Hg, Hg16, Hcb, Hrun, Hnmi, Hten, Hen, Hmask.
  destruct H3 as (Ht & Hen3 & Hd3 & Hr3 & H3g & H3g16 & H3cb & H3run & H3nmi
                  & H3ten & Hoth & Hneg & Hpos).
  rewrite Hfr. rewrite Hft in *. rewrite Hfp in *. rewrite Hfs in *.
  split; [reflexivity|]. split; [lia|]. split; [exact Ht|].
  split; [lia|].
  repeat (split; [congruence|]).
  split. { intros q Hq. rewrite Hen3. apply Hen. exact Hq. }
  split. { exact Hoth. }
  split. { intros Hn. rewrite (Hneg Hn). cbn. auto. }
  intros Hp. destruct (Hpos Hp) as (w & Hw & Hcase). exists w.
  split; [exact Hw|]. destruct (mode w); auto.
  destruct Hcase as (Hst & np & Hnp & Hpin). split; [exact Hst|].
  exists np. split; [exact Hpin|].
  apply chooseAnchor_Done in Hnp. cbn in Hnp. rewrite Hen3.
  rewrite Hfp, Hfr in Hnp. exact Hnp.
Qed.

(** ** A channel through the handler *)

Lemma channel_Some m p c :
  channel m p = Some c ->
  pins m !! Z.to_nat p = Some (ch_wave c) /\
  ch_level c = Z.testbit (states m) p /\
  ch_enabled c = Z.testbit (enabled m) p /\
  ch_out c = pinLevel m p.
Proof.
  unfold channel. destruct (pins m !! Z.to_nat p); intros H; invc H. auto.
Qed.

Lemma channel_ext m1 m2 p :
  pins m1 !! Z.to_nat p = pins m2 !! Z.to_nat p ->
  Z.testbit (states m1) p = Z.testbit (states m2) p ->
  Z.testbit (enabled m1) p = Z.testbit (enabled m2) p ->
  pinLevel m1 p = pinLevel m2 p ->
  channel m1 p = channel m2 p.
Proof. unfold channel. intros -> -> -> ->. reflexivity. Qed.

Lemma channel_set_reads n m p : channel (set_reads n m) p = channel m p.
Proof. reflexivity. Qed.

Lemma channel_set_nextPin v m p : channel (set_nextPin v m) p = channel m p.
Proof. reflexivity. Qed.

(** A visit of pin [q] changes the channel [p] as [visit] says if [q] is
    [p], and not at all otherwise. *)
Lemma servicePin_channel q sc sc' p c :
  0 <= p ->
  servicePin hw clk q sc = Done sc' ->
  channel (sc_m sc) p = Some c ->
  (sc' = sc \/
   (sc_now sc' = u32 (clk (reads (sc_m sc))) /\
    reads (sc_m sc') = S (reads (sc_m sc)))) /\
  exists c', channel (sc_m sc') p = Some c' /\
    if q =? p then visit hw (sc_now sc) c = Done c' else c' = c.
Proof.
  intros Hp H Hc. apply servicePin_Done in H as [Hq [[Hen ->]|H]].
  - split; [left; reflexivity|]. exists c. split; [exact Hc|].
    destruct (Z.eqb_spec q p); [subst q|reflexivity].
    apply channel_Some in Hc as (_ & _ & He & _).
    unfold visit. rewrite He, Hen. reflexivity.
  - destruct H as (Hen & w & r & closer & Hw & Hr & Hm & Hnow).
    split.
    { right. split; [exact Hnow|]. rewrite Hm. reflexivity. }
    rewrite Hm, channel_set_reads.
    apply channel_Some in Hc as (Hcw & Hcl & Hce & Hco).
    destruct (Z.eqb_spec q p) as [->|Hne].
    + eexists. split.
      * unfold channel.
        rewrite pins_applyPinResult, list_lookup_insert_eq
          by (eapply lookup_lt_Some; eauto).
        reflexivity.
      * unfold visit. rewrite Hce, Hen.
        rewrite Hw in Hcw. invc Hcw. rewrite Hcl, Hr. cbn [bind].
        rewrite states_applyPinResult, enabled_applyPinResult,
          pinLevel_applyPinResult_eq by lia.
        f_equal. destruct c as [cw cl ce co]. cbn in *. subst. f_equal.
        -- destruct (r_toggle r);
             rewrite ?Z.lxor_spec, ?testbit_bitmask, ?Z.eqb_refl by lia;
             rewrite ?xorb_true_r, ?xorb_false_r; reflexivity.
        -- destruct (r_expire r);
             rewrite ?Z.lxor_spec, ?testbit_bitmask, ?Z.eqb_refl, ?Hen by lia;
             reflexivity.
    + exists c. split; [|reflexivity].
      unfold channel.
      rewrite pins_applyPinResult, list_lookup_insert_ne by lia.
      rewrite Hcw, states_applyPinResult, enabled_applyPinResult,
        pinLevel_applyPinResult_ne by lia.
      destruct c as [cw cl ce co]. cbn in *. subst. f_equal. f_equal.
      * destruct (r_toggle r); [|reflexivity].
        rewrite Z.lxor_spec, testbit_bitmask by lia.
        destruct (Z.eqb_spec q p); [lia|]. apply xorb_false_r.
      * destruct (r_expire r); [|reflexivity].
        rewrite Z.lxor_spec, testbit_bitmask by lia.
        destruct (Z.eqb_spec q p); [lia|]. apply xorb_false_r.
Qed.

(** ** Invariants of one channel through the handler *)

Section PinRule.

Variable p : Z.
Hypothesis Hp : 0 <= p.
Variable I : nat -> Channel -> Prop.
Hypothesis I_mono : forall j j' c, (j <= j')%nat -> I j c -> I j' c.
Hypothesis I_visit : forall j c c',
  I j c -> visit hw (u32 (clk j)) c = Done c' -> I j c'.

Lemma tracks_service q sc sc' :
  tracks clk p I sc -> servicePin hw clk q sc = Done sc' -> tracks clk p I sc'.
Proof.
  intros (j & c & Hj & Hnow & Hc & HI) Hs.
  destruct (servicePin_channel q sc sc' p c Hp Hs Hc) as [Hrd (c' & Hc' & Hv)].
  assert (HI' : I j c').
  { destruct (q =? p); [|subst c'; exact HI].
    rewrite Hnow in Hv. eapply I_visit; eauto. }
  destruct Hrd as [->|[Hn Hr]].
  - exists j, c'. auto.
  - exists (reads (sc_m sc)), c'. rewrite Hr.
    split; [lia|]. split; [exact Hn|]. split; [exact Hc'|].
    apply I_mono with j; [lia | exact HI'].
Qed.

Lemma tracks_read sc :
  tracks clk p I sc ->
  tracks clk p I (mkScan (snd (getCycleCount clk (sc_m sc)))
                    (fst (getCycleCount clk (sc_m sc))) (sc_nextTimerCcy sc)).
Proof.
  intros (j & c & Hj & Hnow & Hc & HI).
  exists (reads (sc_m sc)), c. cbn.
  split; [lia|]. split; [reflexivity|]. split; [exact Hc|].
  apply I_mono with j; [lia | exact HI].
Qed.

Lemma tracks_timer sc nt :
  tracks clk p I sc -> tracks clk p I (mkScan (sc_m sc) (sc_now sc) nt).
Proof. intros H. exact H. Qed.

Lemma tracks_nextPin sc v :
  tracks clk p I sc ->
  tracks clk p I (mkScan (set_nextPin v (sc_m sc)) (sc_now sc)
                    (sc_nextTimerCcy sc)).
Proof. intros H. exact H. Qed.

Lemma channel_rearm sc q : channel (rearm hw clk sc) q = channel (sc_m sc) q.
Proof.
  destruct (rearm_frame sc)
    as (H1 & H2 & H3 & _ & _ & _ & _ & H4 & H5 & _).
  apply channel_ext; try congruence. apply pinLevel_ext; congruence.
Qed.

(** A firing whose request phase establishes the invariant ends with it. *)
Lemma timer1Interrupt_tracks fuel m m' :
  timer1Interrupt hw clk fuel m = Done m' ->
  exists b, beginInterrupt hw clk m = Done b /\
            (tracks clk p I (snd b) -> holdsAt p I m').
Proof.
  intros H.
  destruct (timer1Interrupt_rule (tracks clk p I) tracks_service tracks_read
              tracks_timer tracks_nextPin fuel m m' H)
    as (b & sc & Hb & HK & ->).
  exists b. split; [exact Hb|]. intros Hb'.
  destruct (HK Hb') as (j & c & Hj & _ & Hc & HI).
  exists j, c. rewrite channel_rearm.
  split; [|split; [exact Hc | exact HI]].
  destruct (rearm_frame sc) as (_ & _ & _ & _ & _ & _ & _ & _ & _ & _ & _ & Hr).
  cbv zeta in Hr. lia.
Qed.


End PinRule.

(** ** What a visit never touches *)

Lemma pinStep_config now w lvl r :
  pinStep hw now w lvl = Done r ->
  dutyCcys (r_wave r) = dutyCcys w /\ periodCcys (r_wave r) = periodCcys w /\
  autoPwm (r_wave r) = autoPwm w /\ alignPhase (r_wave r) = alignPhase w /\
  mode (r_wave r) = mode w /\
  r_gpio r = (if r_toggle r then Some (negb lvl) else None).
Proof.
  unfold pinStep, edgeStep. intros H.
  break_step H; invc H; cbn; repeat split; reflexivity.
Qed.

Lemma anchorWave_config np w :
  dutyCcys (anchorWave np w) = dutyCcys w /\
  periodCcys (anchorWave np w) = periodCcys w /\
  autoPwm (anchorWave np w) = autoPwm w /\
  alignPhase (anchorWave np w) = alignPhase w /\
  nextPeriodCcy (anchorWave np w) = np /\
  nextEventCcy (anchorWave np w) = np.
Proof.
  unfold anchorWave, armExpiry. cbn. destruct (expiryCcy w =? 0); cbn; auto 7.
Qed.

(** The request phase, seen from one channel. *)
Lemma beginInterrupt_channel m b p c :
  0 <= p ->
  beginInterrupt hw clk m = Done b ->
  channel m p = Some c ->
  exists c',
    channel (sc_m (snd b)) p = Some c' /\
    ch_out c' = ch_out c /\
    ch_enabled c'
    = (ch_enabled c && negb (toDisable m =? p)) || (toSet m =? p) /\
    (toSet m <> p -> ch_wave c' = ch_wave c /\ ch_level c' = ch_level c) /\
    (toSet m = p ->
     match mode (ch_wave c) with
     | INIT =>
         ch_level c' = false /\
         exists np, ch_wave c' = anchorWave np (ch_wave c) /\
           ((0 <= alignPhase (ch_wave c) /\
             Z.testbit (enabled (sc_m (snd b))) (alignPhase (ch_wave c)) = true /\
             exists wk,
               pins m !! Z.to_nat (alignPhase (ch_wave c)) = Some wk /\
               np = u32 (nextPeriodCcy wk + nextPeriodCcy (ch_wave c))) \/
            ((alignPhase (ch_wave c) < 0 \/
              Z.testbit (enabled (sc_m (snd b))) (alignPhase (ch_wave c)) = false)
             /\ np = u32 (clk (S (reads m)))))
     | UPDATEEXPIRY =>
         ch_level c' = ch_level c /\ ch_wave c' = armExpiry (ch_wave c)
     | _ => ch_level c' = ch_level c /\ ch_wave c' = ch_wave c
     end).
Proof.
  intros Hp Hb Hc. apply beginInterrupt_Done in Hb. cbn zeta in Hb.
  destruct Hb as (_ & _ & _ & _ & Hg & Hg16 & _ & _ & _ & _ & Hen & Hoth & Hneg
                  & Hpos).
  apply channel_Some in Hc as (Hcw & Hcl & Hce & Hco).
  assert (Hout : pinLevel (sc_m (snd b)) p = pinLevel m p)
    by (apply pinLevel_ext; assumption).
  destruct (Z.eq_dec (toSet m) p) as [Heq|Hne].
  - destruct (Hpos ltac:(lia)) as (w & Hw & Hcase). rewrite Heq in *.
    rewrite Hcw in Hw. invc Hw.
    destruct (mode (ch_wave c)) eqn:Hmode.
    + destruct Hcase as [Hs Hpn]. eexists. split.
      { unfold channel. rewrite Hpn, Hcw. reflexivity. }
      cbn. rewrite Hout, Hen, Hs, <- Hce, <- Hco, <- Hcl by lia.
      repeat split; auto; congruence.
    + destruct Hcase as [Hs Hpn]. eexists. split.
      { unfold channel. rewrite Hpn, Hcw. reflexivity. }
      cbn. rewrite Hout, Hen, Hs, <- Hce, <- Hco, <- Hcl by lia.
      repeat split; auto; congruence.
    + destruct Hcase as [Hs Hpn]. eexists. split.
      { unfold channel. rewrite Hpn. reflexivity. }
      cbn. rewrite Hout, Hen, Hs, <- Hce, <- Hco, <- Hcl by lia.
      repeat split; auto; congruence.
    + destruct Hcase as (Hs & np & Hpn & Hnp). eexists. split.
      { unfold channel. rewrite Hpn. reflexivity. }
      cbn. rewrite Hout, Hen, Hs, <- Hce, <- Hco by lia.
      split; [reflexivity|]. split; [reflexivity|].
      split; [congruence|]. intros _. split; [reflexivity|].
      exists np. split; [reflexivity | exact Hnp].
  - destruct (Hoth p Hp ltac:(congruence)) as [H1 H2].
    eexists. split.
    { unfold channel. rewrite H1, Hcw. reflexivity. }
    cbn. rewrite Hout, Hen, H2, <- Hce, <- Hco, <- Hcl by lia.
    repeat split; auto; congruence.
Qed.

Lemma visit_Done now c c' :
  visit hw now c = Done c' ->
  (ch_enabled c = false /\ c' = c) \/
  (ch_enabled c = true /\
   exists r, pinStep hw now (ch_wave c) (ch_level c) = Done r /\
     c' = mkChannel (r_wave r) (xorb (ch_level c) (r_toggle r))
            (negb (r_expire r))
            (match r_gpio r with Some lvl => lvl | None => ch_out c end)).
Proof.
  unfold visit. destruct (ch_enabled c); intros H.
  - right. split; [reflexivity|].
    apply bind_Done in H as (r & Hr & H). invc H. eauto.
  - left. invc H. auto.
Qed.

(** No firing changes the configuration of a channel, whatever the
    mailboxes hold. *)
Lemma timer1Interrupt_config p d per a fuel m m' :
  0 <= p ->
  holdsAt p (hasConfig d per a) m ->
  timer1Interrupt hw clk fuel m = Done m' ->
  holdsAt p (hasConfig d per a) m'.
Proof.
  intros Hp (j & c & Hj & Hc & HI) H.
  destruct (timer1Interrupt_tracks p Hp (hasConfig d per a)) with
    (fuel := fuel) (m := m) (m' := m') as (b & Hb & Hfin); auto.
  - intros j0 c0 c0' HI0 Hv. apply visit_Done in Hv as [[_ ->]|[_ (r & Hr & ->)]];
      [exact HI0|].
    apply pinStep_config in Hr as (H1 & H2 & H3 & _).
    destruct HI0 as (? & ? & ?). unfold hasConfig. cbn. repeat split; congruence.
  - apply Hfin.
    destruct (beginInterrupt_channel m b p c Hp Hb Hc)
      as (c' & Hc' & _ & _ & Hne & Heq).
    pose proof Hb as Hb'. apply beginInterrupt_Done in Hb'. cbn zeta in Hb'.
    destruct Hb' as (Hnow & Hr & _).
    exists (S (reads m)), c'. rewrite Hr.
    split; [lia|]. split; [exact Hnow|]. split; [exact Hc'|].
    destruct HI as (H1 & H2 & H3). unfold hasConfig.
    destruct (Z.eq_dec (toSet m) p) as [E|E].
    + specialize (Heq E). destruct (mode (ch_wave c)).
      * destruct Heq as [_ ->]. auto.
      * destruct Heq as [_ ->]. auto.
      * destruct Heq as [_ ->]. cbn. auto.
      * destruct Heq as (_ & np & -> & _).
        destruct (anchorWave_config np (ch_wave c)) as (? & ? & ? & _).
        repeat split; congruence.
    + destruct (Hne E) as [-> _]. auto.
Qed.

(** A caller that waits keeps what every firing keeps. *)
Lemma await_rule (P : Machine -> Prop) slot fuel m m' :
  (forall f x x', P x -> timer1Interrupt hw clk f x = Done x' -> P x') ->
  P m -> await hw slot clk fuel m = Done m' -> P m' /\ slot m' < 0.
Proof.
  intros Hstep. revert m. induction fuel as [|f IH]; intros m HP H; simpl in H.
  - destruct (Z.ltb_spec (slot m) 0); [invc H; auto | discriminate].
  - destruct (Z.ltb_spec (slot m) 0); [invc H; auto |].
    destruct (_ && _) in H; [|discriminate].
    apply bind_Done in H as (m1 & H1 & H).
    eapply IH; [|exact H]. eapply Hstep; eauto.
Qed.

Lemma firings_rule (P : Machine -> Prop) fuels m m' :
  (forall f x x', P x -> timer1Interrupt hw clk f x = Done x' -> P x') ->
  P m -> firings hw clk fuels m = Done m' -> P m'.
Proof.
  intros Hstep. revert m.
  induction fuels as [|f fs IH]; intros m HP H; simpl in H.
  - invc H. exact HP.
  - apply bind_Done in H as (m1 & H1 & H). eapply IH; [|exact H].
    eapply Hstep; eauto.
Qed.

(** Waiting for a mailbox is a run of firings. *)
Lemma await_firings slot fuel m m' :
  await hw slot clk fuel m = Done m' ->
  slot m' < 0 /\
  exists fuels, firings hw clk fuels m = Done m' /\
                (0 <= slot m -> fuels <> []).
Proof.
  revert m. induction fuel as [|f IH]; intros m H; simpl in H.
  - destruct (Z.ltb_spec (slot m) 0); [|discriminate]. invc H.
    split; [assumption|]. exists []. split; [reflexivity | lia].
  - destruct (Z.ltb_spec (slot m) 0).
    + invc H. split; [assumption|]. exists []. split; [reflexivity | lia].
    + destruct (_ && _) in H; [|discriminate].
      apply bind_Done in H as (m1 & H1 & H).
      destruct (IH _ H) as (Hs & fs & Hfs & _).
      split; [exact Hs|]. exists (S f :: fs). split; [|discriminate].
      simpl. rewrite H1. exact Hfs.
Qed.

(** What no firing touches, and what it does to the masks. *)
Lemma timer1Interrupt_frame fuel m m' :
  timer1Interrupt hw clk fuel m = Done m' ->
  toSet m' < 0 /\ toDisable m' < 0 /\
  timer1CB m' = timer1CB m /\ timer1Running m' = timer1Running m /\
  nmiAttached m' = nmiAttached m /\ T1enabled m' = T1enabled m /\
  (forall q, 0 <= q -> Z.testbit (enabled m') q = true ->
     (Z.testbit (enabled m) q = true /\ toDisable m <> q) \/ toSet m = q).
Proof.
  intros H.
  set (K := fun sc : Scan => exists b, beginInterrupt hw clk m = Done b /\
       toSet (sc_m sc) = toSet (sc_m (snd b)) /\
       toDisable (sc_m sc) = toDisable (sc_m (snd b)) /\
       timer1CB (sc_m sc) = timer1CB (sc_m (snd b)) /\
       timer1Running (sc_m sc) = timer1Running (sc_m (snd b)) /\
       nmiAttached (sc_m sc) = nmiAttached (sc_m (snd b)) /\
       T1enabled (sc_m sc) = T1enabled (sc_m (snd b)) /\
       forall q, 0 <= q -> Z.testbit (enabled (sc_m sc)) q = true ->
                 Z.testbit (enabled (sc_m (snd b))) q = true).
  assert (K1 : forall pin sc sc',
            K sc -> servicePin hw clk pin sc = Done sc' -> K sc').
  { intros q sc sc' (b & Hb & H1 & H2 & H3 & H4 & H5 & H6 & H7) Hs.
    exists b. split; [exact Hb|].
    apply servicePin_Done in Hs
      as [Hq [[_ ->]|(Hon & w & r & closer & _ & _ & Hm & _)]]; [auto 10|].
    rewrite Hm. cbn [toSet toDisable timer1CB timer1Running nmiAttached
                     T1enabled enabled set_reads].
    destruct (misc_applyPinResult q (bitmask q) r closer (sc_m sc))
      as (-> & -> & -> & -> & _ & _ & _ & -> & ->).
    repeat split; auto.
    intros q0 Hq0. rewrite enabled_applyPinResult.
    destruct (r_expire r); [|apply H7; exact Hq0].
    rewrite Z.lxor_spec, testbit_bitmask by lia.
    destruct (Z.eqb_spec q q0); [subst q0|].
    + rewrite Hon. discriminate.
    + rewrite xorb_false_r. apply H7. exact Hq0. }
  assert (K2 : forall sc, K sc ->
            K (mkScan (snd (getCycleCount clk (sc_m sc)))
                 (fst (getCycleCount clk (sc_m sc))) (sc_nextTimerCcy sc))).
  { intros x (b0 & Hb0 & HH). exists b0. split; [exact Hb0|]. exact HH. }
  assert (K3 : forall sc nt, K sc -> K (mkScan (sc_m sc) (sc_now sc) nt)).
  { intros x nt (b0 & Hb0 & HH). exists b0. split; [exact Hb0|]. exact HH. }
  assert (K4 : forall sc v, K sc ->
            K (mkScan (set_nextPin v (sc_m sc)) (sc_now sc) (sc_nextTimerCcy sc))).
  { intros x v (b0 & Hb0 & HH). exists b0. split; [exact Hb0|]. exact HH. }
  destruct (timer1Interrupt_rule K K1 K2 K3 K4 fuel m m' H)
    as (b & sc & Hb & HK & ->).
  destruct HK as (b' & Hb' & H1 & H2 & H3 & H4 & H5 & H6 & H7).
  { exists b. split; [exact Hb|]. auto 10. }
  rewrite Hb in Hb'. invc Hb'.
  apply beginInterrupt_Done in Hb. cbn zeta in Hb.
  destruct Hb as (_ & _ & Hts & Htd & _ & _ & Hcb & Hrun & Hnmi & Hten & Hen & _).
  destruct (rearm_frame sc)
    as (_ & _ & Re & Rts & Rtd & Rcb & Rrun & _ & _ & Rnmi & Rten & _).
  cbv zeta in *.
  rewrite Rts, Rtd, Rcb, Rrun, Rnmi, Rten, Re.
  repeat split; try congruence; try lia.
  intros q Hq Hbit. apply H7 in Hbit; [|exact Hq]. rewrite Hen in Hbit by exact Hq.
  apply orb_true_iff in Hbit as [Hbit|Hbit].
  + apply andb_true_iff in Hbit as [Hb1 Hb2]. left. split; [exact Hb1|].
    apply negb_true_iff, Z.eqb_neq in Hb2. exact Hb2.
  + right. apply Z.eqb_eq in Hbit. exact Hbit.
Qed.

(** ** Expiry and zero duty in one visit *)

Lemma pinStep_expire now w lvl r :
  pinStep hw now w lvl = Done r ->
  r_expire r = true ->
  mode w = EXPIRES /\ nextEventCcy w = expiryCcy w /\
  0 <= s32 (now - nextEventCcy w) /\ r_wave r = w /\ r_toggle r = false.
Proof.
  unfold pinStep. intros H Hx.
  destruct (Z.leb_spec 0 (s32 (now - nextEventCcy w))); [|invc H; discriminate].
  destruct (isEXPIRES (mode w) && (nextEventCcy w =? expiryCcy w)) eqn:E.
  - invc H. apply andb_true_iff in E as [E1 E2]. apply Z.eqb_eq in E2.
    destruct (mode w); try discriminate. auto.
  - unfold edgeStep in H. break_step H; invc H; discriminate.
Qed.

Lemma pinStep_zero_duty now w r :
  dutyCcys w = 0 ->
  pinStep hw now w false = Done r ->
  r_toggle r = false.
Proof.
  unfold pinStep, edgeStep. intros Hd H. rewrite Hd in H.
  change (0 =? 0) with true in H. cbv iota in H.
  break_step H; invc H; reflexivity.
Qed.

Lemma armExpiry_config w :
  dutyCcys (armExpiry w) = dutyCcys w /\
  periodCcys (armExpiry w) = periodCcys w /\
  autoPwm (armExpiry w) = autoPwm w.
Proof. unfold armExpiry. cbn. auto. Qed.

(** No firing raises the level bit or the pin of a channel of zero duty. *)
Lemma visit_heldLow j c c' :
  heldLow j c -> visit hw (u32 (clk j)) c = Done c' -> heldLow j c'.
Proof.
  intros (Hd & Hl & Ho) Hv.
  apply visit_Done in Hv as [[_ ->]|[_ (r & Hr & ->)]]; [split; auto|].
  rewrite Hl in Hr. pose proof (pinStep_zero_duty _ _ _ Hd Hr) as Ht.
  apply pinStep_config in Hr as (H1 & _ & _ & _ & _ & Hg).
  unfold heldLow. cbn. rewrite Hg, Ht, Hl, H1. auto.
Qed.

Lemma timer1Interrupt_heldLow p fuel m m' :
  0 <= p ->
  holdsAt p heldLow m ->
  timer1Interrupt hw clk fuel m = Done m' ->
  holdsAt p heldLow m'.
Proof.
  intros Hp (j & c & Hj & Hc & Hd & Hl & Ho) H.
  destruct (timer1Interrupt_tracks p Hp heldLow) with
    (fuel := fuel) (m := m) (m' := m') as (b & Hb & Hfin); auto.
  { apply visit_heldLow. }
  apply Hfin.
  destruct (beginInterrupt_channel m b p c Hp Hb Hc)
    as (c' & Hc' & Hout & _ & Hne & Heq).
  pose proof Hb as Hb'. apply beginInterrupt_Done in Hb'. cbn zeta in Hb'.
  destruct Hb' as (Hnow & Hr & _).
  exists (S (reads m)), c'. rewrite Hr.
  split; [lia|]. split; [exact Hnow|]. split; [exact Hc'|].
  unfold heldLow. rewrite Hout.
  destruct (Z.eq_dec (toSet m) p) as [E|E].
  - specialize (Heq E). destruct (mode (ch_wave c)).
    + destruct Heq as [-> ->]. auto.
    + destruct Heq as [-> ->]. auto.
    + destruct Heq as [-> ->]. cbn. auto.
    + destruct Heq as (-> & np & -> & _).
      destruct (anchorWave_config np (ch_wave c)) as (-> & _). auto.
  - destruct (Hne E) as [-> ->]. auto.
Qed.

(** The firing that consumes the request for a zero-duty channel leaves its
    level bit clear and its pin low. *)
Lemma timer1Interrupt_heldLow_init p fuel m m' c :
  0 <= p ->
  toSet m = p ->
  channel m p = Some c ->
  mode (ch_wave c) = INIT -> dutyCcys (ch_wave c) = 0 -> ch_out c = false ->
  timer1Interrupt hw clk fuel m = Done m' ->
  holdsAt p heldLow m'.
Proof.
  intros Hp Hts Hc Hmode Hd Ho H.
  destruct (timer1Interrupt_tracks p Hp heldLow) with
    (fuel := fuel) (m := m) (m' := m') as (b & Hb & Hfin); auto.
  { apply visit_heldLow. }
  apply Hfin.
  destruct (beginInterrupt_channel m b p c Hp Hb Hc)
    as (c' & Hc' & Hout & _ & _ & Heq).
  pose proof Hb as Hb'. apply beginInterrupt_Done in Hb'. cbn zeta in Hb'.
  destruct Hb' as (Hnow & Hr & _).
  exists (S (reads m)), c'. rewrite Hr.
  split; [lia|]. split; [exact Hnow|]. split; [exact Hc'|].
  specialize (Heq Hts). rewrite Hmode in Heq.
  destruct Heq as (Hl & np & Hw & _).
  unfold heldLow. rewrite Hout, Hl, Hw.
  destruct (anchorWave_config np (ch_wave c)) as (-> & _). auto.
Qed.

(** A channel in INFINITE mode stays enabled and in that mode through every
    firing that finds no request to stop it. *)
Lemma timer1Interrupt_staysInfinite p fuel m m' :
  0 <= p ->
  toDisable m <> p ->
  holdsAt p staysInfinite m ->
  timer1Interrupt hw clk fuel m = Done m' ->
  holdsAt p staysInfinite m'.
Proof.
  intros Hp Htd (j & c & Hj & Hc & Hm & He) H.
  destruct (timer1Interrupt_tracks p Hp staysInfinite) with
    (fuel := fuel) (m := m) (m' := m') as (b & Hb & Hfin); auto.
  { intros j0 c0 c0' [Hm0 He0] Hv.
    apply visit_Done in Hv as [[_ ->]|[_ (r & Hr & ->)]]; [split; auto|].
    pose proof (pinStep_config _ _ _ _ Hr) as (_ & _ & _ & _ & Hmode & _).
    unfold staysInfinite. cbn. split; [congruence|].
    destruct (r_expire r) eqn:Ex; [|reflexivity].
    apply pinStep_expire in Hr as [Hbad _]; [congruence | exact Ex]. }
  apply Hfin.
  destruct (beginInterrupt_channel m b p c Hp Hb Hc)
    as (c' & Hc' & _ & Hen & Hne & Heq).
  pose proof Hb as Hb'. apply beginInterrupt_Done in Hb'. cbn zeta in Hb'.
  destruct Hb' as (Hnow & Hr & _).
  exists (S (reads m)), c'. rewrite Hr.
  split; [lia|]. split; [exact Hnow|]. split; [exact Hc'|].
  unfold staysInfinite. rewrite Hen, He.
  destruct (Z.eqb_spec (toDisable m) p); [congruence|]. cbn.
  split; [|reflexivity].
  destruct (Z.eq_dec (toSet m) p) as [E|E].
  - specialize (Heq E). rewrite Hm in Heq. destruct Heq as [_ ->]. exact Hm.
  - destruct (Hne E) as [-> _]. exact Hm.
Qed.

(** A due falling edge of a channel that runs without an expiry. *)
Lemma visit_falling now c :
  let w := ch_wave c in
  ch_enabled c = true -> ch_level c = true ->
  isEXPIRES (mode w) = false ->
  0 <= s32 (now - nextEventCcy w) ->
  u32 (periodCcys w - dutyCcys w) <> 0 ->
  nextPeriodCcy w <> endDutyCcy w ->
  periodCcys w <> 0 ->
  (autoPwm w = true ->
   u32 (microsecondsToClockCycles hw 3) <= dutyCcys w -> dutyCcys w <> 0) ->
  exists c',
    visit hw now c = Done c' /\
    ch_level c' = false /\ ch_out c' = false /\ ch_enabled c' = true /\
    nextPeriodCcy (ch_wave c') = nextPeriodCcy w /\
    endDutyCcy (ch_wave c') = endDutyCcy w /\
    dutyCcys (ch_wave c') = dutyCcys w /\
    periodCcys (ch_wave c') = periodCcys w /\
    mode (ch_wave c') = mode w /\ autoPwm (ch_wave c') = autoPwm w /\
    nextEventCcy (ch_wave c') =
      if autoPwm w && (u32 (microsecondsToClockCycles hw 3) <=? dutyCcys w)
      then u32 (nextPeriodCcy w
                + u32 (u32 (now - endDutyCcy w) / dutyCcys w
                       * u32 (periodCcys w - dutyCcys w)))
      else nextPeriodCcy w.
Proof.
  intros w Hen Hlvl Hmode Hdue Hidle Hne Hp Hd.
  unfold visit, pinStep, edgeStep. fold w. rewrite Hen, Hlvl, Hmode.
  destruct (Z.leb_spec 0 (s32 (now - nextEventCcy w))); [|lia].
  cbn [andb].
  destruct (Z.eqb_spec (u32 (periodCcys w - dutyCcys w)) 0); [contradiction|].
  destruct (Z.eqb_spec (nextPeriodCcy w) (endDutyCcy w)); [contradiction|].
  destruct (Z.eqb_spec (periodCcys w) 0); [contradiction|].
  assert (Hfwd : exists f,
    (if u32 (periodCcys w - dutyCcys w) <=? u32 (now - endDutyCcy w)
     then Done (u32 (u32 (now - endDutyCcy w) + dutyCcys w) / periodCcys w)
     else Done 0) = Done f) by (destruct (_ <=? _); eauto).
  destruct Hfwd as [f ->]. cbn [bind].
  unfold clampToExpiry. rewrite Hmode. cbn [andb].
  destruct (autoPwm w) eqn:Ha; cbn [andb].
  - destruct (Z.leb_spec (u32 (microsecondsToClockCycles hw 3)) (dutyCcys w)).
    + destruct (Z.eqb_spec (dutyCcys w) 0); [exfalso; apply Hd; auto|].
      cbn [bind]. eexists. split; [reflexivity|]. simpl.
      repeat split; auto.
    + cbn [bind]. eexists. split; [reflexivity|]. simpl. repeat split; auto.
  - cbn [bind]. eexists. split; [reflexivity|]. simpl. repeat split; auto.
Qed.

(** A due visit of a high channel whose duty fills its period. *)
Lemma visit_full_duty now c :
  let w := ch_wave c in
  ch_enabled c = true -> ch_level c = true ->
  isEXPIRES (mode w) = false ->
  0 <= s32 (now - nextEventCcy w) ->
  u32 (periodCcys w - dutyCcys w) = 0 ->
  periodCcys w <> 0 ->
  exists c',
    visit hw now c = Done c' /\
    ch_level c' = true /\ ch_out c' = ch_out c /\ ch_enabled c' = true.
Proof.
  intros w Hen Hlvl Hmode Hdue Hidle Hp.
  unfold visit, pinStep, edgeStep. fold w. rewrite Hen, Hlvl, Hmode, Hidle.
  destruct (Z.leb_spec 0 (s32 (now - nextEventCcy w))); [|lia].
  cbn [andb].
  destruct (Z.eqb_spec (periodCcys w) 0); [contradiction|].
  destruct (0 <=? _); cbn [bind]; change (0 =? 0) with true; cbv iota;
    eexists; (split; [reflexivity|]); simpl; auto.
Qed.

(** A due rising edge of a channel that runs without an expiry. *)
Lemma visit_rising now c :
  let w := ch_wave c in
  ch_enabled c = true -> ch_level c = false ->
  isEXPIRES (mode w) = false ->
  0 <= s32 (now - nextEventCcy w) ->
  dutyCcys w <> 0 -> 0 < periodCcys w ->
  exists c' fwd,
    visit hw now c = Done c' /\ 0 <= fwd /\
    ch_level c' = true /\ ch_out c' = true /\ ch_enabled c' = true /\
    nextPeriodCcy (ch_wave c')
      = u32 (nextPeriodCcy w + (fwd + 1) * periodCcys w) /\
    endDutyCcy (ch_wave c')
      = u32 (now + dutyCcys w + (if autoPwm w then fwd * dutyCcys w else 0)) /\
    nextEventCcy (ch_wave c') = endDutyCcy (ch_wave c') /\
    dutyCcys (ch_wave c') = dutyCcys w /\
    periodCcys (ch_wave c') = periodCcys w /\
    mode (ch_wave c') = mode w /\ autoPwm (ch_wave c') = autoPwm w /\
    fwd = (if u32 (periodCcys w - dutyCcys w) <=? u32 (now - nextPeriodCcy w)
           then u32 (u32 (now - nextPeriodCcy w) + dutyCcys w) / periodCcys w
           else 0).
Proof.
  intros w Hen Hlvl Hmode Hdue Hd Hp.
  unfold visit, pinStep, edgeStep. fold w. rewrite Hen, Hlvl, Hmode.
  destruct (Z.leb_spec 0 (s32 (now - nextEventCcy w))); [|lia].
  cbn [andb].
  destruct (Z.eqb_spec (periodCcys w) 0); [lia|].
  destruct (Z.eqb_spec (dutyCcys w) 0); [contradiction|].
  assert (Hfwd : exists f, 0 <= f /\
    f = (if u32 (periodCcys w - dutyCcys w) <=? u32 (now - nextPeriodCcy w)
         then u32 (u32 (now - nextPeriodCcy w) + dutyCcys w) / periodCcys w
         else 0) /\
    (if u32 (periodCcys w - dutyCcys w) <=? u32 (now - nextPeriodCcy w)
     then Done (u32 (u32 (now - nextPeriodCcy w) + dutyCcys w) / periodCcys w)
     else Done 0) = Done f).
  { destruct (_ <=? _); eexists; (split; [|split; reflexivity]); [|lia].
    pose proof (u32_range (u32 (now - nextPeriodCcy w) + dutyCcys w)).
    apply Z.div_pos; lia. }
  destruct Hfwd as (f & Hf & Hfe & ->). cbn [bind].
  unfold clampToExpiry.
  destruct (Z.eqb_spec f 0) as [->|Hf0].
  - eexists _, 0. split; [reflexivity|]. simpl. rewrite Hmode. simpl.
    repeat split; auto; try lia; try exact Hfe; f_equal;
      destruct (autoPwm w); lia.
  - eexists _, f. split; [reflexivity|]. cbn [set_nextPeriodCcy set_endDutyCcy
      autoPwm mode nextPeriodCcy endDutyCcy].
    destruct (autoPwm w) eqn:Ha; simpl; rewrite ?Hmode; simpl; rewrite ?Hmode;
      simpl; rewrite ?u32_add_l, ?u32_add_r;
      repeat split; auto; try lia;
      try (rewrite u32_add_l in Hfe; exact Hfe); f_equal; lia.
Qed.

(** The forward period count of lines 317-318 is the quotient whether or not
    the overshoot has reached the idle time. *)
Lemma fwdPeriods_quotient d p o :
  0 <= d <= p -> 0 < p < 2 ^ 31 -> 0 <= o < 2 ^ 31 ->
  (if u32 (p - d) <=? o then u32 (o + d) / p else 0) = (o + d) / p.
Proof.
  intros Hd Hp Ho. rewrite (u32_small (p - d)), (u32_small (o + d)) by lia.
  destruct (Z.leb_spec (p - d) o); [reflexivity|].
  symmetry. apply Z.div_small. lia.
Qed.


Lemma punctual_not_due fuel until c :
  s32 (until - nextEventCcy (ch_wave c)) < 0 ->
  punctual hw fuel until c = Done c.
Proof.
  intros H. destruct fuel; cbn [punctual];
    destruct (Z.leb_spec 0 (s32 (until - nextEventCcy (ch_wave c))));
    try lia; reflexivity.
Qed.

(** One period of the simulation that serves every event on time: from the
    start of a period, the rising edge, then the falling edge. *)
Lemma punctual_period fuel c until :
  let w := ch_wave c in
  let d := dutyCcys w in
  let p := periodCcys w in
  let o := s32 (until - nextPeriodCcy w) in
  ch_enabled c = true -> ch_level c = false ->
  isEXPIRES (mode w) = false ->
  0 < d < p -> p < 2 ^ 31 ->
  nextEventCcy w = nextPeriodCcy w ->
  0 <= o ->
  exists c1 c2,
    ch_level c1 = true /\ ch_out c1 = true /\
    ch_level c2 = false /\ ch_out c2 = false /\ ch_enabled c2 = true /\
    nextPeriodCcy (ch_wave c1) = u32 (nextPeriodCcy w + p) /\
    nextPeriodCcy (ch_wave c2) = u32 (nextPeriodCcy w + p) /\
    nextEventCcy (ch_wave c2) = nextPeriodCcy (ch_wave c2) /\
    dutyCcys (ch_wave c2) = d /\ periodCcys (ch_wave c2) = p /\
    mode (ch_wave c2) = mode w /\
    punctual hw (S (S fuel)) until c =
      if o <? d then Done c1
      else if o <? p then Done c2
      else punctual hw fuel until c2.
Proof.
  intros w d p o Hen Hlvl Hmode Hd Hp Hne Ho.
  destruct (s32_due _ Ho) as [Hou Ho31]. fold o in Hou.
  cbn [punctual]. change (ch_wave c) with w. rewrite Hne. fold o.
  destruct (Z.leb_spec 0 o); [|lia].
  destruct (visit_rising (nextPeriodCcy w) c)
    as (c1 & fwd & Hv1 & _ & Hl1 & Ho1 & He1 & Hnp1 & Hed1 & Hne1 & Hd1 & Hp1
        & Hm1 & Ha1 & Hfwd);
    fold w; try assumption; try lia.
  { rewrite Hne, Z.sub_diag. vm_compute. discriminate. }
  fold w d p in Hnp1, Hed1, Hd1, Hp1, Hfwd, Hm1, Ha1.
  rewrite Z.sub_diag in Hfwd. change (u32 0) with 0 in Hfwd.
  rewrite (u32_small (p - d)) in Hfwd by lia.
  destruct (Z.leb_spec (p - d) 0); [lia|]. subst fwd.
  replace ((0 + 1) * p) with p in Hnp1 by lia.
  replace (nextPeriodCcy w + d + (if autoPwm w then 0 * d else 0))
    with (nextPeriodCcy w + d) in Hed1 by (destruct (autoPwm w); lia).
  rewrite Hv1. cbn [bind].
  assert (Ho1' : s32 (until - nextEventCcy (ch_wave c1)) = o - d).
  { apply s32_congr; [|lia]. rewrite Hne1, Hed1, u32_sub_r.
    replace (until - (nextPeriodCcy w + d)) with (until - nextPeriodCcy w - d) by lia.
    rewrite <- u32_sub_l. fold (u32 (until - nextPeriodCcy w)).
    unfold o in Hou. rewrite <- Hou. reflexivity. }
  rewrite Ho1'.
  destruct (visit_falling (nextEventCcy (ch_wave c1)) c1)
    as (c2 & Hv2 & Hl2 & Ho2 & He2 & Hnp2 & Hed2 & Hd2 & Hp2 & Hm2 & Ha2 & Hne2);
    try assumption; try congruence.
  { rewrite Z.sub_diag. vm_compute. discriminate. }
  { rewrite Hp1, Hd1. fold p d. rewrite u32_small; lia. }
  { rewrite Hnp1, Hed1. apply not_eq_sym, u32_neq_add. lia. }
  { fold p in Hp1. lia. }
  { fold d in Hd1. lia. }
  rewrite Hne1, Z.sub_diag in Hne2. change (u32 0) with 0 in Hne2.
  rewrite Z.div_0_l, Z.mul_0_l in Hne2 by (fold d in Hd1; lia).
  change (u32 0) with 0 in Hne2. rewrite Z.add_0_r in Hne2.
  rewrite Hnp1, (u32_small (u32 (nextPeriodCcy w + p))) in Hne2
    by apply u32_range.
  assert (Hne2' : nextEventCcy (ch_wave c2) = u32 (nextPeriodCcy w + p))
    by (destruct (_ && _); exact Hne2).
  exists c1, c2.
  repeat (split; [congruence|]).
  destruct (Z.ltb_spec o d).
  - destruct (Z.leb_spec 0 (o - d)); [lia|]. reflexivity.
  - destruct (Z.leb_spec 0 (o - d)); [|lia].
    rewrite Hv2. cbn [bind].
    destruct (Z.ltb_spec o p); [|reflexivity].
    apply punctual_not_due.
    replace (s32 (until - nextEventCcy (ch_wave c2))) with (o - p); [lia|].
    symmetry. apply s32_congr; [|lia]. rewrite Hne2', u32_sub_r.
    replace (until - (nextPeriodCcy w + p)) with (until - nextPeriodCcy w - p)
      by lia.
    rewrite <- u32_sub_l. fold (u32 (until - nextPeriodCcy w)).
    unfold o in Hou. rewrite <- Hou. reflexivity.
Qed.

(** The simulation that serves every event on time, run from the start of a
    period until [o] cycles later: the level is high when [o mod p] falls
    into the duty, and the period has been counted [o / p + 1] times. *)
Lemma punctual_low k : forall fuel c until,
  let w := ch_wave c in
  let d := dutyCcys w in
  let p := periodCcys w in
  let o := s32 (until - nextPeriodCcy w) in
  ch_enabled c = true -> ch_level c = false ->
  isEXPIRES (mode w) = false ->
  0 < d < p -> p < 2 ^ 31 ->
  nextEventCcy w = nextPeriodCcy w ->
  0 <= o -> o / p = Z.of_nat k ->
  (2 * k + 2 <= fuel)%nat ->
  exists c',
    punctual hw fuel until c = Done c' /\
    ch_level c' = (o mod p <? d) /\ ch_out c' = (o mod p <? d) /\
    nextPeriodCcy (ch_wave c') = u32 (nextPeriodCcy w + (o / p + 1) * p).
Proof.
  induction k as [|k IH];
    intros fuel c until w d p o Hen Hlvl Hmode Hd Hp Hne Ho Hk Hfuel;
    (destruct fuel as [|[|fuel]]; [lia|lia|]);
    destruct (punctual_period fuel c until Hen Hlvl Hmode Hd Hp Hne Ho)
      as (c1 & c2 & Hl1 & Ho1 & Hl2 & Ho2 & He2 & Hnp1 & Hnp2 & Hne2 & Hd2
          & Hp2 & Hm2 & Hrun);
    fold w d p o in Hnp1, Hnp2, Hd2, Hp2, Hm2, Hrun; rewrite Hrun;
    pose proof (Z.div_mod o p ltac:(lia)) as Hdm;
    pose proof (Z.mod_pos_bound o p ltac:(lia)) as Hmb.
  - rewrite Hk in *. change (Z.of_nat 0) with 0 in *.
    rewrite Z.mul_0_r, Z.add_0_l in Hdm. rewrite <- Hdm.
    replace ((0 + 1) * p) with p by lia.
    destruct (Z.ltb_spec o d).
    + exists c1. auto.
    + destruct (Z.ltb_spec o p); [|lia]. exists c2. auto.
  - assert (p <= o) by nia.
    destruct (Z.ltb_spec o d); [lia|]. destruct (Z.ltb_spec o p); [lia|].
    destruct (s32_due _ Ho) as [Hou Ho31]. fold o in Hou.
    assert (Ho2' : s32 (until - nextPeriodCcy (ch_wave c2)) = o - p).
    { apply s32_congr; [|lia]. rewrite Hnp2, u32_sub_r.
      replace (until - (nextPeriodCcy w + p))
        with (until - nextPeriodCcy w - p) by lia.
      rewrite <- u32_sub_l. fold (u32 (until - nextPeriodCcy w)).
      unfold o in Hou. rewrite <- Hou. reflexivity. }
    assert (Hq : (o - p) / p = Z.of_nat k /\ (o - p) mod p = o mod p).
    { replace (o - p) with (o + (-1) * p) by lia.
      rewrite Z.div_add, Z.mod_add by lia. lia. }
    destruct Hq as [Hq Hr].
    destruct (IH fuel c2 until) as (c' & Hc' & Hl' & Ho' & Hnp');
      rewrite ?Ho2', ?Hd2, ?Hp2; fold d p; try assumption; try congruence;
      try lia.
    rewrite Ho2', Hd2, Hp2 in *. fold d p in Hl', Ho', Hnp'.
    exists c'. rewrite Hr in *. repeat (split; [assumption|]).
    rewrite Hnp', Hnp2, u32_add_l, Hq, Hk. f_equal. lia.
Qed.

End ScanFacts.

(** * A run time that has not run out *)


Section Expiry.
Variable hw : Platform.
Variables A R d p t : Z.
Hypothesis Hdp : 0 <= d <= p.
Hypothesis Hp31 : 0 < p < 2 ^ 31.
Hypothesis HR : 0 < R <= 2 ^ 31.
Hypothesis HtA : A <= t < A + R.


End Expiry.


(** * The request interface and the handler together *)

Section Claims.

Variable hw : Platform.
Variable clk : nat -> Z.

Lemma startWaveformClockCycles_true fuel m pin high low rt ap po auto m' :
  startWaveformClockCycles hw clk fuel m pin high low rt ap po auto
  = Done (true, m') ->
  exists m1,
    requestWaveform hw m pin high low rt ap po auto = Done (true, m1) /\
    await hw toSet clk fuel m1 = Done m'.
Proof.
  unfold startWaveformClockCycles. intros H.
  apply bind_Done in H as ([ok m1] & Hr & H). cbn in H.
  destruct ok; [|invc H].
  apply bind_Done in H as (m2 & H2 & H). invc H. eauto.
Qed.

Lemma s32_pos x : 0 < s32 x -> 0 < u32 x < 2 ^ 31.
Proof.
  unfold s32. pose proof (u32_range x).
  destruct (Z.ltb_spec (u32 x) (2 ^ 31)); lia.
Qed.

(** C1 (amended): for every successful call of startWaveformClockCycles whose
    requested period highCcys + lowCcys is below MAXIRQCCYS, the period left in
    the channel record is a whole multiple (at least one) of the requested
    period and is at most MAXIRQCCYS; when highCcys is zero the duty stays 0
    and when lowCcys is zero the duty equals the period, and in both cases the
    period is the largest multiple that does not exceed MAXIRQCCYS; when both
    are non-zero the period and the duty are left as requested. *)
Theorem C1_stretched_period fuel m pin high low rt ap po auto m' :
  0 <= high < 2 ^ 32 -> 0 <= low < 2 ^ 32 ->
  0 < MAXIRQCCYS hw < 2 ^ 31 ->
  u32 (high + low) < MAXIRQCCYS hw ->
  startWaveformClockCycles hw clk fuel m pin high low rt ap po auto
  = Done (true, m') ->
  exists w k,
    pins m' !! Z.to_nat pin = Some w /\
    1 <= k /\ periodCcys w = k * u32 (high + low) /\
    0 < periodCcys w <= MAXIRQCCYS hw /\
    (high = 0 ->
     dutyCcys w = 0 /\ MAXIRQCCYS hw - u32 (high + low) < periodCcys w) /\
    (low = 0 ->
     dutyCcys w = periodCcys w /\
     MAXIRQCCYS hw - u32 (high + low) < periodCcys w) /\
    (high <> 0 -> low <> 0 -> k = 1 /\ dutyCcys w = high).
Proof.
  intros Hh Hl HM Hlt H.
  apply startWaveformClockCycles_true in H as (m1 & Hreq & Haw).
  pose proof Hreq as Hreq'.
  apply requestWaveform_true in Hreq' as (_ & _ & _ & _ & Hpin & _).
  apply requestWaveform_staged in Hreq
    as (h & p & w & Hn & Hp & Hhp & Hw & Hd & Hper & _).
  assert (Hcfg : holdsAt pin (hasConfig h p (autoPwm w)) m').
  { eapply (await_rule hw clk (holdsAt pin (hasConfig h p (autoPwm w))));
      [| |exact Haw].
    - intros f x x' Hx Hf. eapply timer1Interrupt_config; eauto. lia.
    - exists O, (mkChannel w (Z.testbit (states m1) pin)
                   (Z.testbit (enabled m1) pin) (pinLevel m1 pin)).
      split; [lia|]. split; [unfold channel; rewrite Hw; reflexivity|].
      unfold hasConfig. cbn. auto. }
  destruct Hcfg as (_ & c & _ & Hc & Hd' & Hp' & _).
  apply channel_Some in Hc as (Hc & _).
  apply normalizePeriod_Done in Hn; try lia.
  exists (ch_wave c). rewrite Hd', Hp'.
  assert (Hq : 0 <= u32 (high + low) < 2 ^ 32) by apply u32_range.
  destruct Hn as [(-> & Hlow & -> & ->)|[(Hhigh & -> & <- & ->)|(Hhigh & Hlow & -> & ->)]].
  - rewrite Z.add_0_l, (u32_small low) in * by lia.
    destruct (stretch_bounds hw low ltac:(lia)) as (Hk & Hb).
    exists (MAXIRQCCYS hw / low). repeat split; auto; lia.
  - rewrite Z.add_0_r, (u32_small high) in * by lia.
    destruct (stretch_bounds hw high ltac:(lia)) as (Hk & Hb).
    exists (MAXIRQCCYS hw / high). repeat split; auto; lia.
  - exists 1. apply s32_pos in Hp. unfold u32 in Hp at 1 2.
    fold (u32 (high + low)) in Hp. unfold u32 in Hp at 1.
    rewrite Z.mod_mod in Hp by lia. fold (u32 (high + low)) in Hp.
    repeat split; auto; lia.
Qed.

(** A call that fails validation returns [false] and leaves the machine as
    it was; no firing is waited for. *)
Lemma startWaveformClockCycles_false fuel m pin high low rt ap po auto m' :
  startWaveformClockCycles hw clk fuel m pin high low rt ap po auto
  = Done (false, m') ->
  m' = m.
Proof.
  unfold startWaveformClockCycles. intros H.
  apply bind_Done in H as ([ok m1] & Hr & H). cbn in H. destruct ok.
  - apply bind_Done in H as (m2 & _ & H). invc H.
  - invc H. eapply requestWaveform_false. exact Hr.
Qed.

(** X1: every invalid input for which the normalisation is defined (the
    requested period is not zero) is rejected: the call returns false and
    leaves the whole state as it was. *)
Lemma startWaveformClockCycles_rejects fuel m pin high low rt ap po auto h p :
  normalizePeriod hw high low = Done (h, p) ->
  16 < pin \/ isFlashInterfacePin hw pin = true \/ 16 < ap \/ s32 p <= 0
  \/ p < h ->
  startWaveformClockCycles hw clk fuel m pin high low rt ap po auto
  = Done (false, m).
Proof.
  intros Hn Hbad. unfold startWaveformClockCycles, requestWaveform.
  rewrite Hn. cbn [bind fst snd].
  replace (_ || _) with true; [reflexivity|]. symmetry.
  destruct Hbad as [H|[H|[H|[H|H]]]].
  - apply Z.ltb_lt in H. rewrite H. reflexivity.
  - rewrite H. apply orb_true_iff. left. apply orb_true_iff. left.
    apply orb_true_iff. left. apply orb_true_r.
  - apply Z.ltb_lt in H. rewrite H. apply orb_true_iff. left.
    apply orb_true_iff. left. apply orb_true_r.
  - apply Z.leb_le in H. rewrite H. apply orb_true_iff. left. apply orb_true_r.
  - apply Z.ltb_lt in H. rewrite H. apply orb_true_r.
Qed.

(** C4: a channel that is requested with alignPhase = k and phase offset off
    on a pin that is not enabled gets, when the handler consumes the request,
    the period anchor of channel k (as the record of k holds it at that moment)
    plus off, modulo 2^32, if k is enabled once the mailboxes are folded into
    the enabled mask; otherwise it gets the cycle count read by the handler. *)
Theorem C4_phase_anchor m0 m pin high low rt k off auto b :
  Z.testbit (enabled m0) pin = false ->
  requestWaveform hw m0 pin high low rt k off auto = Done (true, m) ->
  beginInterrupt hw clk m = Done b ->
  exists w',
    pins (sc_m (snd b)) !! Z.to_nat pin = Some w' /\
    ((0 <= k /\ Z.testbit (enabled (sc_m (snd b))) k = true /\
      exists wk, pins m !! Z.to_nat k = Some wk /\
                 nextPeriodCcy w' = u32 (nextPeriodCcy wk + off)) \/
     ((k < 0 \/ Z.testbit (enabled (sc_m (snd b))) k = false) /\
      nextPeriodCcy w' = u32 (clk (S (reads m))))).
Proof.
  intros Hoff Hreq Hb.
  apply requestWaveform_true in Hreq
    as (h & p & w0 & _ & Hpin & _ & _ & _ & _ & Hw0 & Hm).
  cbn zeta in Hm. rewrite Hoff in Hm.
  assert (Hlt : (Z.to_nat pin < length (pins m0))%nat)
    by (eapply lookup_lt_Some; eauto).
  assert (Hw : pins m !! Z.to_nat pin
               = Some (set_alignPhase (if k <? 0 then -1 else k)
                        (set_mode INIT (set_expiryCcy rt
                          (set_nextPeriodCcy off
                            (set_autoPwm auto
                              (set_periodCcys p (set_dutyCcys h w0)))))))).
  { subst m. rewrite pins_postActivate. apply list_lookup_insert_eq. exact Hlt. }
  assert (Hts : toSet m = pin).
  { subst m. apply postActivate_frame. }
  apply beginInterrupt_Done in Hb. cbn zeta in Hb.
  destruct Hb as (_ & _ & _ & _ & _ & _ & _ & _ & _ & _ & _ & _ & _ & Hpos).
  destruct (Hpos ltac:(lia)) as (w & Hw' & Hcase).
  rewrite Hts, Hw in Hw'. invc Hw'. cbn [mode set_alignPhase set_mode] in Hcase.
  destruct Hcase as (_ & np & Hnp & Hch).
  exists (anchorWave np
            (set_alignPhase (if k <? 0 then -1 else k)
               (set_mode INIT (set_expiryCcy rt
                  (set_nextPeriodCcy off
                     (set_autoPwm auto
                        (set_periodCcys p (set_dutyCcys h w0)))))))).
  rewrite Hts in Hnp. split; [exact Hnp|].
  destruct (anchorWave_config np
              (set_alignPhase (if k <? 0 then -1 else k)
                 (set_mode INIT (set_expiryCcy rt
                    (set_nextPeriodCcy off
                       (set_autoPwm auto
                          (set_periodCcys p (set_dutyCcys h w0)))))))
           ) as (_ & _ & _ & _ & -> & _).
  cbn [alignPhase nextPeriodCcy set_alignPhase set_mode set_expiryCcy
       set_nextPeriodCcy] in Hch.
  destruct (Z.ltb_spec k 0) as [Hk|Hk].
  - right. split; [left; exact Hk|].
    destruct Hch as [(Hk' & _)|[_ ->]]; [lia | reflexivity].
  - destruct Hch as [(_ & Hen & wk & Hwk & ->)|[[Hk'|Hen] ->]].
    + left. split; [exact Hk|]. split; [exact Hen|]. exists wk. auto.
    + lia.
    + right. auto.
Qed.

(** C10: for a pin index from 17 to 31, with the timer running and no bit
    above 16 set in the enabled mask, stopWaveform returns true, posts no
    request and changes no channel record; if no channel is enabled and no
    callback is installed it stops the hardware timer (the handler is
    detached, the timer disabled and timer1Running cleared), and otherwise it
    changes nothing at all. *)
Theorem C10_stop_unchecked_pin fuel m pin :
  17 <= pin <= 31 -> timer1Running m = true -> 0 <= enabled m < 2 ^ 17 ->
  exists m',
    stopWaveform hw clk fuel m pin = Done (true, m') /\
    toDisable m' = toDisable m /\ toSet m' = toSet m /\
    pins m' = pins m /\ enabled m' = enabled m /\ states m' = states m /\
    (enabled m = 0 -> timer1CB m = None ->
     timer1Running m' = false /\ nmiAttached m' = false /\
     T1enabled m' = false) /\
    (enabled m <> 0 \/ timer1CB m <> None -> m' = m).
Proof.
  intros Hpin Hrun Hen. unfold stopWaveform. rewrite Hrun. cbn [negb].
  rewrite shl1_ok by lia. cbn [bind].
  rewrite land_bitmask_0 by lia.
  rewrite testbit_above.
  2:{ split; [lia|]. apply Z.lt_le_trans with (2 ^ 17); [lia|].
      apply Z.pow_le_mono_r; lia. }
  2:lia.
  cbn [negb bind]. eexists. split; [reflexivity|].
  destruct (Z.eqb_spec (enabled m) 0) as [E|E];
    destruct (timer1CB m) eqn:Ecb; cbn; repeat split; auto; try congruence;
    intros [H|H]; congruence.
Qed.

(** When no firing passes between the accesses of the call: a successful
    call of startWaveformClockCycles with runTimeCcys = 0 on a channel that is
    enabled leaves the channel in INFINITE mode with expiryCcy 0 and writes
    neither mailbox; from then on every run of firings that starts with no
    pending request to stop the channel leaves it enabled and in INFINITE
    mode. *)
Lemma update_cancels_expiry m pin high low ap po auto m1 :
  Z.testbit (enabled m) pin = true ->
  requestWaveform hw m pin high low 0 ap po auto = Done (true, m1) ->
  toSet m1 = toSet m /\ toDisable m1 = toDisable m /\ enabled m1 = enabled m /\
  (exists w, pins m1 !! Z.to_nat pin = Some w /\
             mode w = INFINITE /\ expiryCcy w = 0) /\
  forall fuels m',
    toDisable m <> pin ->
    firings hw clk fuels m1 = Done m' ->
    Z.testbit (enabled m') pin = true /\
    exists w', pins m' !! Z.to_nat pin = Some w' /\ mode w' = INFINITE.
Proof.
  intros Hen Hreq.
  apply requestWaveform_true in Hreq
    as (h & p & w0 & _ & Hpin & _ & _ & _ & _ & Hw0 & Hm).
  cbn zeta in Hm. rewrite Hen in Hm.
  destruct (postUpdate_frame m pin
              (set_autoPwm auto (set_periodCcys p (set_dutyCcys h w0))) 0)
    as (Hts & Htd & Hen1 & Hst & _ & _ & _ & Hg & Hg16 & _ & _ & _ & Hpins).
  rewrite <- Hm in *. cbn [Z.eqb] in Hts, Hpins.
  assert (Hlt : (Z.to_nat pin < length (pins m))%nat)
    by (eapply lookup_lt_Some; eauto).
  assert (Hw1 : pins m1 !! Z.to_nat pin
                = Some (set_expiryCcy 0 (set_mode INFINITE
                          (set_autoPwm auto
                             (set_periodCcys p (set_dutyCcys h w0)))))).
  { rewrite Hpins. apply list_lookup_insert_eq. exact Hlt. }
  split; [exact Hts|]. split; [exact Htd|]. split; [exact Hen1|].
  split; [eexists; split; [exact Hw1 | split; reflexivity]|].
  intros fuels m' Hnd Hf.
  assert (HP : toDisable m' <> pin /\ holdsAt pin staysInfinite m').
  { eapply (firings_rule hw clk
              (fun x => toDisable x <> pin /\ holdsAt pin staysInfinite x));
      [| |exact Hf].
    - intros f x x' [Hx1 Hx2] Hstep. split.
      + apply timer1Interrupt_frame in Hstep as (_ & Hd & _). lia.
      + eapply timer1Interrupt_staysInfinite; eauto. lia.
    - split; [congruence|].
      eexists O, _. split; [lia|]. split.
      + unfold channel. rewrite Hw1. reflexivity.
      + split; [reflexivity|]. cbn. rewrite Hen1. exact Hen. }
  destruct HP as (_ & j & c & _ & Hc & Hmode & He).
  apply channel_Some in Hc as (Hcw & _ & Hce & _).
  split; [congruence|]. eauto.
Qed.

(** C8: start(pin 2, high 0, low 500, run time 0, no alignment, offset 0, no
    autoPwm) on a channel that is not enabled leaves pin 2 low before any
    firing; after every non-empty run of firings the level bit of pin 2 is
    clear, pin 2 is low and the channel still has zero duty. *)
Theorem C8_zero_duty_held_low m m1 :
  Z.testbit (enabled m) 2 = false ->
  requestWaveform hw m 2 0 500 0 (-1) 0 false = Done (true, m1) ->
  pinLevel m1 2 = false /\
  forall fuels m',
    fuels <> [] ->
    firings hw clk fuels m1 = Done m' ->
    Z.testbit (states m') 2 = false /\ pinLevel m' 2 = false /\
    exists w, pins m' !! Z.to_nat 2 = Some w /\ dutyCcys w = 0.
Proof.
  intros Hen Hreq.
  apply requestWaveform_true in Hreq
    as (h & p & w0 & Hn & Hpin & _ & _ & _ & _ & Hw0 & Hm).
  cbn zeta in Hm. rewrite Hen in Hm.
  assert (Hh : h = 0).
  { unfold normalizePeriod in Hn. cbn [Z.eqb] in Hn.
    break_step Hn; invc Hn; reflexivity. }
  subst h.
  assert (Hlt : (Z.to_nat 2 < length (pins m))%nat)
    by (eapply lookup_lt_Some; eauto).
  set (w1 := set_alignPhase (-1)
               (set_mode INIT (set_expiryCcy 0 (set_nextPeriodCcy 0
                  (set_autoPwm false (set_periodCcys p (set_dutyCcys 0 w0))))))).
  assert (Hw1 : pins m1 !! Z.to_nat 2 = Some w1).
  { subst m1. rewrite pins_postActivate. apply list_lookup_insert_eq. exact Hlt. }
  assert (Hts : toSet m1 = 2) by (subst m1; apply postActivate_frame).
  assert (Hlow : pinLevel m1 2 = false).
  { subst m1. unfold postActivate. cbn [dutyCcys set_alignPhase set_mode
      set_expiryCcy set_nextPeriodCcy set_autoPwm set_periodCcys set_dutyCcys
      Z.eqb].
    match goal with |- pinLevel ?x 2 = false =>
      assert (Hx : GPO x = GPO (writePin 2 false (putPin 2 w1 m)) /\
                   GP16O x = GP16O (writePin 2 false (putPin 2 w1 m)))
    end.
    { unfold initTimer, timer1_write.
      repeat match goal with |- context [if ?c then _ else _] =>
        destruct c end; split; reflexivity. }
    destruct Hx as [Hx1 Hx2]. rewrite (pinLevel_ext _ _ 2 Hx1 Hx2).
    apply pinLevel_writePin_eq. lia. }
  split; [exact Hlow|].
  intros fuels m' Hne Hf.
  destruct fuels as [|f fs]; [congruence|]. simpl in Hf.
  apply bind_Done in Hf as (m2 & H2 & Hf).
  assert (H2low : holdsAt 2 heldLow m2).
  { eapply (timer1Interrupt_heldLow_init hw clk 2 f m1 m2
              (mkChannel w1 (Z.testbit (states m1) 2)
                 (Z.testbit (enabled m1) 2) (pinLevel m1 2)));
      try reflexivity; try lia; auto.
    unfold channel. rewrite Hw1. reflexivity. }
  assert (HP : holdsAt 2 heldLow m').
  { eapply (firings_rule hw clk (holdsAt 2 heldLow)); [|exact H2low|exact Hf].
    intros f0 x x' Hx Hstep. eapply timer1Interrupt_heldLow; eauto. lia. }
  destruct HP as (j & c & _ & Hc & Hd & Hl & Ho).
  apply channel_Some in Hc as (Hcw & Hcl & _ & Hco).
  split; [congruence|]. split; [congruence|]. eauto.
Qed.

(** C6: a successful start(pin, ...), any run of firings and then stop(pin)
    leave the enabled bit of the pin clear, and stop succeeds; if no other
    channel was enabled, no request was pending and no callback is installed,
    the timer is stopped at the end. *)
Theorem C6_start_stop_round_trip
    fuel1 fuels fuel2 m pin high low rt ap po auto m1 m2 ok m3 :
  (Z.testbit (enabled m) pin = true -> timer1Running m = true) ->
  startWaveformClockCycles hw clk fuel1 m pin high low rt ap po auto
  = Done (true, m1) ->
  firings hw clk fuels m1 = Done m2 ->
  stopWaveform hw clk fuel2 m2 pin = Done (ok, m3) ->
  ok = true /\ Z.testbit (enabled m3) pin = false /\
  (Z.ldiff (enabled m) (bitmask pin) = 0 -> toSet m < 0 ->
   timer1CB m = None -> timer1Running m3 = false).
Proof.
  intros Hrun Hstart Hf Hstop.
  apply startWaveformClockCycles_true in Hstart as (m0 & Hreq & Haw).
  apply requestWaveform_true in Hreq
    as (h & p & w0 & _ & Hpin & _ & _ & _ & _ & Hw0 & Hm0).
  cbn zeta in Hm0.
  (* what the request leaves *)
  assert (H0 : timer1Running m0 = true /\ timer1CB m0 = timer1CB m /\
               enabled m0 = enabled m /\
               (toSet m0 = pin \/ toSet m0 = toSet m)).
  { destruct (Z.testbit (enabled m) pin) eqn:Hen; subst m0.
    - destruct (postUpdate_frame m pin
        (set_autoPwm auto (set_periodCcys p (set_dutyCcys h w0))) rt)
        as (Hts & _ & He & _ & Hr & _ & Hcb & _).
      rewrite Hr, Hts. repeat split; auto. destruct (rt =? 0); auto.
    - destruct (postActivate_frame hw m pin
        (set_autoPwm auto (set_periodCcys p (set_dutyCcys h w0))) rt ap po)
        as (Hts & _ & He & _ & Hr & _ & Hcb & _).
      repeat split; auto. }
  destruct H0 as (Hr0 & Hcb0 & He0 & Hts0).
  (* what every firing keeps *)
  set (P := fun x : Machine =>
         timer1Running x = true /\ timer1CB x = timer1CB m /\
         (forall q, 0 <= q -> q <> pin -> Z.testbit (enabled x) q = true ->
                    Z.testbit (enabled m) q = true \/ toSet m = q) /\
         (toSet x = pin \/ toSet x = toSet m \/ toSet x < 0)).
  assert (Pstep : forall f x x',
            P x -> timer1Interrupt hw clk f x = Done x' -> P x').
  { intros f x x' (Px1 & Px2 & Px3 & Px4) Hx.
    apply timer1Interrupt_frame in Hx as (Hts & _ & Hcb & Hr & _ & _ & Hbits).
    split; [congruence|]. split; [congruence|]. split; [|auto].
    intros q Hq Hne Hbit. destruct (Hbits q Hq Hbit) as [[Hb _]|Hb].
    - apply Px3; auto.
    - destruct Px4 as [E|[E|E]]; [congruence | right; congruence | lia]. }
  assert (P0 : P m0).
  { split; [exact Hr0|]. split; [exact Hcb0|]. split.
    - intros q _ _ Hbit. left. congruence.
    - destruct Hts0; auto. }
  destruct (await_rule hw clk P toSet fuel1 m0 m1 Pstep P0 Haw) as [P1 Hts1].
  assert (P2 : P m2 /\ toSet m2 < 0).
  { eapply (firings_rule hw clk (fun x => P x /\ toSet x < 0));
      [| |exact Hf]; [|auto].
    intros f x x' [Px _] Hx. split; [eapply Pstep; eauto|].
    apply timer1Interrupt_frame in Hx. tauto. }
  destruct P2 as [(Hr2 & Hcb2 & Hbits2 & _) Hts2].
  (* the stop *)
  unfold stopWaveform in Hstop. rewrite Hr2 in Hstop. cbn [negb] in Hstop.
  apply bind_Done in Hstop as (b & Hb & Hstop). apply shl1_Done in Hb as [_ ->].
  apply bind_Done in Hstop as (m4 & H4 & Hstop).
  rewrite land_bitmask_0 in H4 by lia.
  assert (Q4 : Z.testbit (enabled m4) pin = false /\ timer1CB m4 = timer1CB m /\
               forall q, 0 <= q -> q <> pin -> Z.testbit (enabled m4) q = true ->
                         Z.testbit (enabled m) q = true \/ toSet m = q).
  { destruct (Z.testbit (enabled m2) pin) eqn:Hen2; cbn [negb] in H4.
    - set (Q := fun x : Machine =>
             toSet x < 0 /\ timer1CB x = timer1CB m /\
             (Z.testbit (enabled x) pin = true -> toDisable x = pin) /\
             forall q, 0 <= q -> q <> pin -> Z.testbit (enabled x) q = true ->
                       Z.testbit (enabled m) q = true \/ toSet m = q).
      assert (Qstep : forall f x x',
                Q x -> timer1Interrupt hw clk f x = Done x' -> Q x').
      { intros f x x' (Qx1 & Qx2 & Qx3 & Qx4) Hx.
        apply timer1Interrupt_frame in Hx as (Hts & Htd & Hcb & _ & _ & _ & Hbits).
        split; [exact Hts|]. split; [congruence|]. split.
        - intros Hbit. destruct (Hbits pin ltac:(lia) Hbit) as [[Hb Hd]|Hb].
          + elim Hd. apply Qx3. exact Hb.
          + lia.
        - intros q Hq Hne Hbit. destruct (Hbits q Hq Hbit) as [[Hb _]|Hb].
          + apply Qx4; auto.
          + lia. }
      assert (Q0 : Q (requestStop hw m2 pin)).
      { unfold requestStop. destruct (_ <? _); cbn; repeat split; auto. }
      destruct (await_rule hw clk Q toDisable fuel2 _ m4 Qstep Q0 H4)
        as [(_ & Q2 & Q3 & Q4') Htd4].
      split; [|auto].
      destruct (Z.testbit (enabled m4) pin) eqn:E; [|reflexivity].
      specialize (Q3 eq_refl). lia.
    - invc H4. auto. }
  destruct Q4 as (Hoff & Hcb4 & Hbits4).
  invc Hstop. split; [reflexivity|]. split.
  - destruct (_ && _); [|exact Hoff]. exact Hoff.
  - intros Honly Hts Hcb.
    assert (E0 : enabled m4 = 0).
    { apply Z.bits_inj'. intros q Hq. rewrite Z.bits_0.
      destruct (Z.eq_dec q pin) as [->|Hne]; [exact Hoff|].
      destruct (Z.testbit (enabled m4) q) eqn:E; [|reflexivity].
      destruct (Hbits4 q Hq Hne E) as [Hb|Hb]; [|lia].
      assert (Hx : Z.testbit (Z.ldiff (enabled m) (bitmask pin)) q = true).
      { rewrite Z.ldiff_spec, Hb, testbit_bitmask by lia.
        destruct (Z.eqb_spec pin q); [congruence | reflexivity]. }
      rewrite Honly, Z.bits_0 in Hx. discriminate. }
    rewrite E0, Hcb4, Hcb. reflexivity.
Qed.

(** The normalisation divides by the requested period before the period is
    validated: a request with both times zero is a division by zero. *)
(** What an update request without run time leaves of an enabled channel. *)
Lemma requestWaveform_update m pin high low ap po auto m1 c :
  0 <= high ->
  channel m pin = Some c -> ch_enabled c = true ->
  requestWaveform hw m pin high low 0 ap po auto = Done (true, m1) ->
  exists d p,
    normalizePeriod hw high low = Done (d, p) /\
    0 <= d <= p /\ 0 < p < 2 ^ 31 /\
    channel m1 pin =
      Some (mkChannel
              (set_expiryCcy 0 (set_mode INFINITE
                 (set_autoPwm auto
                    (set_periodCcys p (set_dutyCcys d (ch_wave c))))))
              (ch_level c) true (ch_out c)).
Proof.
  intros Hh Hc Hen Hreq.
  apply channel_Some in Hc as (Hw & Hl & He & Ho).
  apply requestWaveform_true in Hreq
    as (h & p & w0 & Hn & Hpin & _ & _ & Hp & Hhp & Hw0 & Hm).
  cbn zeta in Hm. rewrite <- He, Hen in Hm.
  destruct (postUpdate_frame m pin
              (set_autoPwm auto (set_periodCcys p (set_dutyCcys h w0))) 0)
    as (_ & _ & Hen1 & Hst & _ & _ & _ & Hg & Hg16 & _ & _ & _ & Hpins).
  rewrite <- Hm in *. cbn [Z.eqb] in Hpins.
  assert (Hlt : (Z.to_nat pin < length (pins m))%nat)
    by (eapply lookup_lt_Some; eauto).
  destruct (normalizePeriod_range _ _ _ _ _ Hh Hn) as [Hh0 Hp0].
  exists h, p. split; [exact Hn|]. split; [lia|].
  split; [apply s32_pos in Hp; rewrite u32_small in Hp; lia|].
  unfold channel. rewrite Hpins, list_lookup_insert_eq by exact Hlt.
  rewrite Hst, Hen1, <- Hl, <- He, Hen.
  rewrite (pinLevel_ext m1 m pin) by auto. rewrite <- Ho.
  congruence.
Qed.

(** C3 (amended): an enabled channel that runs without an expiry, with
    0 < duty < period < 2^31, is low and waits for the start of its next
    period at nextPeriodCcy; it is visited o cycles late, however many
    periods that is.  The visit makes one step: the pin rises once, the duty
    ends duty cycles after the visit (plus fwd * duty under autoPwm) and
    nextPeriodCcy advances by fwd + 1 periods, fwd = (o + duty) / period.
    The simulation that serves every event of the same channel on time, up
    to the time of the visit, ends with nextPeriodCcy advanced by
    o / period + 1 periods and the pin high exactly when o mod period < duty.
    So the level after the visit is the simulated one exactly when
    o mod period < duty, and the bookkeeping is the simulated one exactly
    when o mod period < period - duty. *)
Theorem C3_overrun_single_step now c fuel :
  let w := ch_wave c in
  let d := dutyCcys w in
  let p := periodCcys w in
  let o := u32 (now - nextPeriodCcy w) in
  ch_enabled c = true -> ch_level c = false ->
  isEXPIRES (mode w) = false ->
  0 < d < p -> p < 2 ^ 31 ->
  nextEventCcy w = nextPeriodCcy w ->
  0 <= s32 (now - nextEventCcy w) ->
  (2 * Z.to_nat (o / p) + 2 <= fuel)%nat ->
  exists c' cp,
    visit hw now c = Done c' /\
    ch_level c' = true /\ ch_out c' = true /\
    nextPeriodCcy (ch_wave c')
      = u32 (nextPeriodCcy w + ((o + d) / p + 1) * p) /\
    endDutyCcy (ch_wave c')
      = u32 (now + d + (if autoPwm w then (o + d) / p * d else 0)) /\
    nextEventCcy (ch_wave c') = endDutyCcy (ch_wave c') /\
    punctual hw fuel now c = Done cp /\
    ch_level cp = (o mod p <? d) /\ ch_out cp = (o mod p <? d) /\
    nextPeriodCcy (ch_wave cp) = u32 (nextPeriodCcy w + (o / p + 1) * p) /\
    (ch_out c' = ch_out cp <-> o mod p < d) /\
    (nextPeriodCcy (ch_wave c') = nextPeriodCcy (ch_wave cp)
     <-> o mod p < p - d).
Proof.
  intros w d p o Hen Hlvl Hmode Hd Hp Hne Hdue Hfuel.
  pose proof Hdue as Hdue'. rewrite Hne in Hdue'.
  destruct (s32_due _ Hdue') as [Hou Ho31]. fold o in Hou, Ho31.
  pose proof (u32_range (now - nextPeriodCcy w)) as Hor. fold o in Hor.
  destruct (visit_rising hw now c)
    as (c' & fwd & Hv & _ & Hl & Hout & _ & Hnp & Hed & Hnev & _ & _ & _ & _
        & Hfwd); try assumption; try (fold w d p; lia).
  fold w d p o in Hnp, Hed, Hfwd.
  rewrite fwdPeriods_quotient in Hfwd by lia. subst fwd.
  destruct (punctual_low hw (Z.to_nat (o / p)) fuel c now)
    as (cp & Hcp & Hlp & Hop & Hnpp); try assumption; fold w d p;
    rewrite ?Hou; try lia.
  { rewrite Z2Nat.id; [reflexivity|]. apply Z.div_pos; lia. }
  fold w d p in Hlp, Hop, Hnpp. rewrite Hou in Hlp, Hop, Hnpp.
  exists c', cp. repeat (split; [assumption|]).
  pose proof (Z.div_mod o p ltac:(lia)) as Hdm.
  pose proof (Z.mod_pos_bound o p ltac:(lia)) as Hmb.
  split.
  - rewrite Hout, Hop. destruct (Z.ltb_spec (o mod p) d); split; intros;
      try reflexivity; try discriminate; lia.
  - rewrite Hnp, Hnpp.
    destruct (Z_lt_le_dec (o mod p) (p - d)) as [Hlt|Hge].
    + assert ((o + d) / p = o / p) as ->.
      { symmetry. apply Z.div_unique with (r := o mod p + d); lia. }
      split; auto.
    + assert ((o + d) / p = o / p + 1) as ->.
      { symmetry. apply Z.div_unique with (r := o mod p + d - p); lia. }
      split; [|lia]. intros E. exfalso. symmetry in E. revert E.
      apply u32_neq_add. lia.
Qed.

Lemma normalizePeriod_zero :
  0 < u32 (MAXIRQCCYS hw) -> normalizePeriod hw 0 0 = Undefined.
Proof.
  intros HM. unfold normalizePeriod. change (u32 (0 + 0)) with 0.
  destruct (Z.ltb_spec 0 (u32 (MAXIRQCCYS hw))); [reflexivity | lia].
Qed.

End Claims.

(** * Finite run times *)

Section RunTime.
Variable hw : Platform.
Variable clk : nat -> Z.
Hypothesis clk_mono : forall i j, (i <= j)%nat -> clk i <= clk j.



End RunTime.

(** C7 (the code departs from the claim): on the ESP8266 a call with
    highCcys = 0 and lowCcys = 0, whatever the pin and the other arguments,
    does not return failure: the normalisation divides by the zero period
    before the sanity check is reached. *)
Theorem C7_zero_period_undefined :
  forall clk fuel m pin rt ap po auto,
    startWaveformClockCycles esp8266 clk fuel m pin 0 0 rt ap po auto
    = Undefined.
Proof. intros. reflexivity. Qed.

(** * The timer and its callback *)

(** X3: on the ESP8266 at 80 MHz every firing that returns re-arms the timer
    with a delay of at least IRQLATENCY (240 cycles) and at most
    MAXIRQCCYS - DELTAIRQ (799680 cycles), and enables the edge interrupt. *)
Theorem timer1Interrupt_rearm_bounds clk fuel m m' :
  timer1Interrupt esp8266 clk fuel m = Done m' ->
  IRQLATENCY esp8266 <= T1L m' <= MAXIRQCCYS esp8266 - DELTAIRQ esp8266 /\
  edgeIntEnabled m' = true.
Proof.
  unfold timer1Interrupt. intros H.
  apply bind_Done in H as (b & _ & H). apply bind_Done in H as (sc & _ & H).
  invc H. unfold rearm.
  set (tm := match timer1CB (sc_m sc) with Some _ => _ | None => _ end).
  change (IRQLATENCY esp8266) with 240. change (DELTAIRQ esp8266) with 320.
  change (MAXIRQCCYS esp8266) with 800000.
  change (clockCyclesPerMicrosecond esp8266 =? 160) with false.
  cbn [T1L set_T1L set_edgeIntEnabled edgeIntEnabled]. cbv iota.
  split; [|reflexivity].
  destruct (Z.leb_spec (fst tm) (240 + 320)); [vm_compute; split; discriminate|].
  destruct (Z.leb_spec 800000 (fst tm)); [vm_compute; split; discriminate|].
  rewrite u32_small; lia.
Qed.

(** X4: setTimer1Callback stores the callback; it starts the timer when a
    callback is installed while the timer is off, stops it when the callback
    is cleared while the timer runs and no channel is enabled, and leaves the
    timer alone otherwise. *)
Theorem setTimer1Callback_timer hw fn m :
  let m' := setTimer1Callback hw fn m in
  timer1CB m' = fn /\ pins m' = pins m /\ enabled m' = enabled m /\
  toSet m' = toSet m /\ toDisable m' = toDisable m /\
  timer1Running m'
  = (if timer1Running m then negb (negb (isSome fn) && (enabled m =? 0))
     else isSome fn) /\
  (timer1Running m = false -> isSome fn = true ->
   nmiAttached m' = true /\ T1enabled m' = true /\
   T1L m' = u32 (microsecondsToClockCycles hw 1)) /\
  (timer1Running m = true -> fn = None -> enabled m = 0 ->
   nmiAttached m' = false /\ T1enabled m' = false).
Proof.
  unfold setTimer1Callback, initTimer, deinitTimer, timer1_write.
  destruct (timer1Running m) eqn:E, fn as [f|], (enabled m =? 0) eqn:E0;
    cbn; rewrite ?E, ?E0; cbn; repeat split; try reflexivity; try congruence;
    try (intros; discriminate).
  all: try (intros; apply Z.eqb_neq in E0; congruence).
Qed.

(** * The request phase and the expiry visit *)

(** X5: an enabled channel in EXPIRES mode whose pending event is its expiry
    is disabled by the visit that finds it due; the visit toggles nothing:
    the record, the level bit and the pin stay as they were. *)
Theorem visit_expires hw now c :
  ch_enabled c = true -> mode (ch_wave c) = EXPIRES ->
  nextEventCcy (ch_wave c) = expiryCcy (ch_wave c) ->
  0 <= s32 (now - nextEventCcy (ch_wave c)) ->
  visit hw now c = Done (mkChannel (ch_wave c) (ch_level c) false (ch_out c)).
Proof.
  intros Hen Hmode Hne Hdue. unfold visit, pinStep.
  rewrite Hen, Hmode, Hne, Z.eqb_refl. rewrite Hne in Hdue.
  destruct (Z.leb_spec 0 (s32 (now - expiryCcy (ch_wave c)))); [|lia].
  cbn. rewrite xorb_false_r. reflexivity.
Qed.

(** X6: the request phase of a firing that finds the channel named in the
    toSet mailbox leaves the mailbox empty and the channel enabled.  A
    channel in INIT mode starts low with its next event at its period anchor;
    it becomes INFINITE if its run time is 0 and EXPIRES otherwise, its
    expiry being the anchor plus the run time modulo 2^32.  A channel in
    UPDATEEXPIRY mode becomes EXPIRES with its expiry at nextPeriodCcy plus
    the new run time, its level and schedule untouched. *)
Theorem beginInterrupt_modes hw clk m b p c :
  0 <= p ->
  beginInterrupt hw clk m = Done b ->
  channel m p = Some c ->
  toSet m = p ->
  let w := ch_wave c in
  exists c',
    channel (sc_m (snd b)) p = Some c' /\
    toSet (sc_m (snd b)) < 0 /\ ch_enabled c' = true /\
    match mode w with
    | INIT =>
        ch_level c' = false /\
        nextEventCcy (ch_wave c') = nextPeriodCcy (ch_wave c') /\
        (if expiryCcy w =? 0 then mode (ch_wave c') = INFINITE
         else mode (ch_wave c') = EXPIRES /\
              expiryCcy (ch_wave c')
              = u32 (expiryCcy w + nextPeriodCcy (ch_wave c')))
    | UPDATEEXPIRY =>
        mode (ch_wave c') = EXPIRES /\
        expiryCcy (ch_wave c') = u32 (expiryCcy w + nextPeriodCcy w) /\
        ch_level c' = ch_level c /\
        nextEventCcy (ch_wave c') = nextEventCcy w /\
        nextPeriodCcy (ch_wave c') = nextPeriodCcy w /\
        endDutyCcy (ch_wave c') = endDutyCcy w
    | _ => ch_wave c' = w /\ ch_level c' = ch_level c
    end.
Proof.
  intros Hp Hb Hc Hts w.
  destruct (beginInterrupt_channel hw clk m b p c Hp Hb Hc)
    as (c' & Hc' & _ & Hen & _ & Hmode).
  apply beginInterrupt_Done in Hb. cbn zeta in Hb.
  destruct Hb as (_ & _ & Hts' & _).
  exists c'. split; [exact Hc'|]. split; [exact Hts'|].
  split; [rewrite Hen, Hts, Z.eqb_refl; apply orb_true_r|].
  specialize (Hmode Hts). fold w in Hmode.
  destruct (mode w).
  - destruct Hmode as [Hl Hw]. split; [exact Hw | exact Hl].
  - destruct Hmode as [Hl Hw]. split; [exact Hw | exact Hl].
  - destruct Hmode as [Hl ->]. unfold armExpiry. cbn.
    repeat split; try reflexivity. exact Hl.
  - destruct Hmode as (Hl & np & -> & _). split; [exact Hl|].
    unfold anchorWave, armExpiry. cbn.
    destruct (expiryCcy w =? 0); cbn; repeat split; reflexivity.
Qed.

(** * Well-formed states and undefined behaviour *)

(** ** Bits and spans *)

Lemma testbit_small x n q :
  0 <= x < 2 ^ n -> 0 <= n <= q -> Z.testbit x q = false.
Proof.
  intros Hx Hq. apply testbit_above; [|lia].
  assert (2 ^ n <= 2 ^ q) by (apply Z.pow_le_mono_r; lia). lia.
Qed.

Lemma small_testbit x n :
  0 <= n -> 0 <= x ->
  (forall q, n <= q -> Z.testbit x q = false) -> x < 2 ^ n.
Proof.
  intros Hn Hx Hb. destruct (Z.eq_dec x 0) as [->|Hx0].
  - apply Z.pow_pos_nonneg; lia.
  - apply Z.log2_lt_pow2; [lia|].
    destruct (Z.lt_ge_cases (Z.log2 x) n) as [|Hge]; [assumption|].
    specialize (Hb (Z.log2 x) Hge). rewrite Z.bit_log2 in Hb by lia.
    discriminate.
Qed.

Lemma ctz_pos_nonneg p : 0 <= ctz_pos p.
Proof. induction p; simpl; lia. Qed.

Lemma ctz_pos_bit p : Z.testbit (Zpos p) (ctz_pos p) = true.
Proof.
  induction p as [p IH|p IH|]; try reflexivity.
  cbn [ctz_pos]. pose proof (ctz_pos_nonneg p).
  replace (1 + ctz_pos p) with (Z.succ (ctz_pos p)) by lia.
  change (Zpos p~0) with (2 * Zpos p). rewrite Z.testbit_even_succ by lia.
  exact IH.
Qed.

Lemma ctz_pos_below p q :
  0 <= q < ctz_pos p -> Z.testbit (Zpos p) q = false.
Proof.
  revert q. induction p as [p IH|p IH|]; intros q Hq; cbn [ctz_pos] in Hq;
    try lia.
  change (Zpos p~0) with (2 * Zpos p).
  destruct (Z.eq_dec q 0) as [->|Hq0]; [apply Z.testbit_even_0|].
  replace q with (Z.succ (q - 1)) by lia.
  rewrite Z.testbit_even_succ by lia. apply IH. lia.
Qed.

(** [__builtin_ffs(x) - 1] is the lowest set bit of a positive [x]. *)
Lemma builtin_ffs_lowest x :
  0 < x ->
  0 <= builtin_ffs x - 1 /\
  Z.testbit x (builtin_ffs x - 1) = true /\
  forall q, 0 <= q < builtin_ffs x - 1 -> Z.testbit x q = false.
Proof.
  intros Hx. destruct x as [|p|p]; try lia. cbn [builtin_ffs].
  replace (1 + ctz_pos p - 1) with (ctz_pos p) by lia.
  split; [apply ctz_pos_nonneg|]. split; [apply ctz_pos_bit|].
  apply ctz_pos_below.
Qed.

(** [32 - __builtin_clz(x)] is one more than the highest set bit of a
    positive [x]. *)
Lemma builtin_clz_highest hw x :
  0 < x ->
  32 - builtin_clz hw x = Z.log2 x + 1 /\
  Z.testbit x (Z.log2 x) = true /\
  forall q, Z.log2 x < q -> Z.testbit x q = false.
Proof.
  intros Hx. destruct x as [|p|p]; try lia.
  split; [cbn [builtin_clz]; lia|].
  split; [apply Z.bit_log2; lia|].
  intros q Hq. apply Z.bits_above_log2; lia.
Qed.

(** ** A visit of the scan loop *)

Section VisitSafety.
Variable hw : Platform.
Variable clk : nat -> Z.
Hypothesis Hus : 0 < u32 (microsecondsToClockCycles hw 3).

Lemma pinStep_defined now w lvl :
  periodCcys w <> 0 -> exists r, pinStep hw now w lvl = Done r.
Proof.
  intros Hp. destruct (pinStep hw now w lvl) as [r| |] eqn:E; [eauto| |];
    exfalso; unfold pinStep, edgeStep in E; break_step E;
    repeat match goal with
    | H : (_ =? _) = true |- _ => apply Z.eqb_eq in H
    | H : (_ <=? _) = true |- _ => apply Z.leb_le in H
    | H : _ && _ = true |- _ => apply andb_true_iff in H as [? ?]
    end; try contradiction; lia.
Qed.

Lemma nextPin_applyPinResult pin b r closer m :
  nextPin (applyPinResult pin b r closer m)
  = if closer then pin else nextPin m.
Proof.
  unfold applyPinResult, writePin.
  destruct closer, (r_gpio r) as [[]|], (r_toggle r), (r_expire r), (pin =? 16);
    reflexivity.
Qed.

Lemma testbit_lxor_bitmask e p q :
  0 <= p -> 0 <= q ->
  Z.testbit (Z.lxor e (bitmask p)) q
  = if p =? q then negb (Z.testbit e q) else Z.testbit e q.
Proof.
  intros Hp Hq. rewrite Z.lxor_spec, testbit_bitmask by lia.
  destruct (p =? q); [apply xorb_true_r | apply xorb_false_r].
Qed.

(** Clearing a set bit keeps the mask in its range. *)
Lemma lxor_clear_range e p n :
  0 <= e < 2 ^ n -> 0 <= n -> 0 <= p -> Z.testbit e p = true ->
  0 <= Z.lxor e (bitmask p) < 2 ^ n.
Proof.
  intros He Hn Hp Hb.
  assert (0 <= Z.lxor e (bitmask p)).
  { apply Z.lxor_nonneg. rewrite bitmask_pow2 by lia.
    split; intros; [apply Z.pow_nonneg|]; lia. }
  split; [assumption|]. apply small_testbit; [lia|assumption|].
  intros q Hq. rewrite testbit_lxor_bitmask by lia.
  destruct (Z.eqb_spec p q) as [->|_].
  - rewrite Hb. reflexivity.
  - apply (testbit_small e n); lia.
Qed.

Lemma scanOK_reads sc n now nt :
  scanOK sc -> scanOK (mkScan (set_reads n (sc_m sc)) now nt).
Proof. intros H. exact H. Qed.

(** A visit keeps the bounds and the span. *)
Lemma servicePin_scanOK pin sc sc' :
  scanOK sc -> servicePin hw clk pin sc = Done sc' -> scanOK sc'.
Proof.
  intros HK Hs.
  apply servicePin_Done in Hs as [Hpin [[_ ->]|(Hen & w & r & closer & Hw & Hr & Hm & _)]];
    [exact HK|].
  destruct HK as [(Hlen & Hrange & Hts & Htd & Hnp & Hrec) (Hsp1 & Hsp2 & Hsp3)].
  assert (Hp16 : pin <= 16).
  { destruct (Z_le_gt_dec pin 16); [assumption|].
    rewrite (testbit_small (enabled (sc_m sc)) 17 pin) in Hen by lia.
    discriminate. }
  destruct (pinStep_config hw _ _ _ _ Hr) as (Hc1 & Hc2 & _ & Hc4 & _).
  set (m' := applyPinResult pin (bitmask pin) r closer (sc_m sc)) in *.
  assert (Hen' : forall q, 0 <= q -> Z.testbit (enabled m') q = true ->
                           Z.testbit (enabled (sc_m sc)) q = true).
  { intros q Hq. unfold m'. rewrite enabled_applyPinResult.
    destruct (r_expire r); [|auto].
    rewrite testbit_lxor_bitmask by lia.
    destruct (Z.eqb_spec pin q) as [->|_]; [|auto]. rewrite Hen. discriminate. }
  destruct (misc_applyPinResult pin (bitmask pin) r closer (sc_m sc))
    as (M1 & M2 & _ & _ & M5 & M6 & _). fold m' in M1, M2, M5, M6.
  unfold scanOK, boundsOK, spanOK. rewrite Hm.
  cbn [pins enabled toSet toDisable nextPin startPin endPin set_reads].
  rewrite M1, M2, M5, M6.
  split; [|split; [assumption|split; [assumption|]]].
  - split.
    { unfold m'. rewrite pins_applyPinResult, length_insert. exact Hlen. }
    split.
    { unfold m'. rewrite enabled_applyPinResult.
      destruct (r_expire r); [|exact Hrange].
      apply lxor_clear_range; try lia. exact Hen. }
    split; [exact Hts|]. split; [exact Htd|].
    split.
    { unfold m'. rewrite nextPin_applyPinResult. destruct closer; lia. }
    intros q w' Hq. unfold m' in Hq. rewrite pins_applyPinResult in Hq.
    destruct (Nat.eq_dec (Z.to_nat pin) q) as [<-|Hne].
    + rewrite list_lookup_insert_eq in Hq
        by (apply lookup_lt_Some in Hw; exact Hw).
      injection Hq as <-. destruct (Hrec _ _ Hw) as [Ha Hper].
      rewrite Hc2, Hc4. split; [exact Ha|]. intros _. apply Hper.
      left. rewrite Z2Nat.id by lia. exact Hen.
    + rewrite list_lookup_insert_ne in Hq by exact Hne.
      destruct (Hrec _ _ Hq) as [Ha Hper]. split; [exact Ha|].
      intros [H|H]; apply Hper; [left; apply Hen'; [lia|exact H] | right; exact H].
  - intros q Hq Hb. apply Hsp3; auto.
Qed.

(** A visit of a pin in the range of the shift is defined. *)
Lemma servicePin_defined pin sc :
  scanOK sc -> 0 <= pin < 32 -> exists sc', servicePin hw clk pin sc = Done sc'.
Proof.
  intros [(Hlen & Hrange & _ & _ & _ & Hrec) _] Hpin.
  unfold servicePin. rewrite shl1_ok by exact Hpin. cbn [bind].
  rewrite land_bitmask_0 by lia.
  destruct (Z.testbit (enabled (sc_m sc)) pin) eqn:Hen; cbn [negb]; [|eauto].
  assert (Hp16 : pin <= 16).
  { destruct (Z_le_gt_dec pin 16); [assumption|].
    rewrite (testbit_small (enabled (sc_m sc)) 17 pin) in Hen by lia.
    discriminate. }
  destruct (pins (sc_m sc) !! Z.to_nat pin) as [w|] eqn:Hw.
  2:{ apply lookup_ge_None in Hw. lia. }
  rewrite (getPin_lookup (sc_m sc) pin w ltac:(lia) Hw). cbn [bind].
  destruct (Hrec _ _ Hw) as [_ Hper].
  destruct (pinStep_defined (sc_now sc) w
              (negb (Z.land (states (sc_m sc)) (bitmask pin) =? 0)))
    as [r ->].
  { apply Hper. left. rewrite Z2Nat.id by lia. exact Hen. }
  cbn [bind]. eauto.
Qed.
End VisitSafety.

(** ** The loops of the handler *)

Lemma bind_defined {A B} (x : Outcome A) (k : A -> Outcome B) :
  x <> Undefined -> (forall a, x = Done a -> k a <> Undefined) ->
  bind x k <> Undefined.
Proof. destruct x; cbn; intros Hx Hk; auto; discriminate. Qed.

Section LoopSafety.
Variable hw : Platform.
Variable clk : nat -> Z.
Hypothesis Hus : 0 < u32 (microsecondsToClockCycles hw 3).

Lemma scanPins_defined fuel stop pin sc :
  scanOK sc -> 0 <= pin <= 17 -> scanPins hw clk fuel stop pin sc <> Undefined.
Proof.
  revert pin sc. induction fuel as [|f IH]; intros pin sc HK Hpin;
    [discriminate|].
  cbn [scanPins].
  destruct (servicePin_defined hw clk Hus pin sc HK ltac:(lia)) as [sc1 H1].
  rewrite H1. cbn [bind].
  pose proof (servicePin_scanOK hw clk pin sc sc1 HK H1) as HK1.
  destruct (_ =? stop); [discriminate|]. apply IH; [exact HK1|].
  destruct HK1 as [_ (Hs1 & Hs2 & _)].
  destruct (Z.ltb_spec pin (endPin (sc_m sc1))); lia.
Qed.

Lemma scanPins_scanOK fuel stop pin sc sc' :
  scanOK sc -> scanPins hw clk fuel stop pin sc = Done sc' -> scanOK sc'.
Proof.
  apply (scanPins_rule hw clk scanOK). apply servicePin_scanOK.
Qed.

Lemma spinUntil_defined fuel target sc :
  spinUntil clk fuel target sc <> Undefined.
Proof.
  revert sc. induction fuel as [|f IH]; intros sc; cbn [spinUntil];
    destruct (0 <? _); try discriminate. apply IH.
Qed.

Lemma spinUntil_scanOK fuel target sc sc' :
  scanOK sc -> spinUntil clk fuel target sc = Done sc' -> scanOK sc'.
Proof.
  apply (spinUntil_rule clk scanOK). intros sc0 H. exact H.
Qed.

Lemma scanLoop_defined fuel tmo sc :
  scanOK sc -> scanLoop hw clk fuel tmo sc <> Undefined.
Proof.
  revert sc. induction fuel as [|f IH]; intros sc HK; [discriminate|].
  cbn [scanLoop]. apply bind_defined.
  - apply scanPins_defined; [exact HK|]. destruct HK as [(_ & _ & _ & _ & H & _) _].
    lia.
  - intros sc1 H1. apply scanPins_scanOK in H1; [|exact HK].
    destruct (0 <? _); [|discriminate]. apply bind_defined.
    + apply spinUntil_defined.
    + intros sc2 H2. apply IH. eapply spinUntil_scanOK; eauto.
Qed.

Lemma scanLoop_scanOK fuel tmo sc sc' :
  scanOK sc -> scanLoop hw clk fuel tmo sc = Done sc' -> scanOK sc'.
Proof.
  apply (scanLoop_rule hw clk scanOK).
  - apply servicePin_scanOK.
  - intros sc0 H. exact H.
  - intros sc0 nt H. exact H.
Qed.
End LoopSafety.

(** ** The request phase *)

Section RequestPhase.
Variable hw : Platform.
Variable clk : nat -> Z.
Hypothesis Hus : 0 < u32 (microsecondsToClockCycles hw 3).

Lemma mailbox_mask_defined slot :
  slot <= 16 ->
  (if 0 <=? slot then shl1 slot else Done 0)
  = Done (if 0 <=? slot then bitmask slot else 0).
Proof.
  intros H. destruct (Z.leb_spec 0 slot); [|reflexivity]. apply shl1_ok. lia.
Qed.

(** The span that the fold computes: the lowest and one past the highest
    enabled pin. *)
Lemma span_of_mask en :
  0 < en < 2 ^ 17 ->
  0 <= builtin_ffs en - 1 <= 16 /\
  builtin_ffs en - 1 <= 32 - builtin_clz hw en <= 17 /\
  forall q, 0 <= q -> Z.testbit en q = true ->
            builtin_ffs en - 1 <= q < 32 - builtin_clz hw en.
Proof.
  intros Hen.
  destruct (builtin_ffs_lowest en ltac:(lia)) as (L1 & L2 & L3).
  destruct (builtin_clz_highest hw en ltac:(lia)) as (H1 & H2 & H3).
  rewrite H1.
  assert (Hlog : Z.log2 en < 17) by (apply Z.log2_lt_pow2; lia).
  assert (Hin : forall q, 0 <= q -> Z.testbit en q = true ->
                          builtin_ffs en - 1 <= q < Z.log2 en + 1).
  { intros q Hq Hb. split.
    - destruct (Z_le_gt_dec (builtin_ffs en - 1) q); [assumption|].
      rewrite L3 in Hb by lia. discriminate.
    - destruct (Z_lt_le_dec q (Z.log2 en + 1)); [assumption|].
      rewrite H3 in Hb by lia. discriminate. }
  pose proof (Hin _ L1 L2). split; [lia|]. split; [lia|]. exact Hin.
Qed.

(** Folding the mailboxes into the enabled mask is defined and keeps the
    state well formed. *)
Lemma foldRequests_wellFormed m :
  wellFormed m ->
  exists f, foldRequests hw m = Done f /\ wellFormed (snd f) /\
            nextPin (snd f) = nextPin m.
Proof.
  intros Hwf. pose proof Hwf as [(Hlen & Hrange & Hts & Htd & Hnp & Hrec) Hspan].
  unfold foldRequests.
  rewrite (mailbox_mask_defined (toSet m) Hts),
          (mailbox_mask_defined (toDisable m) Htd). cbn [bind].
  set (sm := if 0 <=? toSet m then bitmask (toSet m) else 0).
  set (dm := if 0 <=? toDisable m then bitmask (toDisable m) else 0).
  assert (Hsm : forall q, 0 <= q -> Z.testbit sm q = (toSet m =? q)).
  { intros q Hq. apply mailbox_mask_bit; [|exact Hq]. subst sm.
    destruct (Z.leb_spec 0 (toSet m)); [right|left]; (split; [lia|reflexivity]). }
  assert (Hsm0 : 0 <= sm).
  { unfold sm. destruct (0 <=? toSet m); [|lia].
    unfold bitmask. apply Z.shiftl_nonneg. lia. }
  destruct (_ || _) eqn:Hfold; eexists; (split; [reflexivity|]);
    cbn [snd]; [|split; [exact Hwf|reflexivity]].
  set (en := Z.lor (Z.ldiff (enabled m) dm) sm).
  assert (Hen0 : 0 <= en).
  { unfold en. apply Z.lor_nonneg. split; [|exact Hsm0].
    apply Z.ldiff_nonneg. left. lia. }
  assert (Hbits : forall q, 0 <= q -> Z.testbit en q = true ->
                            Z.testbit (enabled m) q = true \/ toSet m = q).
  { intros q Hq. unfold en. rewrite Z.lor_spec, Z.ldiff_spec, Hsm by lia.
    intros H. apply orb_true_iff in H as [H|H].
    - apply andb_true_iff in H as [H _]. auto.
    - apply Z.eqb_eq in H. auto. }
  assert (Hen17 : en < 2 ^ 17).
  { apply small_testbit; [lia|exact Hen0|]. intros q Hq.
    destruct (Z.testbit en q) eqn:E; [|reflexivity].
    destruct (Hbits q ltac:(lia) E) as [H|H]; [|lia].
    rewrite (testbit_small (enabled m) 17 q) in H by lia. discriminate. }
  split; [|reflexivity]. split.
  - unfold boundsOK.
    cbn [pins enabled toSet toDisable nextPin set_toDisable set_span set_enabled].
    repeat split; auto; try lia.
    + apply (Hrec q w H).
    + intros [Hb|Hb]; apply (Hrec q w H); [|right; exact Hb].
      destruct (Hbits (Z.of_nat q) ltac:(lia) Hb); auto.
  - cbn [enabled set_toDisable set_span set_enabled]. intros Hne.
    unfold spanOK.
    cbn [enabled startPin endPin set_toDisable set_span set_enabled].
    apply span_of_mask. fold en. lia.
Qed.
End RequestPhase.

Section HandlerSafety.
Variable hw : Platform.
Variable clk : nat -> Z.
Hypothesis Hus : 0 < u32 (microsecondsToClockCycles hw 3).

(** A record is replaced by one of the same alignment pin and period. *)
Lemma boundsOK_putPin m pin w w' :
  boundsOK m -> pins m !! Z.to_nat pin = Some w ->
  alignPhase w' = alignPhase w -> periodCcys w' = periodCcys w ->
  boundsOK (putPin pin w' m).
Proof.
  intros (Hlen & Hrange & Hts & Htd & Hnp & Hrec) Hw Ha Hp.
  unfold boundsOK, putPin.
  cbn [pins enabled toSet toDisable nextPin set_pins].
  rewrite length_insert. repeat (split; [assumption || lia|]).
  intros q w0 Hq.
  destruct (Nat.eq_dec (Z.to_nat pin) q) as [<-|Hne].
  - rewrite list_lookup_insert_eq in Hq by (apply lookup_lt_Some in Hw; exact Hw).
    injection Hq as <-. rewrite Ha, Hp. apply (Hrec _ _ Hw).
  - rewrite list_lookup_insert_ne in Hq by exact Hne. apply (Hrec _ _ Hq).
Qed.

Lemma wellFormed_toSet_taken m :
  wellFormed m -> wellFormed (set_toSet (-1) m).
Proof.
  intros [(Hlen & Hrange & Hts & Htd & Hnp & Hrec) Hspan].
  split; [|exact Hspan]. unfold boundsOK. cbn [pins enabled toSet toDisable nextPin set_toSet].
  repeat (split; [assumption || lia|]).
  intros q w Hq. destruct (Hrec _ _ Hq) as [Ha Hper]. split; [exact Ha|].
  intros [H|H]; [apply Hper; left; exact H | lia].
Qed.

Lemma chooseAnchor_defined now m w :
  length (pins m) = 17%nat -> alignPhase w <= 16 ->
  exists np, chooseAnchor now m w = Done np.
Proof.
  intros Hlen Ha. unfold chooseAnchor.
  destruct (Z.leb_spec 0 (alignPhase w)); cbn [bind]; [|eauto].
  rewrite shl1_ok by lia. cbn [bind].
  destruct (negb _); [|eauto].
  destruct (pins m !! Z.to_nat (alignPhase w)) as [wk|] eqn:E.
  - rewrite (getPin_lookup m (alignPhase w) wk ltac:(lia) E). cbn [bind]. eauto.
  - apply lookup_ge_None in E. lia.
Qed.

(** Taking up the request in the [toSet] mailbox is defined and keeps the
    state well formed. *)
Lemma applyToSet_wellFormed now m :
  wellFormed m ->
  exists m',
    applyToSet now (if 0 <=? toSet m then bitmask (toSet m) else 0) m
    = Done m' /\
    wellFormed m' /\ nextPin m' = nextPin m /\ enabled m' = enabled m.
Proof.
  intros Hwf. pose proof Hwf as [HB Hspan].
  pose proof HB as (Hlen & Hrange & Hts & Htd & Hnp & Hrec).
  unfold applyToSet.
  destruct (Z.leb_spec 0 (toSet m)) as [Hge|Hlt].
  2:{ cbn. eauto. }
  destruct (Z.eqb_spec (bitmask (toSet m)) 0) as [E|_].
  { exfalso. revert E. apply bitmask_nonzero. exact Hge. }
  destruct (pins m !! Z.to_nat (toSet m)) as [w|] eqn:Hw.
  2:{ apply lookup_ge_None in Hw. lia. }
  rewrite (getPin_lookup m (toSet m) w Hge Hw). cbn [bind].
  destruct (Hrec _ _ Hw) as [Ha Hper].
  destruct (mode w) eqn:Hmode.
  - eexists. split; [reflexivity|]. split; [|split; reflexivity].
    apply wellFormed_toSet_taken. exact Hwf.
  - eexists. split; [reflexivity|]. split; [|split; reflexivity].
    apply wellFormed_toSet_taken. exact Hwf.
  - eexists. split; [reflexivity|]. split; [|split; reflexivity].
    apply wellFormed_toSet_taken. split; [|exact Hspan].
    apply (boundsOK_putPin m (toSet m) w); auto.
  - set (m1 := set_states _ m).
    destruct (chooseAnchor_defined now m1 w Hlen Ha) as [np ->]. cbn [bind].
    eexists. split; [reflexivity|]. split; [|split; reflexivity].
    apply wellFormed_toSet_taken. split; [|exact Hspan].
    destruct (anchorWave_config np w) as (_ & H2 & _ & H4 & _).
    apply (boundsOK_putPin m1 (toSet m) w); auto.
Qed.

Lemma wellFormed_reads n m : wellFormed m -> wellFormed (set_reads n m).
Proof. intros H. exact H. Qed.

(** The request phase of a firing is defined on a well-formed state and
    keeps it well formed. *)
Lemma beginInterrupt_wellFormed m :
  wellFormed m ->
  exists b, beginInterrupt hw clk m = Done b /\ wellFormed (sc_m (snd b)) /\
            nextPin (sc_m (snd b)) = nextPin m.
Proof.
  intros Hwf. unfold beginInterrupt.
  destruct (foldRequests_wellFormed hw (snd (getCycleCount clk m)))
    as (f & Hf & Hwf1 & Hn1); [exact Hwf|].
  rewrite Hf. cbn [bind].
  pose proof (foldRequests_Done hw _ _ Hf) as (Hmask & _ & _ & Hts & _).
  cbn [getCycleCount snd toSet set_reads] in Hmask, Hts.
  destruct (applyToSet_wellFormed (fst (getCycleCount clk (snd f)))
              (snd (getCycleCount clk (snd f))))
    as (m3 & H3 & Hwf3 & Hn3 & _); [exact Hwf1|].
  cbn [getCycleCount snd fst toSet set_reads] in H3 |- *.
  replace (fst f) with (if 0 <=? toSet (snd f) then bitmask (toSet (snd f)) else 0).
  2:{ rewrite Hts. destruct Hmask as [[H1 ->]|[H1 ->]];
      destruct (Z.leb_spec 0 (toSet m)); try lia; reflexivity. }
  rewrite H3. cbn [bind]. eexists. split; [reflexivity|].
  cbn [snd sc_m]. split; [exact Hwf3|]. rewrite Hn3. exact Hn1.
Qed.

Lemma rearm_span sc :
  startPin (rearm hw clk sc) = startPin (sc_m sc) /\
  endPin (rearm hw clk sc) = endPin (sc_m sc) /\
  nextPin (rearm hw clk sc) = nextPin (sc_m sc).
Proof.
  unfold rearm, getCycleCount. destruct (timer1CB (sc_m sc)); cbn; auto.
Qed.

Lemma rearm_wellFormed sc : wellFormed (sc_m sc) -> wellFormed (rearm hw clk sc).
Proof.
  intros [(Hlen & Hrange & Hts & Htd & Hnp & Hrec) Hspan].
  destruct (rearm_frame hw clk sc) as (F1 & _ & F3 & F4 & F5 & _).
  destruct (rearm_span sc) as (S1 & S2 & S3).
  cbv zeta in F1, F3, F4, F5.
  unfold wellFormed, boundsOK, spanOK. rewrite F1, F3, F4, F5, S1, S2, S3.
  split; [|exact Hspan]. repeat (split; [assumption|]). exact Hrec.
Qed.

(** A firing on a well-formed state never runs into undefined behaviour. *)
Lemma timer1Interrupt_defined fuel m :
  wellFormed m -> timer1Interrupt hw clk fuel m <> Undefined.
Proof.
  intros Hwf. unfold timer1Interrupt.
  destruct (beginInterrupt_wellFormed m Hwf) as (b & -> & [HB Hspan] & _).
  cbn [bind]. apply bind_defined; [|discriminate].
  destruct (Z.eqb_spec (enabled (sc_m (snd b))) 0) as [|Hne]; [discriminate|].
  pose proof HB as (_ & _ & _ & _ & Hnp & _).
  rewrite shl1_ok by lia. cbn [bind]. apply scanLoop_defined; [exact Hus|].
  specialize (Hspan Hne). destruct (_ =? 0); split; try assumption.
  destruct HB as (H1 & H2 & H3 & H4 & H5 & H6).
  destruct Hspan as (S1 & _).
  unfold boundsOK. cbn [sc_m pins enabled toSet toDisable nextPin set_nextPin].
  repeat (split; [assumption || lia|]). exact H6.
Qed.

(** A firing keeps the state well formed. *)
Lemma timer1Interrupt_wellFormed fuel m m' :
  wellFormed m -> timer1Interrupt hw clk fuel m = Done m' -> wellFormed m'.
Proof.
  intros Hwf H. unfold timer1Interrupt in H.
  destruct (beginInterrupt_wellFormed m Hwf) as (b & Hb & [HB Hspan] & _).
  rewrite Hb in H. cbn [bind] in H.
  apply bind_Done in H as (sc & Hsc & H). invc H.
  apply rearm_wellFormed.
  destruct (Z.eqb_spec (enabled (sc_m (snd b))) 0) as [He|Hne].
  - invc Hsc. cbn [sc_m]. split; assumption.
  - apply bind_Done in Hsc as (bit & _ & Hsc).
    apply scanLoop_scanOK in Hsc.
    + destruct Hsc as [H1 H2]. split; [exact H1|]. intros _. exact H2.
    + specialize (Hspan Hne). destruct (_ =? 0); split; try assumption.
      destruct HB as (H1 & H2 & H3 & H4 & H5 & H6).
      destruct Hspan as (S1 & _).
      unfold boundsOK. cbn [sc_m pins enabled toSet toDisable nextPin set_nextPin].
      repeat (split; [assumption || lia|]). exact H6.
Qed.
End HandlerSafety.

(** ** The interface *)

Lemma wellFormed_ext m1 m2 :
  pins m2 = pins m1 -> enabled m2 = enabled m1 -> toSet m2 = toSet m1 ->
  toDisable m2 = toDisable m1 -> nextPin m2 = nextPin m1 ->
  startPin m2 = startPin m1 -> endPin m2 = endPin m1 ->
  wellFormed m1 -> wellFormed m2.
Proof.
  unfold wellFormed, boundsOK, spanOK. intros -> -> -> -> -> -> -> H. exact H.
Qed.

(** Staging a checked record and posting its pin keeps the state well
    formed. *)
Lemma wellFormed_stage m pin w' ts :
  wellFormed m -> 0 <= pin <= 16 ->
  alignPhase w' <= 16 -> periodCcys w' <> 0 ->
  ts = toSet m \/ ts = pin ->
  wellFormed (set_toSet ts (putPin pin w' m)).
Proof.
  intros [(Hlen & Hrange & Hts & Htd & Hnp & Hrec) Hspan] Hpin Ha Hp Hts'.
  split; [|exact Hspan]. unfold boundsOK, putPin.
  cbn [pins enabled toSet toDisable nextPin set_toSet set_pins].
  rewrite length_insert. split; [assumption|]. split; [assumption|].
  split; [lia|]. split; [assumption|]. split; [assumption|].
  intros q w Hq.
  destruct (Nat.eq_dec (Z.to_nat pin) q) as [<-|Hne].
  - rewrite list_lookup_insert_eq in Hq by lia. injection Hq as <-. auto.
  - rewrite list_lookup_insert_ne in Hq by exact Hne.
    destruct (Hrec _ _ Hq) as [Ha' Hper]. split; [exact Ha'|].
    intros [H|H]; [apply Hper; auto|].
    destruct Hts' as [->| ->]; [apply Hper; auto | lia].
Qed.

Section Waiting.
Variable hw : Platform.
Variable clk : nat -> Z.
Hypothesis Hus : 0 < u32 (microsecondsToClockCycles hw 3).

Lemma span_postActivate m pin wave rt ap po :
  let m' := postActivate hw m pin wave rt ap po in
  nextPin m' = nextPin m /\ startPin m' = startPin m /\ endPin m' = endPin m.
Proof.
  unfold postActivate, initTimer, timer1_write, writePin.
  repeat match goal with |- context [if ?c then _ else _] =>
    destruct c; cbn end; auto.
Qed.

Lemma timer1Interrupt_armed fuel m m' :
  timer1Interrupt hw clk fuel m = Done m' -> armed m -> armed m'.
Proof.
  intros H (A1 & A2 & A3).
  apply timer1Interrupt_frame in H as (_ & _ & _ & F4 & F5 & F6 & _).
  unfold armed. rewrite F4, F5, F6. auto.
Qed.

(** Waiting for a mailbox on a well-formed state with the timer armed: every
    firing is defined, and the state that comes back is well formed with
    both the mailbox waited for and [toDisable] empty. *)
Lemma await_wellFormed slot fuel m :
  wellFormed m -> armed m ->
  await hw slot clk fuel m <> Undefined /\
  forall m', await hw slot clk fuel m = Done m' ->
             wellFormed m' /\ armed m' /\ slot m' < 0 /\
             (slot m < 0 -> m' = m) /\
             (0 <= slot m -> toSet m' < 0 /\ toDisable m' < 0).
Proof.
  revert m. induction fuel as [|f IH]; intros m Hwf Harm; cbn [await].
  - destruct (Z.ltb_spec (slot m) 0); split; try discriminate.
    intros m' Hm'. invc Hm'.
    split; [exact Hwf|]. split; [exact Harm|]. repeat split; auto; lia.
  - destruct (Z.ltb_spec (slot m) 0).
    { split; [discriminate|]. intros m' Hm'. invc Hm'.
      split; [exact Hwf|]. split; [exact Harm|]. repeat split; auto; lia. }
    destruct Harm as (A1 & A2 & A3). rewrite A2, A3. cbn [andb].
    pose proof (timer1Interrupt_defined hw clk Hus (S f) m Hwf) as Hdef.
    destruct (timer1Interrupt hw clk (S f) m) as [m1| |] eqn:E;
      [|contradiction|split; [discriminate|intros ? ?; discriminate]].
    cbn [bind].
    pose proof (timer1Interrupt_wellFormed hw clk _ _ _ Hwf E) as Hwf1.
    pose proof (timer1Interrupt_armed _ _ _ E (conj A1 (conj A2 A3))) as Harm1.
    destruct (IH m1 Hwf1 Harm1) as [Hd Hr]. split; [exact Hd|].
    intros m' H'. destruct (Hr m' H') as (R1 & R2 & R3 & R4 & _).
    split; [exact R1|]. split; [exact R2|]. split; [exact R3|].
    split; [lia|]. intros _. split.
    + apply timer1Interrupt_frame in E as (F1 & F2 & _).
      destruct (Z_lt_le_dec (slot m1) 0) as [Hs|Hs].
      * rewrite (R4 Hs). exact F1.
      * destruct (Hr m' H') as (_ & _ & _ & _ & R5). apply R5. exact Hs.
    + apply timer1Interrupt_frame in E as (F1 & F2 & _).
      destruct (Z_lt_le_dec (slot m1) 0) as [Hs|Hs].
      * rewrite (R4 Hs). exact F2.
      * destruct (Hr m' H') as (_ & _ & _ & _ & R5). apply R5. exact Hs.
Qed.
End Waiting.

Section Requests.
Variable hw : Platform.
Variable clk : nat -> Z.
Hypothesis Hus : 0 < u32 (microsecondsToClockCycles hw 3).

(** The normalisation divides by the requested period; it is undefined
    exactly for the period 0 that both times being 0 give. *)
Lemma normalizePeriod_undefined high low :
  0 <= high < 2 ^ 32 -> 0 <= low < 2 ^ 32 ->
  (normalizePeriod hw high low = Undefined
   <-> high = 0 /\ low = 0 /\ 0 < u32 (MAXIRQCCYS hw)) /\
  normalizePeriod hw high low <> OutOfFuel.
Proof.
  intros Hh Hl. unfold normalizePeriod.
  destruct (Z.ltb_spec (u32 (high + low)) (u32 (MAXIRQCCYS hw))) as [Hlt|Hge].
  - destruct (Z.eqb_spec high 0) as [->|Hh0].
    + rewrite Z.add_0_l, (u32_small low) in * by lia.
      destruct (Z.eqb_spec low 0) as [->|Hl0].
      * split; [|discriminate]. split; auto.
      * split; [|discriminate]. split; [discriminate|lia].
    + destruct (Z.eqb_spec low 0) as [->|Hl0].
      * rewrite Z.add_0_r, (u32_small high) in * by lia.
        destruct (Z.eqb_spec high 0); [lia|].
        split; [|discriminate]. split; [discriminate|lia].
      * split; [|discriminate]. split; [discriminate|lia].
  - split; [|discriminate]. split; [discriminate|].
    intros (-> & -> & H). change (u32 (0 + 0)) with 0 in Hge. lia.
Qed.

Lemma armed_postActivate m pin wave rt ap po :
  timerOK m -> armed (postActivate hw m pin wave rt ap po).
Proof.
  intros (T1 & T2 & _).
  destruct (postActivate_frame hw m pin wave rt ap po)
    as (_ & _ & _ & _ & Hrun & _ & _ & Hon & Hoff). cbv zeta in *.
  unfold armed. split; [exact Hrun|].
  destruct (timer1Running m) eqn:E.
  - destruct (Hon eq_refl) as [-> ->]. auto.
  - destruct (Hoff eq_refl) as [-> ->]. auto.
Qed.

(** A request with arguments in their types on a state between two calls:
    what comes back is well formed, and after a success the timer is armed. *)
Lemma requestWaveform_wellFormed m pin high low rt ap po auto r :
  quiescent m -> 0 <= pin -> 0 <= high ->
  requestWaveform hw m pin high low rt ap po auto = Done r ->
  wellFormed (snd r) /\ toDisable (snd r) < 0 /\
  (fst r = false -> snd r = m) /\
  (fst r = true -> armed (snd r)).
Proof.
  intros (Hwf & Hts & Htd & Htm) Hpin Hhigh H. destruct r as [[] m1].
  2:{ apply requestWaveform_false in H. subst. cbn [fst snd].
      split; [exact Hwf|]. split; [exact Htd|].
      split; [reflexivity | discriminate]. }
  apply requestWaveform_true in H
    as (h & p & w0 & Hn & Hpin' & _ & Hap & Hp & Hhp & Hw0 & Hm).
  cbn zeta in Hm. cbn [fst snd].
  destruct (normalizePeriod_range _ _ _ _ _ Hhigh Hn) as [Hh0 Hp0].
  apply s32_pos in Hp. rewrite u32_small in Hp by lia.
  pose proof Hwf as [(Hlen & Hrange & _ & _ & _ & Hrec) _].
  destruct (Hrec _ _ Hw0) as [Ha0 _].
  set (wave := set_autoPwm auto (set_periodCcys p (set_dutyCcys h w0))) in *.
  destruct (Z.testbit (enabled m) pin) eqn:Hen; subst m1.
  - (* update *)
    assert (Harm : armed m).
    { destruct Htm as (T1 & T2 & T3). unfold armed.
      rewrite T1, T2. rewrite T3; auto.
      intros E. rewrite E, Z.bits_0 in Hen. discriminate. }
    unfold postUpdate. destruct (rt =? 0).
    + split.
      { cbv zeta.
        match goal with
        | |- wellFormed (putPin ?q ?w ?mm) =>
            apply (wellFormed_ext (set_toSet (toSet m) (putPin q w mm)));
              try reflexivity
        end.
        apply wellFormed_stage; auto; cbn; lia. }
      split; [exact Htd|]. split; [discriminate|]. intros _. exact Harm.
    + split; [apply wellFormed_stage; auto; cbn; lia|].
      split; [exact Htd|]. split; [discriminate|]. intros _. exact Harm.
  - (* activation *)
    destruct (postActivate_frame hw m pin wave rt ap po)
      as (F1 & F2 & F3 & _). cbv zeta in F1, F2, F3.
    destruct (span_postActivate hw m pin wave rt ap po) as (S1 & S2 & S3).
    cbv zeta in S1, S2, S3.
    split.
    { eapply (wellFormed_ext
               (set_toSet pin
                  (putPin pin
                     (set_alignPhase (if ap <? 0 then -1 else ap)
                        (set_mode INIT
                           (set_expiryCcy rt (set_nextPeriodCcy po wave))))
                     m))); try assumption.
      - apply pins_postActivate.
      - apply wellFormed_stage; auto; cbn; try lia.
        destruct (ap <? 0); lia. }
    split; [rewrite F2; exact Htd|]. split; [discriminate|].
    intros _. apply armed_postActivate. exact Htm.
Qed.
End Requests.

Section Calls.
Variable hw : Platform.
Variable clk : nat -> Z.
Hypothesis Hus : 0 < u32 (microsecondsToClockCycles hw 3).

Lemma requestWaveform_defined m pin high low rt ap po auto hp :
  wellFormed m -> 0 <= pin ->
  normalizePeriod hw high low = Done hp ->
  exists r, requestWaveform hw m pin high low rt ap po auto = Done r.
Proof.
  intros [(Hlen & _) _] Hpin Hn. unfold requestWaveform. rewrite Hn.
  cbn [bind]. destruct (_ || _) eqn:Hchk; [eauto|].
  repeat (apply orb_false_iff in Hchk as [Hchk ?]).
  apply Z.ltb_ge in Hchk.
  destruct (pins m !! Z.to_nat pin) as [w|] eqn:Hw.
  2:{ apply lookup_ge_None in Hw. lia. }
  rewrite (getPin_lookup m pin w Hpin Hw). cbn [bind].
  rewrite shl1_ok by lia. cbn [bind]. destruct (_ =? 0); eauto.
Qed.

Lemma timerOK_armed m : armed m -> timerOK m.
Proof. intros (A1 & A2 & A3). unfold timerOK. rewrite A1, A2, A3. auto. Qed.

(** [startWaveformClockCycles] between two calls, with arguments in their
    types: it is undefined exactly when both times are 0, and the state it
    returns is again a state between two calls. *)
Lemma startWaveformClockCycles_quiescent fuel m pin high low rt ap po auto :
  quiescent m -> 0 <= pin -> 0 <= high < 2 ^ 32 -> 0 <= low < 2 ^ 32 ->
  (startWaveformClockCycles hw clk fuel m pin high low rt ap po auto = Undefined
   <-> high = 0 /\ low = 0 /\ 0 < u32 (MAXIRQCCYS hw)) /\
  forall r,
    startWaveformClockCycles hw clk fuel m pin high low rt ap po auto = Done r ->
    quiescent (snd r).
Proof.
  intros Hq Hpin Hh Hl.
  destruct (normalizePeriod_undefined hw high low Hh Hl) as [Hu Hof].
  unfold startWaveformClockCycles.
  destruct (normalizePeriod hw high low) as [hp| |] eqn:Hn; [|clear Hof|tauto].
  2:{ assert (E : requestWaveform hw m pin high low rt ap po auto = Undefined)
        by (unfold requestWaveform; rewrite Hn; reflexivity).
      rewrite E. cbn [bind]. split; [tauto | discriminate]. }
  pose proof Hq as (Hwf & Hts & Htd & Htm).
  destruct (requestWaveform_defined m pin high low rt ap po auto hp Hwf Hpin Hn)
    as [r Hr].
  rewrite Hr. cbn [bind].
  destruct (requestWaveform_wellFormed hw m pin high low rt ap po auto r Hq Hpin
              ltac:(lia) Hr) as (W1 & W2 & W3 & W4).
  assert (Hnu : ~ (high = 0 /\ low = 0 /\ 0 < u32 (MAXIRQCCYS hw))).
  { intros H. apply Hu in H. discriminate. }
  destruct (fst r) eqn:Hok.
  - destruct (await_wellFormed hw clk Hus toSet fuel (snd r) W1 (W4 eq_refl))
      as [Hd Hres].
    split.
    + split; [|tauto]. intros E.
      destruct (await hw toSet clk fuel (snd r)); try discriminate.
      contradiction.
    + intros r' E.
      destruct (await hw toSet clk fuel (snd r)) as [m'| |] eqn:Ea;
        try discriminate.
      invc E. cbn [snd]. destruct (Hres m' eq_refl) as (R1 & R2 & R3 & R4 & R5).
      split; [exact R1|]. split; [exact R3|].
      split; [|apply timerOK_armed; exact R2].
      destruct (Z_lt_le_dec (toSet (snd r)) 0) as [Hs|Hs].
      * rewrite (R4 Hs). exact W2.
      * apply R5. exact Hs.
  - split; [split; [discriminate|tauto]|].
    intros r' E. invc E. rewrite (W3 eq_refl). exact Hq.
Qed.

Lemma wellFormed_deinitTimer m : wellFormed m -> wellFormed (deinitTimer m).
Proof. intros H. exact H. Qed.

(** [stopWaveform] between two calls: it is undefined exactly when the timer
    runs and the pin is 32 or more, and the state it returns is again a state
    between two calls. *)
Lemma stopWaveform_quiescent fuel m pin :
  quiescent m -> 0 <= pin ->
  (stopWaveform hw clk fuel m pin = Undefined
   <-> timer1Running m = true /\ 32 <= pin) /\
  forall r, stopWaveform hw clk fuel m pin = Done r -> quiescent (snd r).
Proof.
  intros Hq Hpin. pose proof Hq as (Hwf & Hts & Htd & Htm).
  unfold stopWaveform. destruct (timer1Running m) eqn:Hrun; cbn [negb].
  2:{ split; [split; [discriminate | intros [? _]; discriminate]|].
      intros r E. invc E. exact Hq. }
  unfold shl1. destruct (Z.leb_spec 0 pin); [|lia].
  destruct (Z.ltb_spec pin 32); cbn [andb bind].
  2:{ split; [split; auto | discriminate]. }
  rewrite land_bitmask_0 by lia.
  destruct (Z.testbit (enabled m) pin) eqn:Hen; cbn [negb bind].
  - assert (Hp16 : pin <= 16).
    { destruct (Z_le_gt_dec pin 16); [assumption|].
      destruct Hwf as [(_ & Hrange & _) _].
      rewrite (testbit_small (enabled m) 17 pin) in Hen by lia. discriminate. }
    assert (Harm : armed (requestStop hw m pin)).
    { destruct Htm as (T1 & T2 & _). unfold requestStop, timer1_write, armed.
      destruct (_ <? _); cbn; rewrite T1, T2; auto. }
    assert (Hwf1 : wellFormed (requestStop hw m pin)).
    { apply (wellFormed_ext (set_toDisable pin m));
        try (unfold requestStop, timer1_write; destruct (_ <? _); reflexivity).
      destruct Hwf as [(B1 & B2 & B3 & B4 & B5 & B6) Hspan].
      split; [|exact Hspan]. unfold boundsOK.
      cbn [pins enabled toSet toDisable nextPin set_toDisable].
      repeat (split; [assumption || lia|]). exact B6. }
    destruct (await_wellFormed hw clk Hus toDisable fuel _ Hwf1 Harm)
      as [Hd Hres].
    destruct (await hw toDisable clk fuel (requestStop hw m pin))
      as [m2| |] eqn:Ea; cbn [bind]; [|contradiction|].
    2:{ split; [split; [discriminate | lia] | discriminate]. }
    split; [split; [discriminate | lia]|].
    intros r E. invc E. cbn [snd].
    destruct (Hres m2 eq_refl) as (R1 & R2 & R3 & _ & R5).
    assert (Hs : 0 <= toDisable (requestStop hw m pin)).
    { unfold requestStop, timer1_write. destruct (_ <? _); cbn; lia. }
    destruct (R5 Hs) as [R6 R7].
    destruct (_ && _) eqn:Hde.
    + apply andb_true_iff in Hde as [He _]. apply Z.eqb_eq in He.
      split; [exact R1|]. split; [exact R6|]. split; [exact R7|].
      unfold timerOK, deinitTimer. cbn. repeat split. intros; contradiction.
    + split; [exact R1|]. split; [exact R6|]. split; [exact R7|].
      apply timerOK_armed. exact R2.
  - split; [split; [discriminate | lia]|].
    intros r E. invc E. cbn [snd].
    destruct (_ && _) eqn:Hde; [|exact Hq].
    apply andb_true_iff in Hde as [He _]. apply Z.eqb_eq in He.
    split; [exact Hwf|]. split; [exact Hts|]. split; [exact Htd|].
    unfold timerOK, deinitTimer. cbn. repeat split. intros; contradiction.
Qed.

Lemma setTimer1Callback_quiescent fn m :
  quiescent m -> quiescent (setTimer1Callback hw fn m).
Proof.
  intros (Hwf & Hts & Htd & T1 & T2 & T3).
  unfold setTimer1Callback, initTimer, deinitTimer, timer1_write, quiescent,
    timerOK.
  destruct (timer1Running m) eqn:E, fn as [f|], (enabled m =? 0) eqn:E0;
    cbn; rewrite ?E, ?E0; cbn;
    (split; [exact Hwf|]); (split; [exact Hts|]); (split; [exact Htd|]);
    repeat split; auto.
  all: try (intros H; apply Z.eqb_eq in E0; contradiction).
  all: try congruence.
  intros H. specialize (T3 H). discriminate.
Qed.

Lemma timer1Interrupt_quiescent fuel m m' :
  quiescent m -> armed m -> timer1Interrupt hw clk fuel m = Done m' ->
  quiescent m'.
Proof.
  intros (Hwf & _) Harm H.
  split; [eapply timer1Interrupt_wellFormed; eauto|].
  pose proof (timer1Interrupt_armed hw clk _ _ _ H Harm) as Harm'.
  apply timer1Interrupt_frame in H as (F1 & F2 & _).
  split; [exact F1|]. split; [exact F2|]. apply timerOK_armed. exact Harm'.
Qed.

Lemma poweredOn_quiescent m : poweredOn m -> quiescent m.
Proof.
  intros (P1 & P2 & P3 & P4 & P5 & P6 & P7 & P8 & P9 & P10 & P11 & P12).
  unfold quiescent, wellFormed, boundsOK, timerOK.
  rewrite P1, P3, P4, P5, P7, P10, P11, P12.
  split; [|repeat split; try lia; intros; contradiction].
  split; [|intros; contradiction].
  rewrite length_replicate. repeat (split; [reflexivity || lia|]).
  intros q w Hq. apply lookup_replicate in Hq as [-> _].
  split; [cbn; lia|]. rewrite Z.bits_0. intros [H|H]; [discriminate | lia].
Qed.

(** Every call and every firing leads from a state between two calls to a
    state between two calls. *)
Lemma exec_quiescent fuel c m m' :
  quiescent m -> inTypes c -> exec hw clk fuel c m = Done m' -> quiescent m'.
Proof.
  intros Hq Hc H. destruct c as [pin h l rt ap po a|pin h l rt ap po a|pin|fn|];
    cbn [exec inTypes] in *.
  - apply bind_Done in H as (r & Hr & H). invc H.
    destruct Hc as (C1 & C2 & C3 & _).
    eapply (startWaveformClockCycles_quiescent fuel m pin h l rt ap po a);
      eauto; lia.
  - apply bind_Done in H as (r & Hr & H). invc H.
    destruct Hc as (C1 & _). unfold startWaveform in Hr.
    eapply (startWaveformClockCycles_quiescent fuel m pin); try exact Hr;
      auto; try lia; apply u32_range.
  - apply bind_Done in H as (r & Hr & H). invc H.
    eapply (stopWaveform_quiescent fuel m pin); eauto. lia.
  - invc H. apply setTimer1Callback_quiescent. exact Hq.
  - destruct (nmiAttached m && T1enabled m) eqn:E; [|invc H; exact Hq].
    apply andb_true_iff in E as [E1 E2].
    eapply timer1Interrupt_quiescent; eauto.
    destruct Hq as (_ & _ & _ & T1 & _). unfold armed. rewrite <- T1. auto.
Qed.

Lemma reachable_quiescent m : reachable hw clk m -> quiescent m.
Proof.
  induction 1 as [m Hon|m c fuel m' _ IH Hc He].
  - apply poweredOn_quiescent. exact Hon.
  - eapply exec_quiescent; eauto.
Qed.
End Calls.

(** ** Duty and period of the enabled channels *)

Lemma dutyOK_ext m1 m2 :
  pins m2 = pins m1 -> enabled m2 = enabled m1 -> toSet m2 = toSet m1 ->
  dutyOK m1 -> dutyOK m2.
Proof. unfold dutyOK. intros -> -> -> H. exact H. Qed.

Lemma dutyOK_stage m pin w' ts :
  dutyOK m -> 0 <= pin ->
  0 <= dutyCcys w' <= periodCcys w' -> 0 < periodCcys w' < 2 ^ 31 ->
  ts = toSet m \/ ts = pin ->
  dutyOK (set_toSet ts (putPin pin w' m)).
Proof.
  intros Hd Hpin H1 H2 Hts q w Hq Hor. unfold putPin in Hq.
  cbn [pins enabled toSet set_toSet set_pins] in Hq, Hor.
  destruct (Nat.eq_dec (Z.to_nat pin) q) as [<-|Hne].
  - apply lookup_lt_Some in Hq as Hlt. rewrite length_insert in Hlt.
    rewrite list_lookup_insert_eq in Hq by exact Hlt. injection Hq as <-. auto.
  - rewrite list_lookup_insert_ne in Hq by exact Hne.
    apply (Hd _ _ Hq). destruct Hor as [H|H]; [auto|].
    destruct Hts as [->| ->]; [auto | lia].
Qed.

Section Duty.
Variable hw : Platform.
Variable clk : nat -> Z.

Lemma timer1Interrupt_dutyOK fuel m m' :
  wellFormed m -> dutyOK m ->
  timer1Interrupt hw clk fuel m = Done m' -> dutyOK m'.
Proof.
  intros Hwf Hd H q w' Hq Hor.
  pose proof (timer1Interrupt_wellFormed hw clk fuel m m' Hwf H)
    as [(Hlen' & _) _].
  pose proof Hwf as [(Hlen & _) _].
  pose proof (timer1Interrupt_frame hw clk _ _ _ H) as (F1 & _ & _ & _ & _ & _ & F7).
  destruct Hor as [Hen|Hts]; [|lia].
  apply lookup_lt_Some in Hq as Hlt.
  destruct (pins m !! q) as [w|] eqn:Ew.
  2:{ apply lookup_ge_None in Ew. lia. }
  assert (Hc : channel m (Z.of_nat q)
               = Some (mkChannel w (Z.testbit (states m) (Z.of_nat q))
                         (Z.testbit (enabled m) (Z.of_nat q))
                         (pinLevel m (Z.of_nat q)))).
  { unfold channel. rewrite Nat2Z.id, Ew. reflexivity. }
  destruct (timer1Interrupt_config hw clk (Z.of_nat q) (dutyCcys w)
              (periodCcys w) (autoPwm w) fuel m m' ltac:(lia))
    as (j & c' & _ & Hc' & C1 & C2 & _); [|exact H|].
  { exists 0%nat. eexists. split; [right; reflexivity|]. split; [exact Hc|].
    unfold hasConfig. auto. }
  unfold channel in Hc'. rewrite Nat2Z.id, Hq in Hc'. injection Hc' as <-.
  cbn [ch_wave] in C1, C2. rewrite C1, C2. apply (Hd _ _ Ew).
  destruct (F7 (Z.of_nat q) ltac:(lia) Hen) as [[? _]|?]; auto.
Qed.
End Duty.

Section DutyApi.
Variable hw : Platform.
Variable clk : nat -> Z.
Hypothesis Hus : 0 < u32 (microsecondsToClockCycles hw 3).

Lemma await_dutyOK slot fuel m m' :
  wellFormed m -> dutyOK m ->
  await hw slot clk fuel m = Done m' -> dutyOK m'.
Proof.
  intros Hwf Hd H.
  apply (await_rule hw clk (fun x => wellFormed x /\ dutyOK x)) in H; [tauto| |auto].
  intros f x x' [Hx Hdx] Hf. split.
  - eapply timer1Interrupt_wellFormed; eauto.
  - eapply timer1Interrupt_dutyOK; eauto.
Qed.

Lemma requestWaveform_dutyOK m pin high low rt ap po auto r :
  toSet m < 0 -> dutyOK m -> 0 <= high ->
  requestWaveform hw m pin high low rt ap po auto = Done r ->
  dutyOK (snd r).
Proof.
  intros Hts Hd Hhigh H. destruct r as [[] m1].
  2:{ apply requestWaveform_false in H. subst. exact Hd. }
  apply requestWaveform_true in H
    as (h & p & w0 & Hn & Hpin & _ & _ & Hp & Hhp & Hw0 & Hm).
  cbn zeta in Hm. cbn [snd].
  destruct (normalizePeriod_range _ _ _ _ _ Hhigh Hn) as [Hh0 Hp0].
  apply s32_pos in Hp. rewrite u32_small in Hp by lia.
  set (wave := set_autoPwm auto (set_periodCcys p (set_dutyCcys h w0))) in *.
  destruct (Z.testbit (enabled m) pin) eqn:Hen; subst m1.
  - unfold postUpdate. destruct (rt =? 0).
    + cbv zeta.
      match goal with
      | |- dutyOK (putPin ?q ?w ?mm) =>
          apply (dutyOK_ext (set_toSet (toSet m) (putPin q w mm)));
            try reflexivity
      end.
      apply dutyOK_stage; auto; cbn; lia.
    + apply dutyOK_stage; auto; cbn; lia.
  - destruct (postActivate_frame hw m pin wave rt ap po)
      as (F1 & F2 & F3 & _). cbv zeta in F1, F2, F3.
    eapply (dutyOK_ext
              (set_toSet pin
                 (putPin pin
                    (set_alignPhase (if ap <? 0 then -1 else ap)
                       (set_mode INIT
                          (set_expiryCcy rt (set_nextPeriodCcy po wave))))
                    m))); try assumption.
    + apply pins_postActivate.
    + apply dutyOK_stage; auto; cbn; lia.
Qed.

Lemma wellFormed_requestStop m pin :
  wellFormed m -> Z.testbit (enabled m) pin = true ->
  wellFormed (requestStop hw m pin).
Proof.
  intros Hwf Hen.
  apply (wellFormed_ext (set_toDisable pin m));
    try (unfold requestStop, timer1_write; destruct (_ <? _); reflexivity).
  destruct Hwf as [(B1 & B2 & B3 & B4 & B5 & B6) Hspan].
  assert (Hp16 : pin <= 16).
  { destruct (Z_le_gt_dec pin 16); [assumption|].
    rewrite (testbit_small (enabled m) 17 pin) in Hen by lia. discriminate. }
  split; [|exact Hspan]. unfold boundsOK.
  cbn [pins enabled toSet toDisable nextPin set_toDisable].
  repeat (split; [assumption || lia|]). exact B6.
Qed.

Lemma exec_dutyOK fuel c m m' :
  quiescent m -> dutyOK m -> inTypes c ->
  exec hw clk fuel c m = Done m' -> dutyOK m'.
Proof.
  intros Hq Hd Hc H.
  assert (Hstart : forall pin h l rt ap po a r,
            0 <= pin -> 0 <= h ->
            startWaveformClockCycles hw clk fuel m pin h l rt ap po a = Done r ->
            dutyOK (snd r)).
  { intros pin h l rt ap po a r Hpin Hh Hr. unfold startWaveformClockCycles in Hr.
    apply bind_Done in Hr as (r1 & Hr1 & Hr).
    pose proof (requestWaveform_dutyOK _ _ _ _ _ _ _ _ _
                  (proj1 (proj2 Hq)) Hd Hh Hr1) as Hd1.
    destruct (requestWaveform_wellFormed hw m pin h l rt ap po a r1 Hq Hpin Hh Hr1)
      as (Hwf1 & _).
    destruct (fst r1); [|invc Hr; exact Hd1].
    apply bind_Done in Hr as (m2 & Haw & Hr). invc Hr. cbn [snd].
    eapply await_dutyOK; eauto. }
  destruct c as [pin h l rt ap po a|pin h l rt ap po a|pin|fn|];
    cbn [exec inTypes] in *.
  - apply bind_Done in H as (r & Hr & H). invc H.
    eapply Hstart; [| |exact Hr]; lia.
  - apply bind_Done in H as (r & Hr & H). invc H. unfold startWaveform in Hr.
    eapply Hstart; [| |exact Hr]; [lia|apply u32_range].
  - apply bind_Done in H as (r & Hr & H). invc H.
    unfold stopWaveform in Hr.
    destruct (timer1Running m); cbn [negb] in Hr; [|invc Hr; exact Hd].
    apply bind_Done in Hr as (b & Hb & Hr). apply shl1_Done in Hb as [Hp32 ->].
    apply bind_Done in Hr as (m2 & Hm2 & Hr). invc Hr. cbn [snd].
    assert (Hd2 : dutyOK m2).
    { rewrite land_bitmask_0 in Hm2 by lia.
      destruct (Z.testbit (enabled m) pin) eqn:Hen; cbn [negb] in Hm2;
        [|invc Hm2; exact Hd].
      eapply (await_dutyOK toDisable fuel (requestStop hw m pin)); [| |exact Hm2].
      - apply wellFormed_requestStop; [apply Hq|exact Hen].
      - apply (dutyOK_ext m); auto;
          unfold requestStop, timer1_write; destruct (_ <? _); reflexivity. }
    destruct (_ && _); [|exact Hd2]. apply (dutyOK_ext m2); auto.
  - invc H. apply (dutyOK_ext m); auto;
      unfold setTimer1Callback, initTimer, deinitTimer, timer1_write;
      repeat match goal with |- context [if ?b then _ else _] =>
               destruct b end; reflexivity.
  - destruct (_ && _); [|invc H; exact Hd].
    eapply timer1Interrupt_dutyOK; eauto. apply Hq.
Qed.
End DutyApi.

Section DutyReach.
Variable hw : Platform.
Variable clk : nat -> Z.
Hypothesis Hus : 0 < u32 (microsecondsToClockCycles hw 3).

Lemma poweredOn_dutyOK m : poweredOn m -> dutyOK m.
Proof.
  intros (_ & _ & He & Hts & _) q w _ [H|H].
  - rewrite He, Z.bits_0 in H. discriminate.
  - lia.
Qed.

Lemma reachable_dutyOK m : reachable hw clk m -> dutyOK m.
Proof.
  induction 1 as [m Hon|m c fuel m' Hr IH Hc He].
  - apply poweredOn_dutyOK. exact Hon.
  - eapply (exec_dutyOK hw clk); eauto.
    apply (reachable_quiescent hw clk Hus). exact Hr.
Qed.
End DutyReach.

(** * What the handler keeps of a channel *)

Section Keeps.
Variable hw : Platform.
Variable clk : nat -> Z.

Lemma visit_retired now c : ch_enabled c = false -> visit hw now c = Done c.
Proof. intros H. unfold visit. rewrite H. reflexivity. Qed.

(** What every visit keeps of a channel, the scan of a firing keeps. *)
Lemma timer1Interrupt_scan_keeps (J : Channel -> Prop) p fuel m m' :
  0 <= p ->
  (forall now c c', J c -> visit hw now c = Done c' -> J c') ->
  timer1Interrupt hw clk fuel m = Done m' ->
  exists b, beginInterrupt hw clk m = Done b /\
    forall c1, channel (sc_m (snd b)) p = Some c1 -> J c1 ->
               exists c', channel m' p = Some c' /\ J c'.
Proof.
  intros Hp HJ H.
  destruct (timer1Interrupt_tracks hw clk p Hp (fun _ c => J c)
              ltac:(auto) ltac:(intros; eapply HJ; eauto) fuel m m' H)
    as (b & Hb & Hfin).
  exists b. split; [exact Hb|]. intros c1 Hc1 HJ1.
  pose proof Hb as Hb'. apply beginInterrupt_Done in Hb'. cbn zeta in Hb'.
  destruct Hb' as (Hnow & Hr & _).
  destruct Hfin as (j & c' & _ & Hc' & HJ').
  { exists (S (reads m)), c1. rewrite Hr. repeat split; auto. }
  eauto.
Qed.

(** What every visit keeps of a channel, a firing that finds no activation
    request for the channel keeps; a stop request clears the enabled bit
    first. *)
Lemma timer1Interrupt_keeps (J : Channel -> Prop) p fuel m m' c :
  0 <= p ->
  (forall now c c', J c -> visit hw now c = Done c' -> J c') ->
  (forall c, J c -> J (retired c)) ->
  toSet m <> p -> channel m p = Some c -> J c ->
  timer1Interrupt hw clk fuel m = Done m' ->
  exists c', channel m' p = Some c' /\ J c'.
Proof.
  intros Hp HJ Hret Hts Hc HJc H.
  destruct (timer1Interrupt_scan_keeps J p fuel m m' Hp HJ H) as (b & Hb & Hfin).
  destruct (beginInterrupt_channel hw clk m b p c Hp Hb Hc)
    as (c1 & Hc1 & Hout & Hen & Hsame & _).
  destruct (Hsame Hts) as [Hw Hl].
  apply (Hfin c1 Hc1).
  destruct c as [w l e o], c1 as [w1 l1 e1 o1]. cbn in *. subst.
  destruct (Z.eqb_spec (toSet m) p); [contradiction|].
  rewrite orb_false_r.
  destruct e; [destruct (negb _) eqn:E|]; cbn; auto; apply (Hret _ HJc).
Qed.

(** A firing leaves a channel alone that is not enabled, or that it has just
    been asked to stop: nothing of it changes but the enabled bit. *)
Lemma timer1Interrupt_retires p fuel m m' c :
  0 <= p -> toSet m <> p -> channel m p = Some c ->
  ch_enabled c = false \/ toDisable m = p ->
  timer1Interrupt hw clk fuel m = Done m' ->
  channel m' p = Some (retired c).
Proof.
  intros Hp Hts Hc Hoff H.
  destruct (timer1Interrupt_scan_keeps (fun c' => c' = retired c) p fuel m m'
              Hp) as (b & Hb & Hfin); auto.
  { intros now c1 c' -> Hv. rewrite visit_retired in Hv by reflexivity.
    congruence. }
  destruct (beginInterrupt_channel hw clk m b p c Hp Hb Hc)
    as (c1 & Hc1 & Hout & Hen & Hsame & _).
  destruct (Hsame Hts) as [Hw Hl].
  destruct (Hfin c1 Hc1) as (c' & Hc' & ->); [|exact Hc'].
  destruct c as [w l e o], c1 as [w1 l1 e1 o1]. cbn in *. subst.
  unfold retired. cbn. f_equal.
  destruct (Z.eqb_spec (toSet m) p); [contradiction|].
  rewrite orb_false_r.
  destruct Hoff as [->| ->]; [reflexivity|].
  rewrite Z.eqb_refl. apply andb_false_r.
Qed.

Lemma firings_keeps (J : Channel -> Prop) p fuels : forall m m' c,
  0 <= p ->
  (forall now c c', J c -> visit hw now c = Done c' -> J c') ->
  (forall c, J c -> J (retired c)) ->
  toSet m <> p -> channel m p = Some c -> J c ->
  firings hw clk fuels m = Done m' ->
  exists c', channel m' p = Some c' /\ J c'.
Proof.
  induction fuels as [|f fs IH]; intros m m' c Hp HJ Hret Hts Hc HJc H;
    cbn [firings] in H.
  - invc H. eauto.
  - apply bind_Done in H as (m1 & H1 & H).
    destruct (timer1Interrupt_keeps J p f m m1 c Hp HJ Hret Hts Hc HJc H1)
      as (c1 & Hc1 & HJ1).
    apply timer1Interrupt_frame in H1 as (F1 & _).
    apply (IH m1 m' c1 Hp HJ Hret ltac:(lia) Hc1 HJ1 H).
Qed.

Lemma visit_mirrored now c c' :
  mirrored c -> visit hw now c = Done c' -> mirrored c'.
Proof.
  unfold mirrored. intros Hm Hv.
  apply visit_Done in Hv as [[_ ->]|[_ (r & Hr & ->)]]; [exact Hm|].
  apply pinStep_config in Hr as (_ & _ & _ & _ & _ & Hg). cbn.
  rewrite Hg. destruct (r_toggle r); [reflexivity|].
  rewrite xorb_false_r. exact Hm.
Qed.

Lemma visit_heldHigh now c c' :
  heldHigh c -> visit hw now c = Done c' -> heldHigh c'.
Proof.
  intros (Hd & Hl & Ho) Hv.
  apply visit_Done in Hv as [[_ ->]|[_ (r & Hr & ->)]]; [repeat split; auto|].
  pose proof (pinStep_config _ _ _ _ _ Hr) as (C1 & C2 & _ & _ & _ & Hg).
  assert (Ht : r_toggle r = false).
  { rewrite Hl in Hr. unfold pinStep, edgeStep in Hr.
    rewrite Hd, Z.sub_diag in Hr. change (u32 0 =? 0) with true in Hr.
    cbv iota in Hr. break_step Hr; invc Hr; reflexivity. }
  unfold heldHigh. cbn. rewrite Hg, Ht, C1, C2, Hl, Ho. auto.
Qed.
End Keeps.

(** * The handshake between the interface and the handler *)

Section Handshake.
Variable hw : Platform.
Variable clk : nat -> Z.
Hypothesis Hus : 0 < u32 (microsecondsToClockCycles hw 3).







End Handshake.

(** * Runs of firings *)

Section Runs.
Variable hw : Platform.
Variable clk : nat -> Z.

(** X11: firings of the handler leave a channel that is not enabled and not
    named in the toSet mailbox as it is: its record, its level bit and the
    level of its pin do not change, and it stays disabled. *)
Theorem firings_idle_untouched fuels m m' p c :
  0 <= p -> toSet m <> p ->
  channel m p = Some c -> ch_enabled c = false ->
  firings hw clk fuels m = Done m' ->
  channel m' p = Some c.
Proof.
  intros Hp Hts Hc Hen H.
  destruct (firings_keeps hw clk (fun c' => c' = c) p fuels m m' c)
    as (c' & Hc' & ->); auto.
  - intros now c1 c' -> Hv. rewrite visit_retired in Hv by exact Hen. congruence.
  - intros c1 ->. destruct c; cbn in *; subst; reflexivity.
Qed.

(** X13: if the level bit of a channel agrees with the level of its pin, it
    still does after any number of firings that start with no activation
    request for the channel. *)
Theorem firings_mirrored fuels m m' p c :
  0 <= p -> toSet m <> p ->
  channel m p = Some c -> ch_level c = ch_out c ->
  firings hw clk fuels m = Done m' ->
  exists c', channel m' p = Some c' /\ ch_level c' = ch_out c'.
Proof.
  intros Hp Hts Hc Hm H.
  apply (firings_keeps hw clk mirrored p fuels m m' c); auto.
  intros now c1 c'. apply visit_mirrored.
Qed.

(** X14: a channel at 100% duty (dutyCcys = periodCcys) that is high stays
    high: no firing clears its level bit or drives its pin low, as long as no
    activation request names it. *)
Theorem firings_heldHigh fuels m m' p c :
  0 <= p -> toSet m <> p ->
  channel m p = Some c ->
  dutyCcys (ch_wave c) = periodCcys (ch_wave c) ->
  ch_level c = true -> ch_out c = true ->
  firings hw clk fuels m = Done m' ->
  exists c', channel m' p = Some c' /\ ch_level c' = true /\ ch_out c' = true.
Proof.
  intros Hp Hts Hc Hd Hl Ho H.
  destruct (firings_keeps hw clk heldHigh p fuels m m' c)
    as (c' & Hc' & _ & Hl' & Ho'); auto.
  - intros now c1 c'. apply visit_heldHigh.
  - unfold heldHigh. auto.
  - eauto.
Qed.

(** X12: the handler never changes the duty, the period or the autoPwm flag
    of a channel record, whatever it does to the channel. *)
Theorem firings_config fuels m m' p c :
  0 <= p -> channel m p = Some c ->
  firings hw clk fuels m = Done m' ->
  exists c', channel m' p = Some c' /\
    dutyCcys (ch_wave c') = dutyCcys (ch_wave c) /\
    periodCcys (ch_wave c') = periodCcys (ch_wave c) /\
    autoPwm (ch_wave c') = autoPwm (ch_wave c).
Proof.
  intros Hp Hc H.
  set (d := dutyCcys (ch_wave c)). set (per := periodCcys (ch_wave c)).
  set (a := autoPwm (ch_wave c)).
  assert (Hfin : holdsAt p (hasConfig d per a) m').
  { apply (firings_rule hw clk (holdsAt p (hasConfig d per a)) fuels m m');
      auto.
    - intros f x x'. apply timer1Interrupt_config. exact Hp.
    - exists 0%nat, c. unfold hasConfig. auto. }
  destruct Hfin as (j & c' & _ & Hc' & HI). exists c'. split; auto.
Qed.

(** X17: firings of the handler never change the callback, timer1Running,
    the attachment of the handler or the enabling of the timer; they enable
    no channel but the one named in the toSet mailbox at the start; and after
    at least one firing both mailboxes are empty. *)
Theorem firings_frame fuels : forall m m',
  firings hw clk fuels m = Done m' ->
  timer1CB m' = timer1CB m /\ timer1Running m' = timer1Running m /\
  nmiAttached m' = nmiAttached m /\ T1enabled m' = T1enabled m /\
  (fuels <> [] -> toSet m' < 0 /\ toDisable m' < 0) /\
  forall q, 0 <= q -> Z.testbit (enabled m') q = true ->
    Z.testbit (enabled m) q = true \/ toSet m = q.
Proof.
  induction fuels as [|f fs IH]; intros m m' H; cbn [firings] in H.
  - invc H. repeat split; auto; congruence.
  - apply bind_Done in H as (m1 & H1 & H).
    apply timer1Interrupt_frame in H1 as (F1 & F2 & F3 & F4 & F5 & F6 & F7).
    destruct (IH _ _ H) as (G1 & G2 & G3 & G4 & G5 & G6).
    split; [congruence|]. split; [congruence|]. split; [congruence|].
    split; [congruence|]. split.
    + intros _. destruct fs as [|f' fs'].
      * cbn [firings] in H. invc H. auto.
      * apply G5. discriminate.
    + intros q Hq Hb. destruct (G6 q Hq Hb) as [Hb1|Hts]; [|lia].
      destruct (F7 q Hq Hb1) as [[? _]|?]; auto.
Qed.
End Runs.

(** * The idle handler *)

Section Idle.
Variable hw : Platform.
Variable clk : nat -> Z.

Lemma s32_ahead n k :
  0 <= n < 2 ^ 32 -> 0 <= k < 2 ^ 31 -> s32 (u32 (n + k) - n) = k.
Proof.
  intros Hn Hk. unfold s32. rewrite u32_sub_l.
  replace (n + k - n) with k by lia.
  change (2 ^ 31) with 2147483648 in *.
  rewrite u32_small by (change (2 ^ 32) with 4294967296; lia).
  destruct (Z.ltb_spec k 2147483648); [reflexivity|lia].
Qed.

(** X15: with no channel enabled, no request pending and no callback
    installed, a firing does not enter the scan loop and only re-arms the
    timer: it reads the cycle counter twice, loads the timer with
    MAXIRQCCYS - DELTAIRQ (halved at 160 MHz) and enables the edge interrupt,
    provided that IRQLATENCY + DELTAIRQ < MAXIRQCCYS < 2^31. *)
Theorem timer1Interrupt_heartbeat fuel m :
  enabled m = 0 -> toSet m < 0 -> toDisable m < 0 -> timer1CB m = None ->
  0 <= MAXIRQCCYS hw < 2 ^ 31 ->
  IRQLATENCY hw + DELTAIRQ hw < MAXIRQCCYS hw ->
  timer1Interrupt hw clk fuel m
  = Done (set_edgeIntEnabled true
            (set_T1L (u32 (if clockCyclesPerMicrosecond hw =? 160
                           then Z.shiftr (MAXIRQCCYS hw - DELTAIRQ hw) 1
                           else MAXIRQCCYS hw - DELTAIRQ hw))
               (set_reads (S (S (reads m))) m))).
Proof.
  intros He Hts Htd Hcb Hmax Hlat.
  unfold timer1Interrupt, beginInterrupt, foldRequests, applyToSet, getCycleCount.
  cbn [fst snd reads set_reads toSet toDisable].
  destruct (Z.leb_spec 0 (toSet m)); [lia|].
  destruct (Z.leb_spec 0 (toDisable m)); [lia|].
  cbn [bind fst snd]. rewrite Z.eqb_refl. cbn [negb andb orb bind fst snd].
  rewrite Z.eqb_refl. cbn [bind fst snd sc_m sc_now enabled set_reads].
  rewrite He, Z.eqb_refl. cbn [bind]. f_equal.
  unfold rearm. cbn [sc_m sc_now sc_nextTimerCcy timer1CB set_reads].
  rewrite Hcb. cbn [fst snd].
  rewrite !(s32_ahead _ (MAXIRQCCYS hw)) by (apply u32_range || exact Hmax).
  destruct (Z.leb_spec (MAXIRQCCYS hw) (IRQLATENCY hw + DELTAIRQ hw)); [lia|].
  destruct (Z.leb_spec (MAXIRQCCYS hw) (MAXIRQCCYS hw)); [reflexivity|lia].
Qed.
End Idle.

(** * The walk over the pins *)

Section Walk.
Variable hw : Platform.
Variable clk : nat -> Z.
Hypothesis Hus : 0 < u32 (microsecondsToClockCycles hw 3).

Lemma servicePin_span pin sc sc' :
  scanOK sc -> servicePin hw clk pin sc = Done sc' ->
  startPin (sc_m sc') = startPin (sc_m sc) /\
  endPin (sc_m sc') = endPin (sc_m sc) /\
  (nextPin (sc_m sc') = nextPin (sc_m sc) \/
   nextPin (sc_m sc') = pin /\ startPin (sc_m sc) <= pin < endPin (sc_m sc)).
Proof.
  intros HK Hs.
  apply servicePin_Done in Hs
    as [Hpin [[_ ->]|(Hen & w & r & closer & Hw & Hr & Hm & _)]]; [auto|].
  destruct HK as [_ (_ & _ & Hsp)].
  destruct (misc_applyPinResult pin (bitmask pin) r closer (sc_m sc))
    as (_ & _ & _ & _ & M5 & M6 & _).
  rewrite Hm. cbn [startPin endPin nextPin set_reads].
  rewrite M5, M6, nextPin_applyPinResult.
  split; [reflexivity|]. split; [reflexivity|].
  destruct closer; [right|left; reflexivity].
  split; [reflexivity|]. apply Hsp; [lia|exact Hen].
Qed.

Lemma servicePin_walkOK pin sc sc' :
  walkOK sc -> servicePin hw clk pin sc = Done sc' -> walkOK sc'.
Proof.
  intros [HK Hn] Hs. split; [eapply servicePin_scanOK; eauto|].
  destruct (servicePin_span pin sc sc' HK Hs) as (-> & -> & [->|[-> ?]]); lia.
Qed.

Lemma scanPins_walkOK fuel stop pin sc sc' :
  walkOK sc -> scanPins hw clk fuel stop pin sc = Done sc' -> walkOK sc'.
Proof.
  apply (scanPins_rule hw clk walkOK). apply servicePin_walkOK.
Qed.

(** The walk comes back to the pin it has to stop at before it has made
    more steps than the span has pins. *)
Lemma scanPins_returns fuel : forall stop pin sc,
  scanOK sc ->
  startPin (sc_m sc) <= stop <= endPin (sc_m sc) ->
  startPin (sc_m sc) <= pin <= endPin (sc_m sc) ->
  (if pin <? stop then stop - pin
   else endPin (sc_m sc) - pin + 1 + (stop - startPin (sc_m sc)))
  <= Z.of_nat fuel ->
  exists sc', scanPins hw clk fuel stop pin sc = Done sc'.
Proof.
  induction fuel as [|f IH]; intros stop pin sc HK Hstop Hpin Hd.
  { exfalso. destruct (Z.ltb_spec pin stop); lia. }
  pose proof HK as [_ (Hs1 & Hs2 & _)].
  destruct (servicePin_defined hw clk Hus pin sc HK ltac:(lia)) as (sc1 & H1).
  cbn [scanPins]. rewrite H1. cbn [bind].
  destruct (servicePin_span pin sc sc1 HK H1) as (-> & -> & _).
  destruct (Z.eqb_spec (if pin <? endPin (sc_m sc) then pin + 1
                        else startPin (sc_m sc)) stop) as [_|Hne]; [eauto|].
  pose proof (servicePin_scanOK hw clk pin sc sc1 HK H1) as HK1.
  destruct (servicePin_span pin sc sc1 HK H1) as (E1 & E2 & _).
  apply IH; rewrite ?E1, ?E2; auto.
  - destruct (Z.ltb_spec pin (endPin (sc_m sc))); lia.
  - destruct (Z.ltb_spec pin (endPin (sc_m sc))), (Z.ltb_spec pin stop);
      repeat match goal with |- context [?a <? ?b] =>
               destruct (Z.ltb_spec a b) end; lia.
Qed.
End Walk.

(** * The generator in use *)

Section InUse.
Variable hw : Platform.
Variable clk : nat -> Z.
Hypothesis Hus : 0 < u32 (microsecondsToClockCycles hw 3).

(** X7: on a well-formed state a firing of the handler never runs into
    undefined behaviour (no access outside waveform.pins, no shift by a
    negative amount or by 32 or more, no division by zero), and the state it
    returns is well formed again, with both mailboxes empty. *)
Theorem timer1Interrupt_safe fuel m :
  wellFormed m ->
  timer1Interrupt hw clk fuel m <> Undefined /\
  forall m', timer1Interrupt hw clk fuel m = Done m' ->
             wellFormed m' /\ toSet m' < 0 /\ toDisable m' < 0.
Proof.
  intros Hwf. split; [apply timer1Interrupt_defined; assumption|].
  intros m' H. split; [eapply timer1Interrupt_wellFormed; eauto|].
  apply timer1Interrupt_frame in H. tauto.
Qed.

(** X8: on a platform where 3 us are at least one clock cycle, in every state
    that calls with arguments in their types and firings of the timer lead to
    after power-on (a call taken as one step), both
    mailboxes are empty, the timer is attached and enabled exactly when
    timer1Running is set, it runs whenever a channel is enabled, and every
    enabled channel lies on a pin of the span from startPin to endPin - 1,
    which ends at pin 16 at most, with 0 <= dutyCcys <= periodCcys and
    0 < periodCcys < 2^31. *)
Theorem reachable_invariant m :
  reachable hw clk m ->
  length (pins m) = 17%nat /\ 0 <= enabled m < 2 ^ 17 /\
  toSet m < 0 /\ toDisable m < 0 /\
  nmiAttached m = timer1Running m /\ T1enabled m = timer1Running m /\
  (enabled m <> 0 -> timer1Running m = true) /\
  forall q, 0 <= q -> Z.testbit (enabled m) q = true ->
    startPin m <= q < endPin m /\ endPin m <= 17 /\
    exists w, pins m !! Z.to_nat q = Some w /\
      0 <= dutyCcys w <= periodCcys w /\ 0 < periodCcys w < 2 ^ 31.
Proof.
  intros H. pose proof (reachable_dutyOK hw clk Hus m H) as Hd.
  apply (reachable_quiescent hw clk Hus) in H.
  destruct H as ([(B1 & B2 & _ & _ & _ & B6) Hspan] & Hts & Htd & T1 & T2 & T3).
  repeat (split; [assumption|]).
  intros q Hq Hb.
  assert (Hne : enabled m <> 0).
  { intros E. rewrite E, Z.bits_0 in Hb. discriminate. }
  destruct (Hspan Hne) as (S1 & S2 & S3).
  split; [apply S3; assumption|]. split; [lia|].
  assert (Hq17 : q < 17).
  { destruct (Z_lt_ge_dec q 17); [assumption|].
    rewrite (testbit_small (enabled m) 17 q) in Hb by lia. discriminate. }
  destruct (pins m !! Z.to_nat q) as [w|] eqn:E.
  - exists w. split; [reflexivity|]. apply (Hd _ _ E). left.
    rewrite Z2Nat.id by lia. exact Hb.
  - apply lookup_ge_None in E. lia.
Qed.

(** X9: in such a state the only calls that run into a division by zero, an
    access outside waveform.pins or a shift by a negative amount or by 32 or
    more are a start whose high and low times are both zero cycles and a stop
    with a pin of 32 or more while the timer runs; a firing of the timer and
    setTimer1Callback never run into one of these.  (What __builtin_clz
    gives for 0, at line 258 in a firing that leaves no channel enabled, is
    the platform's clz0 and not counted here.) *)
Theorem exec_undefined fuel c m :
  reachable hw clk m -> inTypes c ->
  (exec hw clk fuel c m = Undefined <-> faulty hw c m).
Proof.
  intros H Hc. apply (reachable_quiescent hw clk Hus) in H.
  destruct c as [pin h l rt ap po a|pin h l rt ap po a|pin|fn|];
    cbn [exec inTypes faulty] in *.
  - destruct Hc as (C1 & C2 & C3 & _).
    destruct (startWaveformClockCycles_quiescent hw clk Hus fuel m pin h l rt ap
                po a H ltac:(lia) C2 C3) as [Hu _].
    rewrite <- Hu.
    destruct (startWaveformClockCycles _ _ _ _ _ _ _ _ _ _ _); cbn [bind];
      split; auto; discriminate.
  - destruct Hc as (C1 & _). unfold startWaveform.
    destruct (startWaveformClockCycles_quiescent hw clk Hus fuel m pin
                (u32 (microsecondsToClockCycles hw h))
                (u32 (microsecondsToClockCycles hw l))
                (u32 (microsecondsToClockCycles hw rt)) ap
                (u32 (microsecondsToClockCycles hw po)) a H ltac:(lia)
                (u32_range _) (u32_range _)) as [Hu _].
    rewrite <- Hu.
    destruct (startWaveformClockCycles _ _ _ _ _ _ _ _ _ _ _); cbn [bind];
      split; auto; discriminate.
  - destruct (stopWaveform_quiescent hw clk Hus fuel m pin H ltac:(lia))
      as [Hu _].
    rewrite <- Hu.
    destruct (stopWaveform _ _ _ _ _); cbn [bind]; split; auto; discriminate.
  - split; [discriminate|contradiction].
  - split; [|contradiction]. destruct (_ && _); [|discriminate].
    apply timer1Interrupt_defined; [exact Hus|]. apply H.
Qed.

(** X16: the walk of the do-while loop over the pins comes to an end.  The
    state that a firing on a well-formed state hands to the scan loop has
    nextPin inside the span from startPin to endPin (an enabled pin, or
    startPin after the reset of line 295); from every such state one pass of the
    walk returns after at most 18 visits, and it leaves such a state (on a
    platform where 3 us are at least one clock cycle). *)
Theorem scanPins_pass fuel m b :
  wellFormed m -> beginInterrupt hw clk m = Done b ->
  enabled (sc_m (snd b)) <> 0 -> (18 <= fuel)%nat ->
  let m3 := sc_m (snd b) in
  let m4 := if Z.land (enabled m3) (bitmask (nextPin m3)) =? 0
            then set_nextPin (startPin m3) m3 else m3 in
  walkOK (mkScan m4 (sc_now (snd b)) 0) /\
  forall sc, walkOK sc ->
    exists sc',
      scanPins hw clk fuel (nextPin (sc_m sc)) (nextPin (sc_m sc)) sc = Done sc'
      /\ walkOK sc'.
Proof.
  intros Hwf Hb Hne Hfuel. cbv zeta. split.
  - destruct (beginInterrupt_wellFormed hw clk m Hwf)
      as (b' & Hb' & [HB Hspan] & _).
    rewrite Hb in Hb'. invc Hb'.
    destruct (Hspan Hne) as (S1 & S2 & S3).
    pose proof HB as (H1 & H2 & H3 & H4 & H5 & H6).
    rewrite land_bitmask_0 by lia.
    destruct (Z.testbit _ _) eqn:E; cbn [negb].
    + split; [split; [exact HB|exact (Hspan Hne)]|].
      cbn [sc_m]. match type of E with Z.testbit _ ?q = _ =>
        specialize (S3 q ltac:(lia) E) end. lia.
    + split; [split|].
      * unfold boundsOK.
        cbn [sc_m pins enabled toSet toDisable nextPin set_nextPin].
        repeat (split; [assumption || lia|]). exact H6.
      * exact (Hspan Hne).
      * cbn [sc_m startPin endPin nextPin set_nextPin]. lia.
  - intros sc [HK Hn].
    destruct (scanPins_returns hw clk Hus fuel (nextPin (sc_m sc))
                (nextPin (sc_m sc)) sc HK Hn Hn) as (sc' & Hsc').
    + pose proof HK as [_ (S1 & S2 & _)].
      rewrite Z.ltb_irrefl. lia.
    + exists sc'. split; [exact Hsc'|].
      eapply scanPins_walkOK; [|exact Hsc']. split; assumption.
Qed.
End InUse.

(** * The callback and the timer *)

Section Callback.
Variable clk : nat -> Z.

Lemma timer1Interrupt_scan_callback hw fuel m m' :
  timer1Interrupt hw clk fuel m = Done m' ->
  exists sc, timer1CB (sc_m sc) = timer1CB m /\ m' = rearm hw clk sc.
Proof.
  intros H.
  set (K := fun sc : Scan => timer1CB (sc_m sc) = timer1CB m).
  destruct (timer1Interrupt_rule hw clk K) with (fuel := fuel) (m := m) (m' := m')
    as (b & sc & Hb & HK & ->); auto.
  - intros pin sc sc' HK Hs. unfold K in *.
    apply servicePin_Done in Hs
      as [_ [[_ ->]|(_ & w & r & closer & _ & _ & Hm & _)]]; [exact HK|].
    rewrite Hm. cbn [timer1CB set_reads].
    destruct (misc_applyPinResult pin (bitmask pin) r closer (sc_m sc))
      as (_ & _ & -> & _). exact HK.
  - exists sc. split; [|reflexivity]. apply HK. unfold K.
    apply beginInterrupt_Done in Hb. cbn zeta in Hb.
    destruct Hb as (_ & _ & _ & _ & _ & _ & Hcb & _). exact Hcb.
Qed.

(** X18: on the ESP8266 at 80 MHz, with a callback installed, a firing that
    returns re-arms the timer with no more than the delay the callback asks
    for, less DELTAIRQ, and never with less than IRQLATENCY: if the value the
    callback returns, converted to cycles and read as an int32_t, is at most
    B, then T1L <= max (IRQLATENCY, B - DELTAIRQ). *)
Theorem timer1Interrupt_callback_cap fuel m m' cb B :
  timer1Interrupt esp8266 clk fuel m = Done m' ->
  timer1CB m = Some cb ->
  (forall t, s32 (microsecondsToClockCycles esp8266 (u32 (cb t))) <= B) ->
  T1L m' <= Z.max (IRQLATENCY esp8266) (B - DELTAIRQ esp8266).
Proof.
  intros H Hcb HB.
  destruct (timer1Interrupt_scan_callback esp8266 fuel m m' H) as (sc & Hsc & ->).
  unfold rearm. rewrite Hsc, Hcb.
  specialize (HB (sc_now sc)).
  set (cbc := s32 (microsecondsToClockCycles esp8266 (u32 (cb (sc_now sc))))) in *.
  set (d := s32 _).
  change (IRQLATENCY esp8266) with 240. change (DELTAIRQ esp8266) with 320.
  change (MAXIRQCCYS esp8266) with 800000.
  change (clockCyclesPerMicrosecond esp8266 =? 160) with false.
  cbn [T1L set_T1L set_edgeIntEnabled fst snd]. cbv iota.
  assert (Htm : (if cbc <? d then cbc else d) <= cbc)
    by (destruct (Z.ltb_spec cbc d); lia).
  generalize dependent (if cbc <? d then cbc else d). intros tm Htm.
  destruct (Z.leb_spec tm (240 + 320)); [change (u32 240) with 240; lia|].
  destruct (Z.leb_spec 800000 tm); [change (u32 (800000 - 320)) with 799680; lia|].
  rewrite u32_small; lia.
Qed.
End Callback.

(** * The interface under the handler *)

Lemma putPin_putPin i w w' m : putPin i w (putPin i w' m) = putPin i w m.
Proof.
  unfold putPin. cbn. unfold set_pins. cbn. f_equal.
  apply list_insert_insert_eq.
Qed.

Lemma getPin_putPin m i w w0 :
  getPin m i = Done w0 -> getPin (putPin i w m) i = Done w.
Proof.
  intros H. apply getPin_Done in H as [Hi Hw]. unfold getPin.
  destruct (Z.ltb_spec i 0); [lia|].
  rewrite (lookup_putPin_eq m i w w0 Hw). reflexivity.
Qed.

Lemma writeWave_Done m i f w0 :
  getPin m i = Done w0 -> writeWave i f m = Done (putPin i (f w0) m).
Proof. intros H. unfold writeWave. rewrite H. reflexivity. Qed.

Section Quiet.
Variable hw : Platform.
Variable clk : nat -> Z.

(** Without a firing between its accesses the request is the atomic one. *)
Lemma requestWaveformNMI_quiet m pin high low rt ap po auto :
  requestWaveformNMI hw clk (fun _ => []) m pin high low rt ap po auto
  = requestWaveform hw m pin high low rt ap po auto.
Proof.
  unfold requestWaveformNMI, requestWaveform.
  destruct (normalizePeriod hw high low) as [[h p]| |]; cbn [bind fst snd];
    try reflexivity.
  destruct (_ || _); [reflexivity|]. cbn [nmi bind].
  destruct (getPin m pin) as [w0| |] eqn:Hw0;
    [|unfold writeWave; rewrite Hw0; reflexivity..].
  rewrite (writeWave_Done m pin _ w0 Hw0). cbn [bind].
  rewrite (writeWave_Done _ pin _ _ (getPin_putPin m pin _ w0 Hw0)).
  cbn [bind]. rewrite putPin_putPin.
  rewrite (writeWave_Done _ pin _ _ (getPin_putPin m pin _ w0 Hw0)).
  cbn [bind]. rewrite putPin_putPin.
  destruct (shl1 pin) as [b| |]; cbn [bind]; try reflexivity.
  change (enabled (putPin pin ?w m)) with (enabled m).
  destruct (Z.land (enabled m) b =? 0).
  - repeat (rewrite (writeWave_Done _ pin _ _ (getPin_putPin m pin _ w0 Hw0));
            cbn [bind]; rewrite putPin_putPin).
    rewrite (getPin_putPin m pin _ w0 Hw0). cbn [bind].
    unfold postActivate. cbv zeta.
    destruct (dutyCcys _ =? 0); cbn [bind]; destruct (negb _);
      try reflexivity; cbn [bind]; destruct (_ <? _); reflexivity.
  - repeat (rewrite (writeWave_Done _ pin _ _ (getPin_putPin m pin _ w0 Hw0));
            cbn [bind]; rewrite putPin_putPin).
    unfold postUpdate. cbv zeta. destruct (rt =? 0); cbn [bind]; reflexivity.
Qed.
End Quiet.

Section Interleaved.
Variable hw : Platform.
Variable clk : nat -> Z.

Lemma nmi_rule (P : Machine -> Prop) fuels : forall m m',
  (forall f x x', P x -> timer1Interrupt hw clk f x = Done x' -> P x') ->
  P m -> nmi hw clk fuels m = Done m' -> P m'.
Proof.
  induction fuels as [|f fs IH]; intros m m' Hstep HP H; cbn [nmi] in H.
  - invc H. exact HP.
  - apply bind_Done in H as (m1 & H1 & H). apply (IH m1 m' Hstep); [|exact H].
    destruct (_ && _); [eapply Hstep; eauto | invc H1; exact HP].
Qed.

Lemma visit_runsFree Q now c c' :
  runsFree Q c -> visit hw now c = Done c' -> runsFree Q c'.
Proof.
  intros (J1 & J2 & J3) Hv.
  apply visit_Done in Hv as [[_ ->]|[_ (r & Hr & ->)]]; [repeat split; auto|].
  pose proof (pinStep_config _ _ _ _ _ Hr) as (C1 & C2 & C3 & _ & C5 & _).
  unfold runsFree. cbn. rewrite C1, C2, C3, C5. repeat split; auto.
  destruct (r_expire r) eqn:Ex; [|reflexivity].
  apply pinStep_expire in Hr as [Hbad _]; [congruence | exact Ex].
Qed.

(** A channel that runs without an expiry keeps running through a firing
    that finds no request for it. *)
Lemma timer1Interrupt_runsFree Q pin f m m' c :
  0 <= pin -> toSet m <> pin -> toDisable m <> pin ->
  channel m pin = Some c -> runsFree Q c ->
  timer1Interrupt hw clk f m = Done m' ->
  exists c', channel m' pin = Some c' /\ runsFree Q c'.
Proof.
  intros Hp Hts Htd Hc HJ H.
  destruct (timer1Interrupt_scan_keeps hw clk (runsFree Q) pin f m m' Hp)
    as (b & Hb & Hfin); [intros ? ? ?; apply visit_runsFree|exact H|].
  destruct (beginInterrupt_channel hw clk m b pin c Hp Hb Hc)
    as (c1 & Hc1 & _ & Hen & Hsame & _).
  destruct (Hsame Hts) as [Hw Hl].
  apply (Hfin c1 Hc1). destruct HJ as (J1 & J2 & J3).
  unfold runsFree. rewrite Hw, Hen, J1.
  destruct (Z.eqb_spec (toDisable m) pin); [contradiction|]. auto.
Qed.

(** The firing that takes up the activation of a channel without a run time
    leaves it running without an expiry. *)
Lemma timer1Interrupt_starts (Q : Z -> Z -> bool -> Prop) pin f m m' c :
  0 <= pin -> toSet m = pin -> channel m pin = Some c ->
  mode (ch_wave c) = INIT -> expiryCcy (ch_wave c) = 0 ->
  Q (dutyCcys (ch_wave c)) (periodCcys (ch_wave c)) (autoPwm (ch_wave c)) ->
  timer1Interrupt hw clk f m = Done m' ->
  exists c', channel m' pin = Some c' /\ runsFree Q c'.
Proof.
  intros Hp Hts Hc Hmode Hex HQ H.
  destruct (timer1Interrupt_scan_keeps hw clk (runsFree Q) pin f m m' Hp)
    as (b & Hb & Hfin); [intros ? ? ?; apply visit_runsFree|exact H|].
  destruct (beginInterrupt_channel hw clk m b pin c Hp Hb Hc)
    as (c1 & Hc1 & _ & Hen & _ & Hinit).
  specialize (Hinit Hts). rewrite Hmode in Hinit.
  destruct Hinit as (_ & np & Hwave & _).
  apply (Hfin c1 Hc1). unfold runsFree.
  rewrite Hwave, Hen, Hts, Z.eqb_refl, orb_true_r.
  destruct (anchorWave_config np (ch_wave c)) as (A1 & A2 & A3 & _).
  rewrite A1, A2, A3. repeat split; auto.
  unfold anchorWave. cbn. rewrite Hex. reflexivity.
Qed.

Lemma writeWave_channel pin f m m1 c :
  channel m pin = Some c -> 0 <= pin ->
  writeWave pin f m = Done m1 ->
  m1 = putPin pin (f (ch_wave c)) m /\
  channel m1 pin
  = Some (mkChannel (f (ch_wave c)) (ch_level c) (ch_enabled c) (ch_out c)).
Proof.
  intros Hc Hp H. apply channel_Some in Hc as (Hw & Hl & He & Ho).
  unfold writeWave in H. rewrite (getPin_lookup _ _ _ Hp Hw) in H.
  cbn [bind] in H. invc H. split; [reflexivity|].
  unfold channel. rewrite (lookup_putPin_eq m pin _ _ Hw).
  rewrite Hl, He, Ho. reflexivity.
Qed.
End Interleaved.

Section Phases.
Variable hw : Platform.
Variable clk : nat -> Z.

Lemma nmi_parked pin w fuels m m' :
  0 <= pin -> parked pin w m -> nmi hw clk fuels m = Done m' ->
  parked pin w m'.
Proof.
  intros Hp. apply nmi_rule. clear m m'.
  intros f m m' (Hts & Htd & c & Hc & Hen & Hw) H.
  pose proof (timer1Interrupt_retires hw clk pin f m m' c Hp ltac:(lia) Hc
                (or_introl Hen) H) as Hc'.
  apply timer1Interrupt_frame in H as (F1 & F2 & _).
  split; [exact F1|]. split; [exact F2|].
  exists (retired c). split; [exact Hc'|]. split; [reflexivity|exact Hw].
Qed.

Lemma timer1Interrupt_running pin Q f m m' :
  0 <= pin -> running pin Q m -> timer1Interrupt hw clk f m = Done m' ->
  running pin Q m'.
Proof.
  intros Hp (Hts & Htd & c & Hc & HJ) H.
  destruct (timer1Interrupt_runsFree hw clk Q pin f m m' c Hp ltac:(lia)
              ltac:(lia) Hc HJ H) as (c' & Hc' & HJ').
  apply timer1Interrupt_frame in H as (F1 & F2 & _).
  split; [exact F1|]. split; [exact F2|]. eauto.
Qed.

Lemma nmi_running pin Q fuels m m' :
  0 <= pin -> running pin Q m -> nmi hw clk fuels m = Done m' ->
  running pin Q m'.
Proof.
  intros Hp. apply nmi_rule. intros f x x'. apply timer1Interrupt_running, Hp.
Qed.

Lemma nmi_starting pin Q w fuels m m' :
  0 <= pin -> mode w = INIT -> expiryCcy w = 0 ->
  Q (dutyCcys w) (periodCcys w) (autoPwm w) ->
  starting pin Q w m -> nmi hw clk fuels m = Done m' ->
  starting pin Q w m'.
Proof.
  intros Hp Hmode Hex HQ. apply nmi_rule. clear m m'.
  intros f m m' [(Hts & Htd & c & Hc & Hw)|Hrun] H; right.
  - subst w.
    destruct (timer1Interrupt_starts hw clk Q pin f m m' c Hp Hts Hc Hmode Hex
                HQ H) as (c' & Hc' & HJ').
    apply timer1Interrupt_frame in H as (F1 & F2 & _).
    split; [exact F1|]. split; [exact F2|]. eauto.
  - eapply timer1Interrupt_running; eauto.
Qed.

Lemma nmi_timer1Running fuels m m' :
  nmi hw clk fuels m = Done m' -> timer1Running m' = timer1Running m.
Proof.
  intros H.
  apply (nmi_rule hw clk (fun x => timer1Running x = timer1Running m)
           fuels m m'); auto.
  intros f x x' Hx Hf. apply timer1Interrupt_frame in Hf as (_ & _ & _ & F4 & _).
  congruence.
Qed.

Lemma awaitNMI_starting pin Q w during fuel : forall i m m',
  0 <= pin -> mode w = INIT -> expiryCcy w = 0 ->
  Q (dutyCcys w) (periodCcys w) (autoPwm w) ->
  starting pin Q w m -> awaitNMI hw clk during fuel i m = Done m' ->
  running pin Q m' /\ timer1Running m' = timer1Running m.
Proof.
  induction fuel as [|f IH]; intros i m m' Hp Hmode Hex HQ HS H;
    cbn [awaitNMI] in H.
  - destruct (Z.ltb_spec (toSet m) 0); [|discriminate]. invc H.
    destruct HS as [(Hts & _)|Hrun]; [lia|auto].
  - destruct (Z.ltb_spec (toSet m) 0).
    + invc H. destruct HS as [(Hts & _)|Hrun]; [lia|auto].
    + apply bind_Done in H as (m1 & H1 & H).
      pose proof (nmi_starting pin Q w _ _ _ Hp Hmode Hex HQ HS H1) as HS1.
      destruct (IH _ _ _ Hp Hmode Hex HQ HS1 H) as [R1 R2].
      split; [exact R1|]. rewrite R2. eapply nmi_timer1Running; eauto.
Qed.
End Phases.

Section InterleavedStart.
Variable hw : Platform.
Variable clk : nat -> Z.

Lemma parked_write pin f w m m1 :
  0 <= pin -> parked pin w m -> writeWave pin f m = Done m1 ->
  parked pin (f w) m1 /\ timer1Running m1 = timer1Running m /\
  enabled m1 = enabled m.
Proof.
  intros Hp (Hts & Htd & c & Hc & Hen & Hw) H.
  destruct (writeWave_channel pin f m m1 c Hc Hp H) as [-> Hc1].
  split; [|split; reflexivity].
  split; [exact Hts|]. split; [exact Htd|].
  eexists. split; [exact Hc1|]. cbn. subst w. auto.
Qed.

Lemma running_write pin (Q Q' : Z -> Z -> bool -> Prop) f m m1 :
  0 <= pin -> running pin Q m -> writeWave pin f m = Done m1 ->
  (forall w, mode w = INFINITE ->
             Q (dutyCcys w) (periodCcys w) (autoPwm w) ->
             mode (f w) = INFINITE /\
             Q' (dutyCcys (f w)) (periodCcys (f w)) (autoPwm (f w))) ->
  running pin Q' m1 /\ timer1Running m1 = timer1Running m /\
  enabled m1 = enabled m.
Proof.
  intros Hp (Hts & Htd & c & Hc & J1 & J2 & J3) H Hf.
  destruct (writeWave_channel pin f m m1 c Hc Hp H) as [-> Hc1].
  split; [|split; reflexivity].
  split; [exact Hts|]. split; [exact Htd|].
  eexists. split; [exact Hc1|]. destruct (Hf _ J2 J3) as [K1 K2].
  unfold runsFree. cbn. auto.
Qed.

Lemma running_enabled pin Q m :
  running pin Q m -> Z.testbit (enabled m) pin = true.
Proof.
  intros (_ & _ & c & Hc & J1 & _).
  apply channel_Some in Hc as (_ & _ & He & _). congruence.
Qed.

Lemma parked_disabled pin w m :
  parked pin w m -> Z.testbit (enabled m) pin = false.
Proof.
  intros (_ & _ & c & Hc & J1 & _).
  apply channel_Some in Hc as (_ & _ & He & _). congruence.
Qed.

Lemma step_parked pin w fuels f x y z :
  0 <= pin -> parked pin w x ->
  nmi hw clk fuels x = Done y -> writeWave pin f y = Done z ->
  parked pin (f w) z /\ timer1Running z = timer1Running x.
Proof.
  intros Hp HP Hn Hw.
  pose proof (nmi_parked hw clk pin w fuels x y Hp HP Hn) as HP1.
  destruct (parked_write pin f w y z Hp HP1 Hw) as (HP2 & E & _).
  split; [exact HP2|]. rewrite E. eapply nmi_timer1Running; eauto.
Qed.

Lemma step_running pin (Q Q' : Z -> Z -> bool -> Prop) fuels f x y z :
  0 <= pin -> running pin Q x ->
  nmi hw clk fuels x = Done y -> writeWave pin f y = Done z ->
  (forall w, mode w = INFINITE ->
             Q (dutyCcys w) (periodCcys w) (autoPwm w) ->
             mode (f w) = INFINITE /\
             Q' (dutyCcys (f w)) (periodCcys (f w)) (autoPwm (f w))) ->
  running pin Q' z /\ timer1Running z = timer1Running x.
Proof.
  intros Hp HP Hn Hw Hf.
  pose proof (nmi_running hw clk pin Q fuels x y Hp HP Hn) as HP1.
  destruct (running_write pin Q Q' f y z Hp HP1 Hw Hf) as (HP2 & E & _).
  split; [exact HP2|]. rewrite E. eapply nmi_timer1Running; eauto.
Qed.

Lemma parked_writePin pin w lvl m :
  parked pin w m -> parked pin w (writePin pin lvl m).
Proof.
  intros (Hts & Htd & c & Hc & Hen & Hw).
  apply channel_Some in Hc as (Hpw & Hl & He & Ho).
  assert (E : toSet (writePin pin lvl m) = toSet m /\
              toDisable (writePin pin lvl m) = toDisable m /\
              states (writePin pin lvl m) = states m /\
              enabled (writePin pin lvl m) = enabled m)
    by (unfold writePin; destruct (pin =? 16); cbn; auto).
  destruct E as (E1 & E2 & E3 & E4).
  split; [lia|]. split; [lia|].
  exists (mkChannel (ch_wave c) (ch_level c) (ch_enabled c)
            (pinLevel (writePin pin lvl m) pin)).
  split; [|auto]. unfold channel.
  rewrite pins_writePin, Hpw, E3, E4, <- Hl, <- He. reflexivity.
Qed.

Lemma starting_ext pin Q w m1 m2 :
  channel m2 pin = channel m1 pin -> toSet m2 = toSet m1 ->
  toDisable m2 = toDisable m1 -> starting pin Q w m1 -> starting pin Q w m2.
Proof.
  unfold starting, running. intros -> -> -> H. exact H.
Qed.

(** X19: a call of startWaveformClockCycles with runTimeCcys = 0 on a channel
    that is off, or that runs without an expiry, leaves the channel running,
    whatever firings of the handler pass between its accesses to the shared
    state and inside its wait loop: if the call returns true, the channel is
    enabled and in INFINITE mode, its record carries the normalised duty and
    period and the autoPwm flag of the request, the toSet mailbox is empty
    and the timer runs. *)
Theorem startWaveformClockCyclesNMI_runs
    sched during fuel m pin high low ap po auto c m' :
  quiescent m -> 0 <= pin ->
  channel m pin = Some c ->
  (ch_enabled c = true -> mode (ch_wave c) = INFINITE) ->
  startWaveformClockCyclesNMI hw clk sched during fuel m pin high low 0 ap po
    auto = Done (true, m') ->
  Z.testbit (enabled m') pin = true /\ timer1Running m' = true /\
  toSet m' < 0 /\
  exists h p w,
    normalizePeriod hw high low = Done (h, p) /\
    pins m' !! Z.to_nat pin = Some w /\ mode w = INFINITE /\
    dutyCcys w = h /\ periodCcys w = p /\ autoPwm w = auto.
Proof.
  intros (Hwf & Hts & Htd & T1 & T2 & T3) Hp Hc Hinf H.
  unfold startWaveformClockCyclesNMI in H.
  apply bind_Done in H as ([ok m1] & Hreq & H). cbn [fst snd] in H.
  destruct ok; [|discriminate].
  apply bind_Done in H as (m2 & H204 & H).
  apply bind_Done in H as (m3 & Haw & H). invc H.
  unfold requestWaveformNMI in Hreq.
  apply bind_Done in Hreq as ([h p] & Hn & Hreq). cbn [fst snd] in Hreq.
  destruct (_ || _) in Hreq; [discriminate|].
  apply bind_Done in Hreq as (x1 & N163 & Hreq).
  apply bind_Done in Hreq as (x2 & W163 & Hreq).
  apply bind_Done in Hreq as (x3 & N164 & Hreq).
  apply bind_Done in Hreq as (x4 & W164 & Hreq).
  apply bind_Done in Hreq as (x5 & N165 & Hreq).
  apply bind_Done in Hreq as (x6 & W165 & Hreq).
  apply bind_Done in Hreq as (x7 & N168 & Hreq).
  apply bind_Done in Hreq as (b & Hb & Hreq).
  apply shl1_Done in Hb as [Hp32 ->].
  rewrite land_bitmask_0 in Hreq by lia.
  set (Q3 := fun (d per : Z) (a : bool) => d = h /\ per = p /\ a = auto).
  assert (Hfin : running pin Q3 m' /\ timer1Running m' = true).
  2:{ destruct Hfin as [(F1 & F2 & c' & Hc' & J1 & J2 & J3 & J4 & J5) Hrun].
      apply channel_Some in Hc' as (Hw' & _ & He' & _).
      split; [congruence|]. split; [exact Hrun|]. split; [exact F1|].
      exists h, p, (ch_wave c'). auto 10. }
  destruct (ch_enabled c) eqn:Hen.
  - (* the channel runs without an expiry: the update path *)
    assert (R0 : running pin (fun _ _ _ => True) m).
    { split; [exact Hts|]. split; [exact Htd|]. exists c.
      split; [exact Hc|]. repeat split; auto. }
    assert (Hrun : timer1Running m = true).
    { apply T3. intros E. apply channel_Some in Hc as (_ & _ & He & _).
      rewrite E, Z.bits_0 in He. congruence. }
    destruct (step_running pin _ (fun d _ _ => d = h) _ _ _ _ _ Hp R0 N163 W163)
      as [R1 E1]; [intros w Hm _; split; [exact Hm|reflexivity]|].
    destruct (step_running pin _ (fun d per _ => d = h /\ per = p)
                _ _ _ _ _ Hp R1 N164 W164)
      as [R2 E2]; [intros w Hm Hd; split; [exact Hm|split; [exact Hd|reflexivity]]|].
    destruct (step_running pin _ Q3 _ _ _ _ _ Hp R2 N165 W165)
      as [R3 E3]; [intros w Hm [Hd Hper]; split; [exact Hm|]; repeat split; auto|].
    pose proof (nmi_running hw clk pin Q3 _ _ _ Hp R3 N168) as R4.
    pose proof (nmi_timer1Running hw clk _ _ _ N168) as E4.
    rewrite (running_enabled pin Q3 x7 R4) in Hreq. cbn [negb] in Hreq.
    apply bind_Done in Hreq as (x8 & N194 & Hreq).
    apply bind_Done in Hreq as (x9 & W194 & Hreq).
    apply bind_Done in Hreq as (x10 & N196 & Hreq).
    apply bind_Done in Hreq as (x11 & W196 & Hreq).
    cbn [Z.eqb] in Hreq. invc Hreq.
    destruct (step_running pin _ Q3 _ _ _ _ _ Hp R4 N194 W194)
      as [R5 E5]; [intros w Hm HQ; split; [reflexivity|exact HQ]|].
    destruct (step_running pin _ Q3 _ _ _ _ _ Hp R5 N196 W196)
      as [R6 E6]; [intros w Hm HQ; split; [exact Hm|exact HQ]|].
    pose proof (nmi_running hw clk pin Q3 _ _ _ Hp R6 H204) as R7.
    pose proof (nmi_timer1Running hw clk _ _ _ H204) as E7.
    assert (m' = m2).
    { destruct R7 as (F1 & _). destruct fuel; cbn [awaitNMI] in Haw;
        destruct (Z.ltb_spec (toSet m2) 0); try lia; congruence. }
    subst m'. split; [exact R7|]. congruence.
  - (* the channel is off: the activation path *)
    assert (P0 : parked pin (ch_wave c) m).
    { split; [exact Hts|]. split; [exact Htd|]. exists c. auto. }
    destruct (step_parked pin _ _ _ _ _ _ Hp P0 N163 W163) as [P1 E1].
    destruct (step_parked pin _ _ _ _ _ _ Hp P1 N164 W164) as [P2 E2].
    destruct (step_parked pin _ _ _ _ _ _ Hp P2 N165 W165) as [P3 E3].
    pose proof (nmi_parked hw clk pin _ _ _ _ Hp P3 N168) as P4.
    rewrite (parked_disabled pin _ x7 P4) in Hreq. cbn [negb] in Hreq.
    apply bind_Done in Hreq as (y1 & N170 & Hreq).
    apply bind_Done in Hreq as (y2 & W170 & Hreq).
    apply bind_Done in Hreq as (y3 & N171 & Hreq).
    apply bind_Done in Hreq as (y4 & W171 & Hreq).
    apply bind_Done in Hreq as (y5 & N172 & Hreq).
    apply bind_Done in Hreq as (y6 & W172 & Hreq).
    apply bind_Done in Hreq as (y7 & N173 & Hreq).
    apply bind_Done in Hreq as (y8 & W173 & Hreq).
    apply bind_Done in Hreq as (y9 & N174 & Hreq).
    apply bind_Done in Hreq as (w & Hw & Hreq).
    apply bind_Done in Hreq as (y10 & Hgpio & Hreq).
    apply bind_Done in Hreq as (y11 & N184 & Hreq).
    apply bind_Done in Hreq as (y12 & N185 & Hreq).
    destruct (step_parked pin _ _ _ _ _ _ Hp P4 N170 W170) as [P5 _].
    destruct (step_parked pin _ _ _ _ _ _ Hp P5 N171 W171) as [P6 _].
    destruct (step_parked pin _ _ _ _ _ _ Hp P6 N172 W172) as [P7 _].
    destruct (step_parked pin _ _ _ _ _ _ Hp P7 N173 W173) as [P8 _].
    pose proof (nmi_parked hw clk pin _ _ _ _ Hp P8 N174) as P9.
    set (w1 := set_alignPhase _ _) in *.
    assert (P10 : parked pin w1 y10).
    { destruct (dutyCcys w =? 0); [|invc Hgpio; exact P9].
      apply bind_Done in Hgpio as (z & Hz & Hgpio). invc Hgpio.
      apply parked_writePin. eapply nmi_parked; eauto. }
    pose proof (nmi_parked hw clk pin _ _ _ _ Hp P10 N184) as P11.
    assert (Hw1 : mode w1 = INIT /\ expiryCcy w1 = 0 /\
                  Q3 (dutyCcys w1) (periodCcys w1) (autoPwm w1))
      by (repeat split; reflexivity).
    destruct Hw1 as (Hmode & Hex & HQ).
    assert (S0 : starting pin Q3 w1 (set_toSet pin y11)).
    { left. destruct P11 as (_ & Htd11 & c11 & Hc11 & _ & Hw11).
      split; [reflexivity|]. split; [exact Htd11|]. exists c11. auto. }
    pose proof (nmi_starting hw clk pin Q3 w1 _ _ _ Hp Hmode Hex HQ S0 N185)
      as S1.
    assert (S2 : starting pin Q3 w1 m1 /\ timer1Running m1 = true).
    { destruct (timer1Running y12) eqn:Er; cbn [negb] in Hreq.
      - apply bind_Done in Hreq as (y13 & N188 & Hreq).
        pose proof (nmi_starting hw clk pin Q3 w1 _ _ _ Hp Hmode Hex HQ S1 N188)
          as S3.
        pose proof (nmi_timer1Running hw clk _ _ _ N188) as E188.
        destruct (_ <? _) in Hreq.
        + apply bind_Done in Hreq as (y14 & N190 & Hreq). invc Hreq.
          pose proof (nmi_starting hw clk pin Q3 w1 _ _ _ Hp Hmode Hex HQ S3
                        N190) as S4.
          pose proof (nmi_timer1Running hw clk _ _ _ N190) as E190.
          split; [|cbn; congruence].
          apply (starting_ext pin Q3 w1 y14); auto.
        + invc Hreq. split; [exact S3|congruence].
      - invc Hreq. split; [|reflexivity].
        apply (starting_ext pin Q3 w1 y12); auto. }
    destruct S2 as [S2 Er].
    pose proof (nmi_starting hw clk pin Q3 w1 _ _ _ Hp Hmode Hex HQ S2 H204)
      as S5.
    pose proof (nmi_timer1Running hw clk _ _ _ H204) as E204.
    destruct (awaitNMI_starting hw clk pin Q3 w1 during fuel 0%nat m2 m' Hp
                Hmode Hex HQ S5 Haw) as [R E].
    split; [exact R|congruence].
Qed.
End InterleavedStart.

(** C9: the update of an enabled channel with runTimeCcys = 0 does not always
    cancel its pending expiry.  Channel 4 is started with a run time of
    150000 cycles and is due to expire at cycle 150110.  The update is called
    before that, finds the channel enabled (line 168), and the handler fires
    at cycle 150160, before the write of line 194: it disables the channel at
    its expiry.  The call then writes mode INFINITE and expiry 0 into the
    record of the disabled channel, posts nothing and returns true.  The
    channel does not run, and no later firing enables it. *)
Theorem C9_update_races_expiry :
  exists m0 m c m',
    startWaveformClockCycles esp8266 (raceClock 50000) 100 resetMachine
      4 100000 100000 150000 (-1) 0 false = Done (true, m0) /\
    timer1Interrupt esp8266 (raceClock 50000) 100 m0 = Done m /\
    channel m 4 = Some c /\ ch_enabled c = true /\
    mode (ch_wave c) = EXPIRES /\ expiryCcy (ch_wave c) = 150110 /\
    startWaveformClockCyclesNMI esp8266 (raceClock 50000)
      (fun l => if l =? 194 then [100%nat] else []) (fun _ => []) 100 m
      4 100000 100000 0 (-1) 0 false = Done (true, m') /\
    toSet m' < 0 /\ toDisable m' < 0 /\
    channel m' 4
    = Some (mkChannel (set_expiryCcy 0 (set_mode INFINITE (ch_wave c)))
              (ch_level c) false (ch_out c)) /\
    forall clk fuels m'',
      firings esp8266 clk fuels m' = Done m'' ->
      Z.testbit (enabled m'') 4 = false.
Proof.
  eexists _, _, _, _.
  do 10 (split; [vm_compute; reflexivity|]).
  intros clk fuels m'' Hf.
  match type of Hf with firings _ _ _ ?M = _ =>
    assert (HP : Z.testbit (enabled m'') 4 = false /\ toSet m'' <> 4);
      [|exact (proj1 HP)];
    apply (firings_rule esp8266 clk
             (fun x => Z.testbit (enabled x) 4 = false /\ toSet x <> 4)
             fuels M m''); [| vm_compute; split; [reflexivity|discriminate]
                            | exact Hf]
  end.
  intros f x x' [Hx1 Hx2] Hstep.
  apply timer1Interrupt_frame in Hstep as (F1 & _ & _ & _ & _ & _ & F7).
  split; [|lia].
  destruct (Z.testbit (enabled x') 4) eqn:E; [|reflexivity].
  destruct (F7 4 ltac:(lia) E) as [[H _]|H]; congruence.
Qed.

(** An update torn by the handler.  Channel 4 runs 100000 cycles high /
    100000 low and waits, low, for its rising edge at cycle 200110.  An
    update to 300000 high / 500000 low is called, and the handler fires at
    cycle 200170 between the write of dutyCcys (line 163) and the write of
    periodCcys (line 164): the pin rises for the new duty of 300000 cycles in
    a period of the old 200000.  At the firing that serves the end of that
    duty, at cycle 500200, the next period is already due: the pin falls
    and, 10 cycles later, rises again, at a cycle where neither the old nor
    the new configuration places an edge. *)
Lemma torn_update_run :
  exists m0 m c m1 c1 cl ch m2,
    startWaveformClockCycles esp8266 (raceClock 100000) 100 resetMachine
      4 100000 100000 0 (-1) 0 false = Done (true, m0) /\
    timer1Interrupt esp8266 (raceClock 100000) 100 m0 = Done m /\
    channel m 4 = Some c /\ ch_out c = false /\
    nextEventCcy (ch_wave c) = 200110 /\ nextPeriodCcy (ch_wave c) = 200110 /\
    startWaveformClockCyclesNMI esp8266 (raceClock 100000)
      (fun l => if l =? 164 then [100%nat] else []) (fun _ => []) 100 m
      4 300000 500000 0 (-1) 0 false = Done (true, m1) /\
    channel m1 4 = Some c1 /\ ch_out c1 = true /\
    dutyCcys (ch_wave c1) = 300000 /\ periodCcys (ch_wave c1) = 800000 /\
    endDutyCcy (ch_wave c1) = 500170 /\ nextPeriodCcy (ch_wave c1) = 400110 /\
    visit esp8266 500200 c1 = Done cl /\ ch_out cl = false /\
    nextEventCcy (ch_wave cl) = 400110 /\
    visit esp8266 500210 cl = Done ch /\ ch_out ch = true /\
    endDutyCcy (ch_wave ch) = 800210 /\ nextPeriodCcy (ch_wave ch) = 1200110 /\
    timer1Interrupt esp8266 (stall 9 300000 (raceClock 100000)) 100 m1
    = Done m2 /\
    channel m2 4 = Some ch.
Proof.
  eexists _, _, _, _, _, _, _, _.
  repeat (split; [vm_compute; reflexivity|]). vm_compute; reflexivity.
Qed.


(** * Concrete runs *)

Lemma C1_stretched_period_witness :
  exists m',
    startWaveformClockCycles esp8266 (tickClock 100 10) 100 resetMachine
      4 0 3 0 (-1) 0 false = Done (true, m') /\
    exists w k,
      pins m' !! Z.to_nat 4 = Some w /\
      1 <= k /\ periodCcys w = k * u32 (0 + 3) /\
      0 < periodCcys w <= MAXIRQCCYS esp8266 /\
      (0 = 0 ->
       dutyCcys w = 0 /\ MAXIRQCCYS esp8266 - u32 (0 + 3) < periodCcys w) /\
      (3 = 0 ->
       dutyCcys w = periodCcys w /\
       MAXIRQCCYS esp8266 - u32 (0 + 3) < periodCcys w) /\
      (0 <> 0 -> 3 <> 0 -> k = 1 /\ dutyCcys w = 0).
Proof.
  eexists. split; [vm_compute; reflexivity|].
  eapply (C1_stretched_period esp8266 (tickClock 100 10) 100 resetMachine
            4 0 3 0 (-1) 0 false);
    [lia | lia | vm_compute; split; reflexivity | vm_compute; reflexivity
    | vm_compute; reflexivity].
Defined.

(** C1 as stated fails: 0% duty over a requested period of 3 cycles is
    stretched to 799998 cycles, below the threshold of 800000; a 50% wave of
    period 2000 is not stretched at all. *)
Lemma C1_counterexample :
  (exists m' w,
     u32 (0 + 3) < MAXIRQCCYS esp8266 /\
     startWaveformClockCycles esp8266 (tickClock 100 10) 100 resetMachine
       4 0 3 0 (-1) 0 false = Done (true, m') /\
     pins m' !! Z.to_nat 4 = Some w /\
     periodCcys w = 799998 /\ periodCcys w < MAXIRQCCYS esp8266) /\
  (exists m' w,
     u32 (1000 + 1000) < MAXIRQCCYS esp8266 /\
     startWaveformClockCycles esp8266 (tickClock 100 10) 1000 resetMachine
       4 1000 1000 0 (-1) 0 false = Done (true, m') /\
     pins m' !! Z.to_nat 4 = Some w /\
     periodCcys w = 2000 /\ periodCcys w < MAXIRQCCYS esp8266).
Proof.
  split; eexists; eexists;
    (split; [vm_compute; reflexivity|]);
    (split; [vm_compute; reflexivity|]);
    (split; [vm_compute; reflexivity|]);
    split; vm_compute; reflexivity.
Qed.

Lemma C4_phase_anchor_witness :
  exists m0 m b,
    startWaveformClockCycles esp8266 (tickClock 100 10) 100 resetMachine
      5 100000 100000 0 (-1) 0 false = Done (true, m0) /\
    requestWaveform esp8266 m0 4 100000 100000 0 5 1234 false = Done (true, m) /\
    beginInterrupt esp8266 (tickClock 100 10) m = Done b /\
    exists w',
      pins (sc_m (snd b)) !! Z.to_nat 4 = Some w' /\
      ((0 <= 5 /\ Z.testbit (enabled (sc_m (snd b))) 5 = true /\
        exists wk, pins m !! Z.to_nat 5 = Some wk /\
                   nextPeriodCcy w' = u32 (nextPeriodCcy wk + 1234)) \/
       ((5 < 0 \/ Z.testbit (enabled (sc_m (snd b))) 5 = false) /\
        nextPeriodCcy w' = u32 (tickClock 100 10 (S (reads m))))).
Proof.
  do 3 eexists.
  split; [vm_compute; reflexivity|].
  match goal with
  | |- requestWaveform _ ?M0 _ _ _ _ _ _ _ = _ /\ _ =>
      split; [vm_compute; reflexivity|];
      split; [vm_compute; reflexivity|];
      eapply (C4_phase_anchor esp8266 (tickClock 100 10) M0 _ 4 100000 100000
                0 5 1234 false);
      vm_compute; reflexivity
  end.
Defined.

Lemma C10_stop_unchecked_pin_witness :
  exists m',
    stopWaveform esp8266 (tickClock 100 10) 10 (initTimer esp8266 resetMachine)
      20 = Done (true, m') /\
    toDisable m' = toDisable (initTimer esp8266 resetMachine) /\
    toSet m' = toSet (initTimer esp8266 resetMachine) /\
    pins m' = pins (initTimer esp8266 resetMachine) /\
    enabled m' = enabled (initTimer esp8266 resetMachine) /\
    states m' = states (initTimer esp8266 resetMachine) /\
    (enabled (initTimer esp8266 resetMachine) = 0 ->
     timer1CB (initTimer esp8266 resetMachine) = None ->
     timer1Running m' = false /\ nmiAttached m' = false /\
     T1enabled m' = false) /\
    (enabled (initTimer esp8266 resetMachine) <> 0 \/
     timer1CB (initTimer esp8266 resetMachine) <> None ->
     m' = initTimer esp8266 resetMachine).
Proof.
  apply (C10_stop_unchecked_pin esp8266 (tickClock 100 10) 10
           (initTimer esp8266 resetMachine) 20);
    [lia | reflexivity | vm_compute; split; [discriminate | reflexivity]].
Defined.

Lemma C8_zero_duty_held_low_witness :
  exists m1,
    requestWaveform esp8266 resetMachine 2 0 500 0 (-1) 0 false
    = Done (true, m1) /\
    pinLevel m1 2 = false /\
    forall fuels m',
      fuels <> [] ->
      firings esp8266 (tickClock 100 10) fuels m1 = Done m' ->
      Z.testbit (states m') 2 = false /\ pinLevel m' 2 = false /\
      exists w, pins m' !! Z.to_nat 2 = Some w /\ dutyCcys w = 0.
Proof.
  eexists. split; [vm_compute; reflexivity|].
  eapply (C8_zero_duty_held_low esp8266 (tickClock 100 10) resetMachine);
    vm_compute; reflexivity.
Defined.

Lemma C6_start_stop_round_trip_witness :
  exists m1 m3,
    startWaveformClockCycles esp8266 (tickClock 100 10) 100 resetMachine
      4 100000 100000 0 (-1) 0 false = Done (true, m1) /\
    stopWaveform esp8266 (tickClock 100 10) 100 m1 4 = Done (true, m3) /\
    true = true /\ Z.testbit (enabled m3) 4 = false /\
    (Z.ldiff (enabled resetMachine) (bitmask 4) = 0 ->
     toSet resetMachine < 0 ->
     timer1CB resetMachine = None -> timer1Running m3 = false).
Proof.
  do 2 eexists.
  split; [vm_compute; reflexivity|].
  split; [vm_compute; reflexivity|].
  eapply (C6_start_stop_round_trip esp8266 (tickClock 100 10) 100 [] 100
            resetMachine 4 100000 100000 0 (-1) 0 false);
    [vm_compute; discriminate | vm_compute; reflexivity | reflexivity
    | vm_compute; reflexivity].
Defined.

(** C5: new duty and period values staged for a running channel are not
    held back until its next low-to-high transition.  Pin 4 runs 100000
    cycles high / 100000 low and is high, its duty ending at cycle 150100
    and its period at 250100.  Left alone, the next firing (at cycle 200100)
    drives the pin low.  After an update to 800000 high / 0 low, made while
    the pin is high, the same firing keeps the pin high and moves the end of
    the period to 1850100: the staged values are used before any rising
    edge, and the falling edge of the running period is dropped. *)
Theorem C5_staged_values_used_at_once :
  exists m c ma m1 mb cb,
    startWaveformClockCycles esp8266 (tickClock 100 50000) 100 resetMachine
      4 100000 100000 0 (-1) 0 false = Done (true, m) /\
    channel m 4 = Some c /\ ch_level c = true /\ ch_out c = true /\
    endDutyCcy (ch_wave c) = 150100 /\ nextPeriodCcy (ch_wave c) = 250100 /\
    timer1Interrupt esp8266 (tickClock 100 50000) 100 m = Done ma /\
    pinLevel ma 4 = false /\
    requestWaveform esp8266 m 4 800000 0 0 (-1) 0 false = Done (true, m1) /\
    timer1Interrupt esp8266 (tickClock 100 50000) 100 m1 = Done mb /\
    channel mb 4 = Some cb /\
    ch_level cb = true /\ ch_out cb = true /\
    nextPeriodCcy (ch_wave cb) = 1850100 /\
    endDutyCcy (ch_wave cb) = 1850100.
Proof.
  eexists _, _, _, _, _, _.
  repeat (split; [vm_compute; reflexivity|]). vm_compute; reflexivity.
Qed.

Lemma C3_overrun_single_step_witness :
  exists c' cp,
    visit esp8266 750140 lateChannel = Done c' /\
    ch_out c' = true /\
    nextPeriodCcy (ch_wave c') = 1000110 /\
    endDutyCcy (ch_wave c') = 850140 /\
    punctual esp8266 10 750140 lateChannel = Done cp /\
    ch_out cp = false /\
    nextPeriodCcy (ch_wave cp) = 800110.
Proof.
  destruct (C3_overrun_single_step esp8266 750140 lateChannel 10)
    as (c' & cp & Hv & _ & Ho & Hnp & Hed & _ & Hp & _ & Hop & Hnpp & _);
    [reflexivity | reflexivity | reflexivity | cbn; lia | cbn; lia
    | reflexivity | vm_compute; discriminate | vm_compute; lia |].
  exists c', cp. vm_compute in Hnp, Hed, Hop, Hnpp.
  repeat (split; [assumption|]). assumption.
Defined.

(** C3 as stated fails: pin 4 runs 100000 high / 100000 low from cycle 110,
    so that an un-skipped simulation has it high from 600110 to 700110 and
    low from there to 800110.  The counter is held up for 750000 cycles before
    the next firing, which reads it last at 750160: the firing leaves the pin
    high and the end of the period at 1000110, the simulation leaves the pin
    low and the end of the period at 800110. *)
Lemma C3_counterexample :
  exists m m' c c' cp,
    startWaveformClockCycles esp8266 (stall 3 750000 (tickClock 100 10)) 100
      resetMachine 4 100000 100000 0 (-1) 0 false = Done (true, m) /\
    channel m 4 = Some c /\
    nextPeriodCcy (ch_wave c) = 200110 /\ endDutyCcy (ch_wave c) = 100110 /\
    timer1Interrupt esp8266 (stall 3 750000 (tickClock 100 10)) 100 m = Done m' /\
    reads m' = 7%nat /\ stall 3 750000 (tickClock 100 10) 6 = 750160 /\
    channel m' 4 = Some c' /\
    ch_out c' = true /\ nextPeriodCcy (ch_wave c') = 1000110 /\
    punctual esp8266 20 750160 c = Done cp /\
    ch_out cp = false /\ nextPeriodCcy (ch_wave cp) = 800110.
Proof.
  eexists _, _, _, _, _.
  repeat (split; [vm_compute; reflexivity|]). vm_compute; reflexivity.
Qed.



Lemma startWaveformClockCycles_rejects_witness :
  startWaveformClockCycles esp8266 (tickClock 100 10) 10 resetMachine
    20 1000 1000 0 (-1) 0 false = Done (false, resetMachine) /\
  startWaveformClockCycles esp8266 (tickClock 100 10) 10 resetMachine
    4 (2 ^ 31) 7 0 (-1) 0 false = Done (false, resetMachine).
Proof.
  split.
  - apply (startWaveformClockCycles_rejects esp8266 (tickClock 100 10) 10
             resetMachine 20 1000 1000 0 (-1) 0 false 1000 2000);
      [vm_compute; reflexivity | left; lia].
  - apply (startWaveformClockCycles_rejects esp8266 (tickClock 100 10) 10
             resetMachine 4 (2 ^ 31) 7 0 (-1) 0 false (2 ^ 31) (2 ^ 31 + 7));
      [vm_compute; reflexivity
      | right; right; right; left; vm_compute; discriminate].
Defined.

Lemma timer1Interrupt_rearm_bounds_witness :
  exists m m',
    requestWaveform esp8266 resetMachine 4 100000 100000 0 (-1) 0 false
    = Done (true, m) /\
    timer1Interrupt esp8266 (tickClock 100 10) 100 m = Done m' /\
    IRQLATENCY esp8266 <= T1L m' <= MAXIRQCCYS esp8266 - DELTAIRQ esp8266 /\
    edgeIntEnabled m' = true.
Proof.
  do 2 eexists.
  split; [vm_compute; reflexivity|].
  match goal with
  | |- timer1Interrupt _ _ _ ?M = _ /\ _ =>
      split; [vm_compute; reflexivity|];
      eapply (timer1Interrupt_rearm_bounds (tickClock 100 10) 100 M);
      vm_compute; reflexivity
  end.
Defined.

Lemma visit_expires_witness :
  visit esp8266 2000
    (mkChannel (mkWaveform 1500 3000 2500 1000 2000 1500 EXPIRES (-1) false)
       true true true)
  = Done (mkChannel (mkWaveform 1500 3000 2500 1000 2000 1500 EXPIRES (-1) false)
            true false true).
Proof.
  apply (visit_expires esp8266 2000
           (mkChannel
              (mkWaveform 1500 3000 2500 1000 2000 1500 EXPIRES (-1) false)
              true true true));
    [reflexivity | reflexivity | reflexivity | vm_compute; discriminate].
Defined.

Lemma beginInterrupt_modes_witness :
  exists m b c c',
    requestWaveform esp8266 resetMachine 4 1000 1000 5000 (-1) 0 false
    = Done (true, m) /\
    beginInterrupt esp8266 (tickClock 100 10) m = Done b /\
    channel m 4 = Some c /\
    channel (sc_m (snd b)) 4 = Some c' /\
    ch_enabled c' = true /\ ch_level c' = false /\
    mode (ch_wave c') = EXPIRES /\
    nextPeriodCcy (ch_wave c') = 110 /\ expiryCcy (ch_wave c') = 5110.
Proof.
  eexists _, _, _.
  match goal with
  | |- exists c', requestWaveform _ _ _ _ _ _ _ _ _ = Done (_, ?M) /\
                  beginInterrupt _ _ _ = Done ?B /\ channel _ _ = Some ?C /\ _ =>
      assert (Hm : requestWaveform esp8266 resetMachine 4 1000 1000 5000 (-1) 0
                     false = Done (true, M)) by (vm_compute; reflexivity);
      assert (Hb : beginInterrupt esp8266 (tickClock 100 10) M = Done B)
        by (vm_compute; reflexivity);
      assert (Hc : channel M 4 = Some C) by (vm_compute; reflexivity);
      destruct (beginInterrupt_modes esp8266 (tickClock 100 10) M B 4 C
                  ltac:(lia) Hb Hc eq_refl)
        as (c' & Hc' & _ & Hen & Hl & _ & Hmd & Hex)
  end.
  exists c'. repeat (split; [assumption|]).
  assert (Hnp : nextPeriodCcy (ch_wave c') = 110).
  { vm_compute in Hc'. injection Hc' as <-. reflexivity. }
  split; [exact Hnp|]. rewrite Hex, Hnp. reflexivity.
Defined.

Lemma esp8266_us : 0 < u32 (microsecondsToClockCycles esp8266 3).
Proof. reflexivity. Qed.

Lemma resetMachine_poweredOn : poweredOn resetMachine.
Proof. unfold poweredOn. repeat split. Qed.

(** The state after a call of the interface on the machine after reset. *)
Lemma reachable_call clk c fuel m :
  inTypes c -> exec esp8266 clk fuel c resetMachine = Done m ->
  reachable esp8266 clk m.
Proof.
  intros Hc He.
  apply (reachable_step esp8266 clk resetMachine c fuel m); auto.
  apply reachable_on, resetMachine_poweredOn.
Qed.

Lemma timer1Interrupt_safe_witness :
  exists m,
    startWaveformClockCycles esp8266 (tickClock 100 10) 100 resetMachine
      4 100000 100000 0 (-1) 0 false = Done (true, m) /\
    timer1Interrupt esp8266 (tickClock 100 10) 100 m <> Undefined /\
    forall m', timer1Interrupt esp8266 (tickClock 100 10) 100 m = Done m' ->
               wellFormed m' /\ toSet m' < 0 /\ toDisable m' < 0.
Proof.
  eexists. split; [vm_compute; reflexivity|].
  match goal with |- timer1Interrupt _ _ _ ?M <> _ /\ _ =>
    apply (timer1Interrupt_safe esp8266 (tickClock 100 10) esp8266_us 100 M)
  end.
  apply (reachable_quiescent esp8266 (tickClock 100 10) esp8266_us).
  apply (reachable_call _ (CallStart 4 100000 100000 0 (-1) 0 false) 100);
    [cbn; lia | vm_compute; reflexivity].
Defined.

Lemma reachable_invariant_witness :
  exists m,
    startWaveformClockCycles esp8266 (tickClock 100 10) 100 resetMachine
      4 100000 100000 0 (-1) 0 false = Done (true, m) /\
    length (pins m) = 17%nat /\ 0 <= enabled m < 2 ^ 17 /\
    toSet m < 0 /\ toDisable m < 0 /\
    nmiAttached m = timer1Running m /\ T1enabled m = timer1Running m /\
    (enabled m <> 0 -> timer1Running m = true) /\
    forall q, 0 <= q -> Z.testbit (enabled m) q = true ->
      startPin m <= q < endPin m /\ endPin m <= 17 /\
      exists w, pins m !! Z.to_nat q = Some w /\
        0 <= dutyCcys w <= periodCcys w /\ 0 < periodCcys w < 2 ^ 31.
Proof.
  eexists. split; [vm_compute; reflexivity|].
  apply (reachable_invariant esp8266 (tickClock 100 10) esp8266_us).
  apply (reachable_call _ (CallStart 4 100000 100000 0 (-1) 0 false) 100);
    [cbn; lia | vm_compute; reflexivity].
Defined.

Lemma exec_undefined_witness :
  exec esp8266 (tickClock 100 10) 100 (CallStart 4 0 0 0 (-1) 0 false)
    resetMachine = Undefined
  <-> faulty esp8266 (CallStart 4 0 0 0 (-1) 0 false) resetMachine.
Proof.
  apply (exec_undefined esp8266 (tickClock 100 10) esp8266_us).
  - apply reachable_on, resetMachine_poweredOn.
  - cbn. lia.
Defined.

Lemma scanPins_pass_witness :
  exists m b,
    startWaveformClockCycles esp8266 (tickClock 100 10) 100 resetMachine
      4 100000 100000 0 (-1) 0 false = Done (true, m) /\
    beginInterrupt esp8266 (tickClock 100 10) m = Done b /\
    forall sc, walkOK sc ->
      exists sc',
        scanPins esp8266 (tickClock 100 10) 18 (nextPin (sc_m sc))
          (nextPin (sc_m sc)) sc = Done sc' /\ walkOK sc'.
Proof.
  pose (m := match startWaveformClockCycles esp8266 (tickClock 100 10) 100
                     resetMachine 4 100000 100000 0 (-1) 0 false with
             | Done r => snd r
             | _ => resetMachine
             end).
  pose (b := match beginInterrupt esp8266 (tickClock 100 10) m with
             | Done b => b
             | _ => (0, mkScan m 0 0)
             end).
  exists m, b. split; [vm_compute; reflexivity|].
  split; [vm_compute; reflexivity|].
  apply (scanPins_pass esp8266 (tickClock 100 10) esp8266_us 18 m b).
  - apply (reachable_quiescent esp8266 (tickClock 100 10) esp8266_us).
    apply (reachable_call _ (CallStart 4 100000 100000 0 (-1) 0 false) 100);
      [cbn; lia | vm_compute; reflexivity].
  - vm_compute. reflexivity.
  - vm_compute. discriminate.
  - lia.
Defined.


Lemma firings_idle_untouched_witness :
  exists m c m',
    startWaveformClockCycles esp8266 (tickClock 100 10) 100 resetMachine
      4 100000 100000 0 (-1) 0 false = Done (true, m) /\
    channel m 5 = Some c /\
    firings esp8266 (tickClock 100 10) [100%nat; 100%nat] m = Done m' /\
    channel m' 5 = Some c.
Proof.
  pose (m := match startWaveformClockCycles esp8266 (tickClock 100 10) 100
                     resetMachine 4 100000 100000 0 (-1) 0 false with
             | Done r => snd r
             | _ => resetMachine
             end).
  pose (c := match channel m 5 with Some c => c | None => lateChannel end).
  pose (m' := match firings esp8266 (tickClock 100 10) [100%nat; 100%nat] m with
              | Done x => x
              | _ => m
              end).
  exists m, c, m'. split; [vm_compute; reflexivity|].
  split; [vm_compute; reflexivity|]. split; [vm_compute; reflexivity|].
  apply (firings_idle_untouched esp8266 (tickClock 100 10)
           [100%nat; 100%nat] m m' 5 c).
  - lia.
  - vm_compute. discriminate.
  - vm_compute. reflexivity.
  - vm_compute. reflexivity.
  - vm_compute. reflexivity.
Defined.

Lemma firings_config_witness :
  exists m c m',
    startWaveformClockCycles esp8266 (tickClock 100 10) 100 resetMachine
      4 100000 100000 0 (-1) 0 false = Done (true, m) /\
    channel m 4 = Some c /\
    firings esp8266 (tickClock 100 10) [100%nat; 100%nat] m = Done m' /\
    exists c', channel m' 4 = Some c' /\
      dutyCcys (ch_wave c') = dutyCcys (ch_wave c) /\
      periodCcys (ch_wave c') = periodCcys (ch_wave c) /\
      autoPwm (ch_wave c') = autoPwm (ch_wave c).
Proof.
  pose (m := match startWaveformClockCycles esp8266 (tickClock 100 10) 100
                     resetMachine 4 100000 100000 0 (-1) 0 false with
             | Done r => snd r
             | _ => resetMachine
             end).
  pose (c := match channel m 4 with Some c => c | None => lateChannel end).
  pose (m' := match firings esp8266 (tickClock 100 10) [100%nat; 100%nat] m with
              | Done x => x
              | _ => m
              end).
  exists m, c, m'. split; [vm_compute; reflexivity|].
  split; [vm_compute; reflexivity|]. split; [vm_compute; reflexivity|].
  apply (firings_config esp8266 (tickClock 100 10) [100%nat; 100%nat] m m' 4 c).
  - lia.
  - vm_compute. reflexivity.
  - vm_compute. reflexivity.
Defined.

Lemma firings_mirrored_witness :
  exists m c m',
    startWaveformClockCycles esp8266 (tickClock 100 10) 100 resetMachine
      4 100000 100000 0 (-1) 0 false = Done (true, m) /\
    channel m 4 = Some c /\
    firings esp8266 (tickClock 100 10) [100%nat; 100%nat] m = Done m' /\
    exists c', channel m' 4 = Some c' /\ ch_level c' = ch_out c'.
Proof.
  pose (m := match startWaveformClockCycles esp8266 (tickClock 100 10) 100
                     resetMachine 4 100000 100000 0 (-1) 0 false with
             | Done r => snd r
             | _ => resetMachine
             end).
  pose (c := match channel m 4 with Some c => c | None => lateChannel end).
  pose (m' := match firings esp8266 (tickClock 100 10) [100%nat; 100%nat] m with
              | Done x => x
              | _ => m
              end).
  exists m, c, m'. split; [vm_compute; reflexivity|].
  split; [vm_compute; reflexivity|]. split; [vm_compute; reflexivity|].
  apply (firings_mirrored esp8266 (tickClock 100 10) [100%nat; 100%nat] m m' 4 c).
  - lia.
  - vm_compute. discriminate.
  - vm_compute. reflexivity.
  - vm_compute. reflexivity.
  - vm_compute. reflexivity.
Defined.

Lemma firings_heldHigh_witness :
  exists m c m',
    startWaveformClockCycles esp8266 (tickClock 100 10) 100 resetMachine
      4 100000 0 0 (-1) 0 false = Done (true, m) /\
    channel m 4 = Some c /\
    firings esp8266 (tickClock 100 10) [100%nat; 100%nat] m = Done m' /\
    exists c', channel m' 4 = Some c' /\ ch_level c' = true /\ ch_out c' = true.
Proof.
  pose (m := match startWaveformClockCycles esp8266 (tickClock 100 10) 100
                     resetMachine 4 100000 0 0 (-1) 0 false with
             | Done r => snd r
             | _ => resetMachine
             end).
  pose (c := match channel m 4 with Some c => c | None => lateChannel end).
  pose (m' := match firings esp8266 (tickClock 100 10) [100%nat; 100%nat] m with
              | Done x => x
              | _ => m
              end).
  exists m, c, m'. split; [vm_compute; reflexivity|].
  split; [vm_compute; reflexivity|]. split; [vm_compute; reflexivity|].
  apply (firings_heldHigh esp8266 (tickClock 100 10) [100%nat; 100%nat] m m' 4 c).
  - lia.
  - vm_compute. discriminate.
  - vm_compute. reflexivity.
  - vm_compute. reflexivity.
  - vm_compute. reflexivity.
  - vm_compute. reflexivity.
  - vm_compute. reflexivity.
Defined.

Lemma timer1Interrupt_heartbeat_witness :
  timer1Interrupt esp8266 (tickClock 100 10) 0 resetMachine
  = Done (set_edgeIntEnabled true
            (set_T1L (u32 (if clockCyclesPerMicrosecond esp8266 =? 160
                           then Z.shiftr (MAXIRQCCYS esp8266 - DELTAIRQ esp8266) 1
                           else MAXIRQCCYS esp8266 - DELTAIRQ esp8266))
               (set_reads (S (S (reads resetMachine))) resetMachine))).
Proof.
  apply (timer1Interrupt_heartbeat esp8266 (tickClock 100 10) 0 resetMachine);
    vm_compute; try reflexivity; split; discriminate || reflexivity.
Defined.

Lemma firings_frame_witness :
  exists m m',
    startWaveformClockCycles esp8266 (tickClock 100 10) 100 resetMachine
      4 100000 100000 0 (-1) 0 false = Done (true, m) /\
    firings esp8266 (tickClock 100 10) [100%nat; 100%nat] m = Done m' /\
    timer1CB m' = timer1CB m /\ timer1Running m' = timer1Running m /\
    nmiAttached m' = nmiAttached m /\ T1enabled m' = T1enabled m /\
    ([100%nat; 100%nat] <> [] -> toSet m' < 0 /\ toDisable m' < 0) /\
    forall q, 0 <= q -> Z.testbit (enabled m') q = true ->
      Z.testbit (enabled m) q = true \/ toSet m = q.
Proof.
  pose (m := match startWaveformClockCycles esp8266 (tickClock 100 10) 100
                     resetMachine 4 100000 100000 0 (-1) 0 false with
             | Done r => snd r
             | _ => resetMachine
             end).
  pose (m' := match firings esp8266 (tickClock 100 10) [100%nat; 100%nat] m with
              | Done x => x
              | _ => m
              end).
  exists m, m'. split; [vm_compute; reflexivity|].
  split; [vm_compute; reflexivity|].
  apply (firings_frame esp8266 (tickClock 100 10) [100%nat; 100%nat] m m').
  vm_compute. reflexivity.
Defined.


Lemma timer1Interrupt_callback_cap_witness :
  exists m',
    timer1Interrupt esp8266 (tickClock 100 10) 100
      (setTimer1Callback esp8266 (Some (fun _ => 1000)) resetMachine)
    = Done m' /\
    T1L m' <= Z.max (IRQLATENCY esp8266) (80000 - DELTAIRQ esp8266).
Proof.
  pose (m := setTimer1Callback esp8266 (Some (fun _ => 1000)) resetMachine).
  pose (m' := match timer1Interrupt esp8266 (tickClock 100 10) 100 m with
              | Done x => x
              | _ => m
              end).
  exists m'. split; [vm_compute; reflexivity|].
  apply (timer1Interrupt_callback_cap (tickClock 100 10) 100 m m'
           (fun _ => 1000) 80000).
  - vm_compute. reflexivity.
  - reflexivity.
  - intros t. vm_compute. discriminate.
Defined.

Lemma startWaveformClockCyclesNMI_runs_witness :
  exists m',
    startWaveformClockCyclesNMI esp8266 (tickClock 100 10)
      (fun l => if l =? 204 then [100%nat] else []) (fun _ => [100%nat]) 10
      resetMachine 4 100000 100000 0 (-1) 0 false = Done (true, m') /\
    Z.testbit (enabled m') 4 = true /\ timer1Running m' = true /\
    toSet m' < 0 /\
    exists h p w,
      normalizePeriod esp8266 100000 100000 = Done (h, p) /\
      pins m' !! Z.to_nat 4 = Some w /\ mode w = INFINITE /\
      dutyCcys w = h /\ periodCcys w = p /\ autoPwm w = false.
Proof.
  pose (m' := match startWaveformClockCyclesNMI esp8266 (tickClock 100 10)
                      (fun l => if l =? 204 then [100%nat] else [])
                      (fun _ => [100%nat]) 10 resetMachine
                      4 100000 100000 0 (-1) 0 false with
              | Done r => snd r
              | _ => resetMachine
              end).
  pose (c := match channel resetMachine 4 with
             | Some c => c
             | None => lateChannel
             end).
  exists m'. split; [vm_compute; reflexivity|].
  apply (startWaveformClockCyclesNMI_runs esp8266 (tickClock 100 10)
           (fun l => if l =? 204 then [100%nat] else []) (fun _ => [100%nat])
           10 resetMachine 4 100000 100000 (-1) 0 false c m').
  - apply poweredOn_quiescent, resetMachine_poweredOn.
  - lia.
  - vm_compute. reflexivity.
  - vm_compute. discriminate.
  - vm_compute. reflexivity.
Defined.
